(** * Calculation tree: domain model, service and repository

    A shallow embedding of the calculation core of the repository:

    - [Operator]                      (value-objects/operator.ts)
    - [CalculationOperation]          (entities/calculation-operation.ts)
    - [CalculationRoot]               (entities/calculation-root.ts)
    - [CacheKeys], [CacheTTL], the cache / repository / unit-of-work
      interfaces                      (repositories/*.interface.ts)
    - [ResilientCacheWrapper], [MemoryCache]  (infrastructure/cache)
    - [DrizzleCalculationRepository]  (the pure tree helpers of
      infrastructure/persistence/drizzle-calculation.repository.ts)
    - [CalculationService]            (services/calculation.service.ts)

    JavaScript numbers are IEEE-754 binary64 values and are modelled by the
    kernel's primitive floats; strings by [string]; [T | null] and optional
    fields by [option]; a rejected promise or a thrown [Error] by [Err].
    Code that talks to a collaborator (cache, database, clock, random ids)
    is written in a state-and-error monad over an abstract world. *)

From Stdlib Require Import Floats ZArith Permutation.
From stdpp Require Import gmap strings list.

Local Open Scope string_scope.

(* ===================================================================== *)
(** ** Errors, results and the effect monad                              *)
(* ===================================================================== *)

(** The code only ever throws [new Error(message)]: an error is its message. *)
Record Error := mkError { message : string }.

Inductive Result (A : Type) : Type :=
| Ok (a : A)
| Err (e : Error).
Arguments Ok {A} a.
Arguments Err {A} e.

Definition isOk {A} (r : Result A) : bool :=
  match r with Ok _ => true | Err _ => false end.

(** The error kinds of the specification, as the [Error] values the code
    throws for them. *)
Definition InvalidValue : Error := mkError "Value must be a finite number".
Definition MissingParent : Error :=
  mkError "Operation must have a parent (root or operation)".
Definition AmbiguousParent : Error :=
  mkError "Operation cannot have both root and operation parent".
(** Thrown by [CalculationOperation.create]. *)
Definition DivisionByZero : Error := mkError "Invalid operation: division by zero".
(** Thrown by [Operator.calculate]. *)
Definition DivisionByZeroNotAllowed : Error :=
  mkError "Division by zero is not allowed".
Definition InvalidOperator (raw : string) : Error :=
  mkError ("Invalid operator: " ++ raw
           ++ ". Must be one of: ADD, SUBTRACT, MULTIPLY, DIVIDE").
Definition ParentRootNotFound (id : string) : Error :=
  mkError ("Parent root not found: " ++ id).
Definition ParentOperationNotFound (id : string) : Error :=
  mkError ("Parent operation not found: " ++ id).
Definition MustSpecifyParent : Error :=
  mkError "Must specify parent root or operation".
(** [data.map] applied to a cached value that is not an array. *)
Definition NotAnArray : Error := mkError "data.map is not a function".

(** A computation over a world [W]: it resolves ([Ok]) or rejects ([Err])
    and leaves a new world behind. *)
Definition M (W A : Type) : Type := W -> Result A * W.

Definition ret {W A} (a : A) : M W A := fun w => (Ok a, w).

Definition throw {W A} (e : Error) : M W A := fun w => (Err e, w).

Definition bind {W A B} (m : M W A) (k : A -> M W B) : M W B :=
  fun w =>
    match m w with
    | (Ok a, w') => k a w'
    | (Err e, w') => (Err e, w')
    end.

Notation "'let*' x ':=' m 'in' k" := (bind m (fun x => k))
  (at level 10, x pattern, m at level 100, k at level 200).

(** [p.catch(() => {})]: the outcome of [p] is dropped, its effect stays. *)
Definition swallow {W A} (m : M W A) : M W unit :=
  fun w => let (_, w') := m w in (Ok tt, w').

(** [try { body } catch (error) { handler(error) }]. *)
Definition try_catch {W A} (body : M W A) (handler : Error -> M W A) : M W A :=
  fun w =>
    match body w with
    | (Ok a, w') => (Ok a, w')
    | (Err e, w') => handler e w'
    end.

(** JavaScript truthiness of an optional string: [undefined], [null] and the
    empty string are falsy. *)
Definition truthy (s : option string) : bool :=
  match s with
  | Some s => negb (String.eqb s "")
  | None => false
  end.

(** [a === b] for [a : string | null] and [b : string]. *)
Definition strict_eq (a : option string) (b : string) : bool :=
  match a with
  | Some a => String.eqb a b
  | None => false
  end.

(** A [Date] is its time value in milliseconds; [None] is the invalid date. *)
Record Date := mkDate { getTime : option Z }.

(** [new Date(d)] for a [Date] argument copies the time value. *)
Definition Date_copy (d : Date) : Date := mkDate (getTime d).

(** The ambient runtime: [new Date()] and [crypto.randomUUID()]. *)
Record Runtime (W : Type) := mkRuntime {
  newDate : W -> Date * W;
  randomUUID : W -> string * W
}.
Arguments newDate {W} _ _.
Arguments randomUUID {W} _ _.

(* ===================================================================== *)
(** ** Operator value object                                             *)
(* ===================================================================== *)

Inductive OperatorType := ADD | SUBTRACT | MULTIPLY | DIVIDE.

(** The string literal behind each member of the [OperatorType] union. *)
Definition OperatorType_name (ty : OperatorType) : string :=
  match ty with
  | ADD => "ADD"
  | SUBTRACT => "SUBTRACT"
  | MULTIPLY => "MULTIPLY"
  | DIVIDE => "DIVIDE"
  end.

Definition OPERATORS : list OperatorType := [ADD; SUBTRACT; MULTIPLY; DIVIDE].

Module Operator.

Record t := mk { value : OperatorType }.

(** [OPERATORS.includes(value)] compares [value] with each literal by
    [===]; the member found is what [value as OperatorType] denotes. *)
Definition create (value : string) : Result t :=
  match find (fun ty => String.eqb (OperatorType_name ty) value) OPERATORS with
  | None => Err (InvalidOperator value)
  | Some ty => Ok (mk ty)
  end.

Definition fromType (type : OperatorType) : t := mk type.

Definition symbol (o : t) : string :=
  match value o with
  | ADD => "+" | SUBTRACT => "-" | MULTIPLY => "*" | DIVIDE => "/"
  end.

Definition calculate (o : t) (left right : float) : Result float :=
  match value o with
  | ADD => Ok (left + right)%float
  | SUBTRACT => Ok (left - right)%float
  | MULTIPLY => Ok (left * right)%float
  | DIVIDE =>
      if PrimFloat.eqb right 0%float
      then Err DivisionByZeroNotAllowed
      else Ok (left / right)%float
  end.

Definition isValidWith (o : t) (operand : float) : bool :=
  match value o with
  | DIVIDE => if PrimFloat.eqb operand 0%float then false else true
  | _ => true
  end.

Definition toString (o : t) : OperatorType := value o.

Definition equals (o other : t) : bool :=
  String.eqb (OperatorType_name (value o)) (OperatorType_name (value other)).

End Operator.

(* ===================================================================== *)
(** ** CalculationOperation entity                                       *)
(* ===================================================================== *)

Module CalculationOperation.

Record Props := mkProps {
  p_id : string;
  p_parentRootId : option string;
  p_parentOperationId : option string;
  p_operator : OperatorType;
  p_operand : float;
  p_result : float;
  p_userId : string;
  p_username : option string;
  p_createdAt : Date;
  p_updatedAt : Date
}.

Record CreateInput := mkCreateInput {
  i_parentRootId : option string;
  i_parentOperationId : option string;
  i_operator : Operator.t;
  i_operand : float;
  i_parentValue : float;
  i_userId : string;
  i_username : option string
}.

#[local] Unset Elimination Schemes.

(** The entity: ten read-only fields and the private [_children] array. *)
Inductive t : Type := mk {
  id : string;
  parentRootId : option string;
  parentOperationId : option string;
  operator : Operator.t;
  operand : float;
  result : float;
  userId : string;
  username : option string;
  createdAt : Date;
  updatedAt : Date;
  _children : list t
}.

(** The plain record returned by [toJSON]. *)
Inductive JSON : Type := mkJSON {
  j_id : string;
  j_parentRootId : option string;
  j_parentOperationId : option string;
  j_operator : OperatorType;
  j_operand : float;
  j_result : float;
  j_userId : string;
  j_username : option string;
  j_createdAt : Date;
  j_updatedAt : Date;
  j_children : list JSON
}.

#[local] Set Elimination Schemes.

(** The private constructor; [_children] starts as the empty array. *)
Definition new (props : Props) : t :=
  {| id := p_id props;
     parentRootId := p_parentRootId props;
     parentOperationId := p_parentOperationId props;
     operator := Operator.fromType (p_operator props);
     operand := p_operand props;
     result := p_result props;
     userId := p_userId props;
     username := p_username props;
     createdAt := p_createdAt props;
     updatedAt := p_updatedAt props;
     _children := [] |}.

Definition children (o : t) : list t := _children o.

Definition create {W} (rt : Runtime W) (input : CreateInput) : M W t :=
  fun w =>
    if negb (truthy (i_parentRootId input))
       && negb (truthy (i_parentOperationId input))
    then (Err MissingParent, w)
    else if truthy (i_parentRootId input) && truthy (i_parentOperationId input)
    then (Err AmbiguousParent, w)
    else if negb (Operator.isValidWith (i_operator input) (i_operand input))
    then (Err DivisionByZero, w)
    else
      match Operator.calculate (i_operator input)
                               (i_parentValue input) (i_operand input) with
      | Err e => (Err e, w)
      | Ok result =>
          let (now, w1) := newDate rt w in
          let (uuid, w2) := randomUUID rt w1 in
          (Ok (new {| p_id := uuid;
                      (* [input.parentRootId ?? null]: only undefined becomes null *)
                      p_parentRootId := i_parentRootId input;
                      p_parentOperationId := i_parentOperationId input;
                      p_operator := Operator.toString (i_operator input);
                      p_operand := i_operand input;
                      p_result := result;
                      p_userId := i_userId input;
                      p_username := i_username input;
                      p_createdAt := now;
                      p_updatedAt := now |}), w2)
      end.

Definition fromPersistence (props : Props) : t := new props.


Definition setChildren (o : t) (children : list t) : t :=
  {| id := id o; parentRootId := parentRootId o;
     parentOperationId := parentOperationId o; operator := operator o;
     operand := operand o; result := result o; userId := userId o;
     username := username o; createdAt := createdAt o;
     updatedAt := updatedAt o;
     _children := children |}.

Fixpoint toJSON (o : t) : JSON :=
  {| j_id := id o;
     j_parentRootId := parentRootId o;
     j_parentOperationId := parentOperationId o;
     j_operator := Operator.toString (operator o);
     j_operand := operand o;
     j_result := result o;
     j_userId := userId o;
     j_username := username o;
     j_createdAt := createdAt o;
     j_updatedAt := updatedAt o;
     j_children := map toJSON (_children o) |}.

End CalculationOperation.

(* ===================================================================== *)
(** ** CalculationRoot entity                                            *)
(* ===================================================================== *)

Module CalculationRoot.

Record Props := mkProps {
  p_id : string;
  p_value : float;
  p_userId : string;
  p_username : option string;
  p_createdAt : Date;
  p_updatedAt : Date
}.

Record CreateInput := mkCreateInput {
  i_value : float;
  i_userId : string;
  i_username : option string
}.

Record t := mk {
  id : string;
  value : float;
  userId : string;
  username : option string;
  createdAt : Date;
  updatedAt : Date;
  _operations : list CalculationOperation.t
}.

Record JSON := mkJSON {
  j_id : string;
  j_value : float;
  j_userId : string;
  j_username : option string;
  j_createdAt : Date;
  j_updatedAt : Date;
  j_operations : list CalculationOperation.JSON
}.

Definition new (props : Props) : t :=
  {| id := p_id props; value := p_value props; userId := p_userId props;
     username := p_username props; createdAt := p_createdAt props;
     updatedAt := p_updatedAt props; _operations := [] |}.

Definition operations (r : t) : list CalculationOperation.t := _operations r.

(** [Number.isFinite] on a number: neither NaN nor an infinity. *)
Definition Number_isFinite (x : float) : bool := PrimFloat.is_finite x.

Definition create {W} (rt : Runtime W) (input : CreateInput) : M W t :=
  fun w =>
    if negb (Number_isFinite (i_value input))
    then (Err InvalidValue, w)
    else
      let (now, w1) := newDate rt w in
      let (uuid, w2) := randomUUID rt w1 in
      (Ok (new {| p_id := uuid;
                  p_value := i_value input;
                  p_userId := i_userId input;
                  p_username := i_username input;
                  p_createdAt := now;
                  p_updatedAt := now |}), w2).

Definition fromPersistence (props : Props) : t := new props.


Definition setOperations (r : t) (operations : list CalculationOperation.t) : t :=
  {| id := id r; value := value r; userId := userId r; username := username r;
     createdAt := createdAt r; updatedAt := updatedAt r;
     _operations := operations |}.

(** [countRecursive(op.children)]: the recursion of [countRecursive] goes
    through the elements of the array it reduces, so it is defined on one
    operation first.  A count is a small non-negative integer, on which the
    addition of JavaScript numbers is exact below 2^53; it is a [nat] here. *)
Fixpoint countChildren (op : CalculationOperation.t) : nat :=
  fold_left (fun sum c => sum + 1 + countChildren c)
            (CalculationOperation._children op) 0.

(** [ops.reduce((sum, op) => sum + 1 + countRecursive(op.children), 0)]. *)
Definition countRecursive (ops : list CalculationOperation.t) : nat :=
  fold_left (fun sum op => sum + 1 + countChildren op) ops 0.

Definition getTotalOperationCount (r : t) : nat :=
  countRecursive (_operations r).

Definition toJSON (r : t) : JSON :=
  {| j_id := id r; j_value := value r; j_userId := userId r;
     j_username := username r; j_createdAt := createdAt r;
     j_updatedAt := updatedAt r;
     j_operations := map CalculationOperation.toJSON (_operations r) |}.

End CalculationRoot.

(* ===================================================================== *)
(** ** Cache and persistence interfaces                                  *)
(* ===================================================================== *)

Module CacheKeys.

Definition FULL_TREE : string := "calc:tree:full".
Definition ROOT_LIST : string := "calc:roots".
Definition ROOT (id : string) : string := "calc:root:" ++ id.
Definition ROOT_OPERATIONS (rootId : string) : string :=
  "calc:root:" ++ rootId ++ ":ops".
Definition OPERATION (id : string) : string := "calc:op:" ++ id.
Definition OPERATION_CHILDREN (parentOpId : string) : string :=
  "calc:op:" ++ parentOpId ++ ":children".

End CacheKeys.

(** Times to live, in seconds. *)
Module CacheTTL.

Definition FULL_TREE : Z := 120.
Definition ROOT_LIST : Z := 300.
Definition ROOT : Z := 600.
Definition ROOT_OPERATIONS : Z := 300.
Definition OPERATION : Z := 600.
Definition OPERATION_CHILDREN : Z := 300.

End CacheTTL.

(** What the service stores in the cache: the array of serialized trees, one
    serialized root, or one serialized operation.  All are objects, hence
    truthy. *)
Inductive CacheValue :=
| VTrees (data : list CalculationRoot.JSON)
| VRoot (data : CalculationRoot.JSON)
| VOperation (data : CalculationOperation.JSON).

Module ICacheRepository.

Record t (W : Type) := mk {
  get : string -> M W (option CacheValue);
  set : string -> CacheValue -> option Z -> M W unit;
  delete : string -> M W unit;
  deleteMany : list string -> M W unit;
  invalidateByPrefix : string -> M W unit
}.
Arguments mk {W}.
Arguments get {W}.
Arguments set {W}.
Arguments delete {W}.
Arguments deleteMany {W}.
Arguments invalidateByPrefix {W}.

End ICacheRepository.

Module ICalculationRepository.

Record t (W : Type) := mk {
  findAllRootsWithOperations : M W (list CalculationRoot.t);
  findRootById : string -> M W (option CalculationRoot.t);
  findRootByIdWithOperations : string -> M W (option CalculationRoot.t);
  findOperationById : string -> M W (option CalculationOperation.t);
  saveRoot : CalculationRoot.t -> M W unit;
  saveOperation : CalculationOperation.t -> M W unit
}.
Arguments mk {W}.
Arguments findAllRootsWithOperations {W}.
Arguments findRootById {W}.
Arguments findRootByIdWithOperations {W}.
Arguments findOperationById {W}.
Arguments saveRoot {W}.
Arguments saveOperation {W}.

End ICalculationRepository.

Module IUnitOfWork.

(** [transaction] hands its callback the transaction-scoped unit of work,
    of which the service reads only [calculationRepository]; the callback
    is therefore given that repository. *)
Record t (W : Type) := mk {
  transaction : forall T : Type, (ICalculationRepository.t W -> M W T) -> M W T;
  calculationRepository : ICalculationRepository.t W
}.
Arguments mk {W}.
Arguments transaction {W} _ {T}.
Arguments calculationRepository {W}.

End IUnitOfWork.

(* ===================================================================== *)
(** ** Resilient cache wrapper                                           *)
(* ===================================================================== *)

Module ResilientCacheWrapper.

Record Logger (W : Type) := mkLogger { warn : string -> Error -> W -> W }.
Arguments warn {W}.

Section Wrapper.
Context {W : Type}.
Variable cache : ICacheRepository.t W.
Variable logger : Logger W.

Definition get (key : string) : M W (option CacheValue) :=
  try_catch (ICacheRepository.get cache key)
    (fun error w => (Ok None, warn logger ("GET failed for key: " ++ key) error w)).

Definition set (key : string) (value : CacheValue) (ttlSeconds : option Z)
  : M W unit :=
  try_catch (ICacheRepository.set cache key value ttlSeconds)
    (fun error w => (Ok tt, warn logger ("SET failed for key: " ++ key) error w)).

Definition delete (key : string) : M W unit :=
  try_catch (ICacheRepository.delete cache key)
    (fun error w => (Ok tt, warn logger ("DELETE failed for key: " ++ key) error w)).

Definition deleteMany (keys : list string) : M W unit :=
  try_catch (ICacheRepository.deleteMany cache keys)
    (fun error w =>
       (Ok tt, warn logger ("DELETE_MANY failed for keys: "
                            ++ String.concat ", " keys) error w)).

Definition invalidateByPrefix (prefix : string) : M W unit :=
  try_catch (ICacheRepository.invalidateByPrefix cache prefix)
    (fun error w =>
       (Ok tt, warn logger ("INVALIDATE_PREFIX failed for: " ++ prefix) error w)).

Definition wrap : ICacheRepository.t W :=
  ICacheRepository.mk get set delete deleteMany invalidateByPrefix.

End Wrapper.

End ResilientCacheWrapper.

(* ===================================================================== *)
(** ** In-memory cache                                                   *)
(* ===================================================================== *)

Module MemoryCache.

(** The private [store]: a value with the instant it expires at. *)
Abbreviation Store := (gmap string (CacheValue * Z)).

Section Ops.
(** [Date.now()], in milliseconds. *)
Variable now : Z.

Definition get (key : string) (store : Store) : option CacheValue * Store :=
  match store !! key with
  | None => (None, store)
  | Some (value, expiresAt) =>
      if (now >? expiresAt)%Z
      then (None, base.delete key store)
      else (Some value, store)
  end.

Definition set (key : string) (value : CacheValue) (ttlSeconds : option Z)
    (store : Store) : Store :=
  <[key := (value, (now + default 300 ttlSeconds * 1000)%Z)]> store.

Definition delete (key : string) (store : Store) : Store :=
  base.delete key store.

Definition deleteMany (keys : list string) (store : Store) : Store :=
  fold_left (fun store key => base.delete key store) keys store.

Definition invalidateByPrefix (prefix : string) (store : Store) : Store :=
  let keysToDelete :=
    List.filter (String.prefix prefix) (map fst (map_to_list store)) in
  fold_left (fun store key => base.delete key store) keysToDelete store.

End Ops.

End MemoryCache.

(* ===================================================================== *)
(** ** Drizzle calculation repository: tree helpers                      *)
(* ===================================================================== *)

Module DrizzleCalculationRepository.

(** A row of the operations query; the decimal columns arrive as text. *)
Record OperationRow := mkOperationRow {
  id : string;
  parentRootId : option string;
  parentOperationId : option string;
  operator : OperatorType;
  operand : string;
  result : string;
  userId : string;
  username : option string;
  createdAt : Date;
  updatedAt : Date
}.

(** [Set<string>]: [has] and [add]. *)
Definition Set_has (s : gset string) (x : string) : bool := bool_decide (x ∈ s).
Definition Set_add (s : gset string) (x : string) : gset string := s ∪ {[x]}.

(** First pass: the direct children of the root. *)
Definition directChildren (rootId : string) (allOps : list OperationRow)
  : gset string :=
  fold_left
    (fun belongsToRoot op =>
       if strict_eq (parentRootId op) rootId
       then Set_add belongsToRoot (id op)
       else belongsToRoot)
    allOps ∅.

(** The body of the [for] loop inside the [while]: the state is the set and
    the [foundNew] flag. *)
Definition visit (st : gset string * bool) (op : OperationRow)
  : gset string * bool :=
  let (belongsToRoot, foundNew) := st in
  if truthy (parentOperationId op)
     && Set_has belongsToRoot (default "" (parentOperationId op))
  then
    if negb (Set_has belongsToRoot (id op))
    then (Set_add belongsToRoot (id op), true)
    else (belongsToRoot, foundNew)
  else (belongsToRoot, foundNew).

(** One iteration of the [while]: [foundNew = false], then the [for]. *)
Definition pass (allOps : list OperationRow) (belongsToRoot : gset string)
  : gset string * bool :=
  fold_left visit allOps (belongsToRoot, false).

(** [while (foundNew) { ... }], entered with [foundNew = true]; [None] when
    the fuel runs out before the loop exits. *)
Fixpoint while_foundNew (fuel : nat) (allOps : list OperationRow)
    (belongsToRoot : gset string) : option (gset string) :=
  match fuel with
  | O => None
  | S fuel =>
      let (belongsToRoot', foundNew) := pass allOps belongsToRoot in
      if foundNew
      then while_foundNew fuel allOps belongsToRoot'
      else Some belongsToRoot'
  end.

Definition filterOperationsForRoot (fuel : nat) (rootId : string)
    (allOps : list OperationRow) : option (list OperationRow) :=
  match while_foundNew fuel allOps (directChildren rootId allOps) with
  | None => None
  | Some belongsToRoot =>
      Some (List.filter (fun op => Set_has belongsToRoot (id op)) allOps)
  end.

(** *** Building the trees *)

(** A row of the roots query. *)
Record RootRow := mkRootRow {
  r_id : string;
  r_value : string;
  r_userId : string;
  r_username : option string;
  r_createdAt : Date;
  r_updatedAt : Date
}.

(** [array.map(f)] for an [f] that may not return: the elements are mapped
    from left to right and the first one that does not return stops all. *)
Fixpoint traverse {A B : Type} (f : A -> option B) (l : list A)
  : option (list B) :=
  match l with
  | [] => Some []
  | x :: l =>
      match f x with
      | None => None
      | Some y =>
          match traverse f l with
          | None => None
          | Some ys => Some (y :: ys)
          end
      end
  end.

(** The grouping loop: a row with a truthy key is pushed onto the array the
    map holds for that key.  [buildTrees] runs it on [parentRootId],
    [buildOperationTree] on [parentOperationId]. *)
Definition groupRows (key : OperationRow -> option string)
    (rows : list OperationRow) : gmap string (list OperationRow) :=
  fold_left
    (fun (m : gmap string (list OperationRow)) op =>
       if truthy (key op)
       then
         let existing := default [] (m !! default "" (key op)) in
         <[default "" (key op) := (existing ++ [op])%list]> m
       else m)
    rows ∅.

Section Build.
(** [Number.parseFloat], applied to the text of a decimal column. *)
Variable parseFloat : string -> float.

Definition mapToRootEntity (row : RootRow) : CalculationRoot.t :=
  CalculationRoot.fromPersistence
    {| CalculationRoot.p_id := r_id row;
       CalculationRoot.p_value := parseFloat (r_value row);
       CalculationRoot.p_userId := r_userId row;
       CalculationRoot.p_username := r_username row;
       CalculationRoot.p_createdAt := r_createdAt row;
       CalculationRoot.p_updatedAt := r_updatedAt row |}.

Definition mapToOperationEntity (row : OperationRow) : CalculationOperation.t :=
  CalculationOperation.fromPersistence
    {| CalculationOperation.p_id := id row;
       CalculationOperation.p_parentRootId := parentRootId row;
       CalculationOperation.p_parentOperationId := parentOperationId row;
       CalculationOperation.p_operator := operator row;
       CalculationOperation.p_operand := parseFloat (operand row);
       CalculationOperation.p_result := parseFloat (result row);
       CalculationOperation.p_userId := userId row;
       CalculationOperation.p_username := username row;
       CalculationOperation.p_createdAt := createdAt row;
       CalculationOperation.p_updatedAt := updatedAt row |}.

(** [buildChildren(parentId)]; the fuel bounds the depth of the recursion,
    [None] when it runs out. *)
Fixpoint buildChildren (fuel : nat) (opsMap : gmap string (list OperationRow))
    (parentId : string) : option (list CalculationOperation.t) :=
  match fuel with
  | O => None
  | S fuel =>
      let children := default [] (opsMap !! parentId) in
      traverse
        (fun child =>
           match buildChildren fuel opsMap (id child) with
           | None => None
           | Some built =>
               Some (CalculationOperation.setChildren
                       (mapToOperationEntity child) built)
           end)
        children
  end.

Definition buildOperationTree (fuel : nat) (directOps allOps : list OperationRow)
  : option (list CalculationOperation.t) :=
  let opsMap := groupRows parentOperationId allOps in
  traverse
    (fun op =>
       match buildChildren fuel opsMap (id op) with
       | None => None
       | Some built =>
           Some (CalculationOperation.setChildren (mapToOperationEntity op) built)
       end)
    directOps.

(** [buildTrees] also fills a map by parent operation id, which it never
    reads; the trees come from [buildOperationTree] alone. *)
Definition buildTrees (fuel : nat) (rootRows : list RootRow)
    (operationRows : list OperationRow) : option (list CalculationRoot.t) :=
  let operationsByRootId := groupRows parentRootId operationRows in
  traverse
    (fun rootRow =>
       let root := mapToRootEntity rootRow in
       let directOps :=
         default [] (operationsByRootId !! CalculationRoot.id root) in
       match buildOperationTree fuel directOps operationRows with
       | None => None
       | Some operations => Some (CalculationRoot.setOperations root operations)
       end)
    rootRows.

(** What [findRootByIdWithOperations] does with the root it found and the
    rows of the operations query. *)
Definition findRootByIdWithOperations_tree (fuelFilter fuelBuild : nat)
    (root : CalculationRoot.t) (id' : string) (operationRows : list OperationRow)
  : option CalculationRoot.t :=
  match filterOperationsForRoot fuelFilter id' operationRows with
  | None => None
  | Some relevantOps =>
      match buildOperationTree fuelBuild
              (List.filter (fun op => strict_eq (parentRootId op) id') relevantOps)
              relevantOps with
      | None => None
      | Some directOps => Some (CalculationRoot.setOperations root directOps)
      end
  end.

End Build.

End DrizzleCalculationRepository.

(* ===================================================================== *)
(** ** Calculation service                                               *)
(* ===================================================================== *)

Module CalculationService.

Record CreateRootInput := mkCreateRootInput {
  value : float;
  r_userId : string;
  r_username : option string
}.

(** [operator] is an [OperatorType] for the type checker and whatever
    string the caller sent at run time; [Operator.create] validates it. *)
Record CreateOperationInput := mkCreateOperationInput {
  parentRootId : option string;
  parentOperationId : option string;
  operator : string;
  operand : float;
  userId : string;
  username : option string
}.

(** *** Entity reconstitution from cache *)

Fixpoint reconstituteOperation (data : CalculationOperation.JSON)
  : CalculationOperation.t :=
  let operation :=
    CalculationOperation.fromPersistence
      {| CalculationOperation.p_id := CalculationOperation.j_id data;
         CalculationOperation.p_parentRootId :=
           CalculationOperation.j_parentRootId data;
         CalculationOperation.p_parentOperationId :=
           CalculationOperation.j_parentOperationId data;
         CalculationOperation.p_operator := CalculationOperation.j_operator data;
         CalculationOperation.p_operand := CalculationOperation.j_operand data;
         CalculationOperation.p_result := CalculationOperation.j_result data;
         CalculationOperation.p_userId := CalculationOperation.j_userId data;
         CalculationOperation.p_username := CalculationOperation.j_username data;
         CalculationOperation.p_createdAt :=
           Date_copy (CalculationOperation.j_createdAt data);
         CalculationOperation.p_updatedAt :=
           Date_copy (CalculationOperation.j_updatedAt data) |} in
  let children :=
    map reconstituteOperation (CalculationOperation.j_children data) in
  CalculationOperation.setChildren operation children.

Definition reconstituteTree (data : CalculationRoot.JSON) : CalculationRoot.t :=
  let root :=
    CalculationRoot.fromPersistence
      {| CalculationRoot.p_id := CalculationRoot.j_id data;
         CalculationRoot.p_value := CalculationRoot.j_value data;
         CalculationRoot.p_userId := CalculationRoot.j_userId data;
         CalculationRoot.p_username := CalculationRoot.j_username data;
         CalculationRoot.p_createdAt :=
           Date_copy (CalculationRoot.j_createdAt data);
         CalculationRoot.p_updatedAt :=
           Date_copy (CalculationRoot.j_updatedAt data) |} in
  let operations :=
    map reconstituteOperation (CalculationRoot.j_operations data) in
  CalculationRoot.setOperations root operations.

Definition reconstituteTrees (data : list CalculationRoot.JSON)
  : list CalculationRoot.t :=
  map reconstituteTree data.

Section Service.
Context {W : Type}.
Variable runtime : Runtime W.
Variable unitOfWork : IUnitOfWork.t W.
Variable cache : ICacheRepository.t W.

(** *** Cache management *)

Definition invalidateCacheForNewRoot : M W unit :=
  swallow (ICacheRepository.deleteMany cache
             [CacheKeys.ROOT_LIST; CacheKeys.FULL_TREE]).

(** [Promise.all([set, delete]).catch(() => {})]: both calls are issued,
    whatever either of them does. *)
Definition updateCacheAfterRootCreation (root : CalculationRoot.t) : M W unit :=
  let* _ := swallow (ICacheRepository.set cache
                       (CacheKeys.ROOT (CalculationRoot.id root))
                       (VRoot (CalculationRoot.toJSON root))
                       (Some CacheTTL.ROOT)) in
  swallow (ICacheRepository.delete cache CacheKeys.FULL_TREE).

Definition keysToInvalidate (input : CreateOperationInput) : list string :=
  [CacheKeys.FULL_TREE]
  ++ (if truthy (parentRootId input)
      then [CacheKeys.ROOT (default "" (parentRootId input));
            CacheKeys.ROOT_OPERATIONS (default "" (parentRootId input))]
      else [])
  ++ (if truthy (parentOperationId input)
      then [CacheKeys.OPERATION (default "" (parentOperationId input));
            CacheKeys.OPERATION_CHILDREN (default "" (parentOperationId input))]
      else []).

Definition invalidateCacheForNewOperation (input : CreateOperationInput)
  : M W unit :=
  swallow (ICacheRepository.deleteMany cache (keysToInvalidate input)).

Definition updateCacheAfterOperationCreation
    (operation : CalculationOperation.t) : M W unit :=
  let* _ := swallow (ICacheRepository.set cache
                       (CacheKeys.OPERATION (CalculationOperation.id operation))
                       (VOperation (CalculationOperation.toJSON operation))
                       (Some CacheTTL.OPERATION)) in
  swallow (ICacheRepository.delete cache CacheKeys.FULL_TREE).

(** Fire-and-forget: the write is started and its promise is left alone;
    here it runs to its end and its outcome is dropped. *)
Definition cacheTreesAsync (trees : list CalculationRoot.t) : M W unit :=
  swallow (ICacheRepository.set cache CacheKeys.FULL_TREE
             (VTrees (map CalculationRoot.toJSON trees))
             (Some CacheTTL.FULL_TREE)).

(** *** Queries *)

Definition getFullTree : M W (list CalculationRoot.t) :=
  let* cached := ICacheRepository.get cache CacheKeys.FULL_TREE in
  match cached with
  | Some (VTrees data) => ret (reconstituteTrees data)
  | Some _ => throw NotAnArray
  | None =>
      let* trees :=
        ICalculationRepository.findAllRootsWithOperations
          (IUnitOfWork.calculationRepository unitOfWork) in
      let* _ := cacheTreesAsync trees in
      ret trees
  end.

(** [data.operations.map] on a cached value that has no [operations]. *)
Definition NotARoot : Error :=
  mkError "Cannot read properties of undefined (reading 'map')".

Definition getRootById (id : string) : M W (option CalculationRoot.t) :=
  let* cached := ICacheRepository.get cache (CacheKeys.ROOT id) in
  match cached with
  | Some (VRoot data) => ret (Some (reconstituteTree data))
  | Some _ => throw NotARoot
  | None =>
      let* root :=
        ICalculationRepository.findRootByIdWithOperations
          (IUnitOfWork.calculationRepository unitOfWork) id in
      match root with
      | Some found =>
          let* _ := swallow (ICacheRepository.set cache (CacheKeys.ROOT id)
                               (VRoot (CalculationRoot.toJSON found))
                               (Some CacheTTL.ROOT)) in
          ret (Some found)
      | None => ret None
      end
  end.

(** *** Commands *)

(** The callback [createRoot] runs in the transaction. *)
Definition createRoot_transaction (input : CreateRootInput)
    (uow : ICalculationRepository.t W) : M W CalculationRoot.t :=
  let* newRoot :=
    CalculationRoot.create runtime
      {| CalculationRoot.i_value := value input;
         CalculationRoot.i_userId := r_userId input;
         CalculationRoot.i_username := r_username input |} in
  let* _ := ICalculationRepository.saveRoot uow newRoot in
  ret newRoot.

Definition createRoot (input : CreateRootInput) : M W CalculationRoot.t :=
  let* _ := invalidateCacheForNewRoot in
  try_catch
    (let* root :=
       IUnitOfWork.transaction unitOfWork (createRoot_transaction input) in
     let* _ := updateCacheAfterRootCreation root in
     ret root)
    (fun error =>
       let* _ := invalidateCacheForNewRoot in
       throw error).

Definition getParentValue (uow : ICalculationRepository.t W)
    (input : CreateOperationInput) : M W float :=
  if truthy (parentRootId input)
  then
    let rootId := default "" (parentRootId input) in
    let* root := ICalculationRepository.findRootById uow rootId in
    match root with
    | None => throw (ParentRootNotFound rootId)
    | Some root => ret (CalculationRoot.value root)
    end
  else if truthy (parentOperationId input)
  then
    let operationId := default "" (parentOperationId input) in
    let* operation := ICalculationRepository.findOperationById uow operationId in
    match operation with
    | None => throw (ParentOperationNotFound operationId)
    | Some operation => ret (CalculationOperation.result operation)
    end
  else throw MustSpecifyParent.

(** The callback [createOperation] runs in the transaction. *)
Definition createOperation_transaction (input : CreateOperationInput)
    (uow : ICalculationRepository.t W) : M W CalculationOperation.t :=
  let* parentValue := getParentValue uow input in
  let* operator := (fun w => (Operator.create (operator input), w)) in
  let* newOperation :=
    CalculationOperation.create runtime
      {| CalculationOperation.i_parentRootId := parentRootId input;
         CalculationOperation.i_parentOperationId := parentOperationId input;
         CalculationOperation.i_operator := operator;
         CalculationOperation.i_operand := operand input;
         CalculationOperation.i_parentValue := parentValue;
         CalculationOperation.i_userId := userId input;
         CalculationOperation.i_username := username input |} in
  let* _ := ICalculationRepository.saveOperation uow newOperation in
  ret newOperation.

Definition createOperation (input : CreateOperationInput)
  : M W CalculationOperation.t :=
  if negb (truthy (parentRootId input)) && negb (truthy (parentOperationId input))
  then throw MissingParent
  else if truthy (parentRootId input) && truthy (parentOperationId input)
  then throw AmbiguousParent
  else
    let* _ := invalidateCacheForNewOperation input in
    try_catch
      (let* operation :=
         IUnitOfWork.transaction unitOfWork (createOperation_transaction input) in
       let* _ := updateCacheAfterOperationCreation operation in
       ret operation)
      (fun error =>
         let* _ := invalidateCacheForNewOperation input in
         throw error).

End Service.

End CalculationService.

(* ===================================================================== *)
(** ** Fixtures of the test suites                                       *)
(* ===================================================================== *)

(** The runtime of the test suites: ids come from a fixed sequence indexed
    by a counter, the clock reads a fixed instant. *)
Definition uuidSequence : list string :=
  ["root-uuid-1"; "op-uuid-1"; "op-uuid-2"; "generic-uuid"].

Definition testRuntime : Runtime nat :=
  {| newDate := fun w => (mkDate (Some 1704067200000%Z), w);
     randomUUID := fun w => (nth w uuidSequence "generic-uuid", S w) |}.

Definition operationInput (parentRootId parentOperationId : option string)
    (ty : OperatorType) (operand parentValue : float)
  : CalculationOperation.CreateInput :=
  {| CalculationOperation.i_parentRootId := parentRootId;
     CalculationOperation.i_parentOperationId := parentOperationId;
     CalculationOperation.i_operator := Operator.mk ty;
     CalculationOperation.i_operand := operand;
     CalculationOperation.i_parentValue := parentValue;
     CalculationOperation.i_userId := "user-123";
     CalculationOperation.i_username := Some "testuser" |}.

Definition rootInput (value : float) : CalculationRoot.CreateInput :=
  {| CalculationRoot.i_value := value;
     CalculationRoot.i_userId := "user-123";
     CalculationRoot.i_username := Some "testuser" |}.

(** Every operation below a node, in depth-first order. *)
Fixpoint subtree (op : CalculationOperation.t) : list CalculationOperation.t :=
  op :: flat_map subtree (CalculationOperation._children op).

Definition descendants (r : CalculationRoot.t) : list CalculationOperation.t :=
  flat_map subtree (CalculationRoot.operations r).

(* ===================================================================== *)
(** ** Test doubles                                                      *)
(* ===================================================================== *)

(** Collaborators in the style of [calculation.service.test.ts]: every call
    is recorded, the cache is a [MemoryCache] store and the repository keeps
    its tables in memory; the database can be switched off to make its
    calls reject. *)
Module Mock.

Inductive Call :=
| CacheGet (key : string)
| CacheSet (key : string) (value : CacheValue) (ttlSeconds : option Z)
| CacheDelete (key : string)
| CacheDeleteMany (keys : list string)
| CacheInvalidateByPrefix (prefix : string)
| Transaction
| FindAllRootsWithOperations
| FindRootById (id : string)
| FindRootByIdWithOperations (id : string)
| FindOperationById (id : string)
| SaveRoot (root : CalculationRoot.t)
| SaveOperation (operation : CalculationOperation.t).

Record World := mkWorld {
  store : gmap string (CacheValue * Z);
  now : Z;
  trees : list CalculationRoot.t;
  operations : list CalculationOperation.t;
  dbOnline : bool;
  uuidCounter : nat;
  calls : list Call
}.

Definition record (c : Call) (w : World) : World :=
  {| store := store w; now := now w;
     trees := trees w; operations := operations w; dbOnline := dbOnline w;
     uuidCounter := uuidCounter w; calls := calls w ++ [c] |}.

Definition withStore (s : gmap string (CacheValue * Z)) (w : World) : World :=
  {| store := s; now := now w;
     trees := trees w; operations := operations w; dbOnline := dbOnline w;
     uuidCounter := uuidCounter w; calls := calls w |}.

Definition withTables (t : list CalculationRoot.t)
    (o : list CalculationOperation.t) (w : World) : World :=
  {| store := store w; now := now w;
     trees := t; operations := o; dbOnline := dbOnline w;
     uuidCounter := uuidCounter w; calls := calls w |}.

Definition runtime : Runtime World :=
  {| newDate := fun w => (mkDate (Some (now w)), w);
     randomUUID := fun w =>
       (nth (uuidCounter w) uuidSequence "generic-uuid",
        {| store := store w; now := now w;
           trees := trees w; operations := operations w;
           dbOnline := dbOnline w; uuidCounter := S (uuidCounter w);
           calls := calls w |}) |}.

(** A [MemoryCache] whose calls are recorded. *)
Definition memoryCache : ICacheRepository.t World :=
  {| ICacheRepository.get := fun key w =>
       let w := record (CacheGet key) w in
       let (value, s) := MemoryCache.get (now w) key (store w) in
       (Ok value, withStore s w);
     ICacheRepository.set := fun key value ttlSeconds w =>
       let w := record (CacheSet key value ttlSeconds) w in
       (Ok tt, withStore (MemoryCache.set (now w) key value ttlSeconds (store w)) w);
     ICacheRepository.delete := fun key w =>
       let w := record (CacheDelete key) w in
       (Ok tt, withStore (MemoryCache.delete key (store w)) w);
     ICacheRepository.deleteMany := fun keys w =>
       let w := record (CacheDeleteMany keys) w in
       (Ok tt, withStore (MemoryCache.deleteMany keys (store w)) w);
     ICacheRepository.invalidateByPrefix := fun prefix w =>
       let w := record (CacheInvalidateByPrefix prefix) w in
       (Ok tt, withStore (MemoryCache.invalidateByPrefix prefix (store w)) w) |}.

Definition ReadOnly : Error :=
  mkError "READONLY You can't write against a read only replica.".

(** A cache that can be read but not written, such as a read-only replica:
    [get] answers from the store, every write rejects and changes nothing. *)
Definition readOnlyCache : ICacheRepository.t World :=
  {| ICacheRepository.get := ICacheRepository.get memoryCache;
     ICacheRepository.set := fun key value ttlSeconds w =>
       (Err ReadOnly, record (CacheSet key value ttlSeconds) w);
     ICacheRepository.delete := fun key w =>
       (Err ReadOnly, record (CacheDelete key) w);
     ICacheRepository.deleteMany := fun keys w =>
       (Err ReadOnly, record (CacheDeleteMany keys) w);
     ICacheRepository.invalidateByPrefix := fun prefix w =>
       (Err ReadOnly, record (CacheInvalidateByPrefix prefix) w) |}.

Definition logger : ResilientCacheWrapper.Logger World :=
  {| ResilientCacheWrapper.warn := fun _ _ w => w |}.

(** The cache as the container wires it: behind the resilient wrapper. *)
Definition resilientCache : ICacheRepository.t World :=
  ResilientCacheWrapper.wrap readOnlyCache logger.

Definition DBError : Error := mkError "DB Error".

Definition repository : ICalculationRepository.t World :=
  {| ICalculationRepository.findAllRootsWithOperations := fun w =>
       let w := record FindAllRootsWithOperations w in
       if dbOnline w then (Ok (trees w), w) else (Err DBError, w);
     ICalculationRepository.findRootById := fun id w =>
       let w := record (FindRootById id) w in
       if dbOnline w
       then (Ok (find (fun r => String.eqb (CalculationRoot.id r) id) (trees w)), w)
       else (Err DBError, w);
     ICalculationRepository.findRootByIdWithOperations := fun id w =>
       let w := record (FindRootByIdWithOperations id) w in
       if dbOnline w
       then (Ok (find (fun r => String.eqb (CalculationRoot.id r) id) (trees w)), w)
       else (Err DBError, w);
     ICalculationRepository.findOperationById := fun id w =>
       let w := record (FindOperationById id) w in
       if dbOnline w
       then (Ok (find (fun o => String.eqb (CalculationOperation.id o) id)
                      (operations w)), w)
       else (Err DBError, w);
     ICalculationRepository.saveRoot := fun root w =>
       let w := record (SaveRoot root) w in
       if dbOnline w
       then (Ok tt, withTables (trees w ++ [root]) (operations w) w)
       else (Err DBError, w);
     ICalculationRepository.saveOperation := fun operation w =>
       let w := record (SaveOperation operation) w in
       if dbOnline w
       then (Ok tt, withTables (trees w) (operations w ++ [operation]) w)
       else (Err DBError, w) |}.

(** The transaction runs the callback on the repository and, when the
    callback throws, restores the tables before rethrowing. *)
Definition unitOfWork : IUnitOfWork.t World :=
  {| IUnitOfWork.transaction := fun T fn w =>
       let w0 := record Transaction w in
       match fn repository w0 with
       | (Ok a, w') => (Ok a, w')
       | (Err e, w') => (Err e, withTables (trees w0) (operations w0) w')
       end;
     IUnitOfWork.calculationRepository := repository |}.

(** A root as the repository returns it, and a world holding it. *)
Definition root1 : CalculationRoot.t :=
  CalculationRoot.setOperations
    (CalculationRoot.fromPersistence
       {| CalculationRoot.p_id := "root-1";
          CalculationRoot.p_value := 100;
          CalculationRoot.p_userId := "user-1";
          CalculationRoot.p_username := Some "testuser";
          CalculationRoot.p_createdAt := mkDate (Some 1704067200000%Z);
          CalculationRoot.p_updatedAt := mkDate (Some 1704067200000%Z) |})
    [CalculationOperation.fromPersistence
       {| CalculationOperation.p_id := "op-1";
          CalculationOperation.p_parentRootId := Some "root-1";
          CalculationOperation.p_parentOperationId := None;
          CalculationOperation.p_operator := ADD;
          CalculationOperation.p_operand := 50;
          CalculationOperation.p_result := 150;
          CalculationOperation.p_userId := "user-1";
          CalculationOperation.p_username := Some "testuser";
          CalculationOperation.p_createdAt := mkDate (Some 1704067200001%Z);
          CalculationOperation.p_updatedAt := mkDate (Some 1704067200001%Z) |}].

Definition world0 : World :=
  {| store := ∅; now := 1704067300000%Z;
     trees := [root1]; operations := CalculationRoot.operations root1;
     dbOnline := true; uuidCounter := 0; calls := [] |}.

(** The same world with the full tree already cached. *)
Definition worldCached : World :=
  withStore {[ CacheKeys.FULL_TREE :=
                 (VTrees [CalculationRoot.toJSON root1], 1704067400000%Z) ]}
            world0.

Definition dbOffline (w : World) : World :=
  {| store := store w; now := now w;
     trees := trees w; operations := operations w; dbOnline := false;
     uuidCounter := uuidCounter w; calls := calls w |}.

End Mock.

Definition serviceRootInput (value : float) : CalculationService.CreateRootInput :=
  {| CalculationService.value := value;
     CalculationService.r_userId := "user-123";
     CalculationService.r_username := None |}.

Definition serviceOperationInput (parentRootId parentOperationId : option string)
    (operator : string) (operand : float)
  : CalculationService.CreateOperationInput :=
  {| CalculationService.parentRootId := parentRootId;
     CalculationService.parentOperationId := parentOperationId;
     CalculationService.operator := operator;
     CalculationService.operand := operand;
     CalculationService.userId := "user-123";
     CalculationService.username := Some "testuser" |}.

(* ===================================================================== *)
(** ** Reachability from a root                                          *)
(* ===================================================================== *)

(** The ids that belong to a root: the id of a row whose [parentRootId] is
    the root, or of a row whose [parentOperationId] is a non-empty id that
    belongs. *)
Inductive Belongs (rootId : string)
    (allOps : list DrizzleCalculationRepository.OperationRow)
  : string -> Prop :=
| Belongs_root op :
    In op allOps ->
    DrizzleCalculationRepository.parentRootId op = Some rootId ->
    Belongs rootId allOps (DrizzleCalculationRepository.id op)
| Belongs_child op parentId :
    In op allOps ->
    DrizzleCalculationRepository.parentOperationId op = Some parentId ->
    parentId <> "" ->
    Belongs rootId allOps parentId ->
    Belongs rootId allOps (DrizzleCalculationRepository.id op).

(** The same closure without the condition that the parent id is not
    empty: membership as the specification words it. *)
Inductive BelongsAsStated (rootId : string)
    (allOps : list DrizzleCalculationRepository.OperationRow)
  : string -> Prop :=
| BelongsAsStated_root op :
    In op allOps ->
    DrizzleCalculationRepository.parentRootId op = Some rootId ->
    BelongsAsStated rootId allOps (DrizzleCalculationRepository.id op)
| BelongsAsStated_child op parentId :
    In op allOps ->
    DrizzleCalculationRepository.parentOperationId op = Some parentId ->
    BelongsAsStated rootId allOps parentId ->
    BelongsAsStated rootId allOps (DrizzleCalculationRepository.id op).

(** A property of ids is closed when it holds of the id of every row whose
    non-empty parent operation id it holds of. *)
Definition closed (allOps : list DrizzleCalculationRepository.OperationRow)
    (P : string -> Prop) : Prop :=
  forall op parentId,
    In op allOps ->
    DrizzleCalculationRepository.parentOperationId op = Some parentId ->
    parentId <> "" ->
    P parentId -> P (DrizzleCalculationRepository.id op).

(** The ids of all rows. *)
Definition rowIds (allOps : list DrizzleCalculationRepository.OperationRow)
  : gset string :=
  list_to_set (map DrizzleCalculationRepository.id allOps).

(** A row with the given id and parents; the other columns are fixed. *)
Definition operationRow (id : string) (parentRootId parentOperationId : option string)
  : DrizzleCalculationRepository.OperationRow :=
  {| DrizzleCalculationRepository.id := id;
     DrizzleCalculationRepository.parentRootId := parentRootId;
     DrizzleCalculationRepository.parentOperationId := parentOperationId;
     DrizzleCalculationRepository.operator := ADD;
     DrizzleCalculationRepository.operand := "50.0000000000";
     DrizzleCalculationRepository.result := "150.0000000000";
     DrizzleCalculationRepository.userId := "user-1";
     DrizzleCalculationRepository.username := None;
     DrizzleCalculationRepository.createdAt := mkDate (Some 1704067200000%Z);
     DrizzleCalculationRepository.updatedAt := mkDate (Some 1704067200000%Z) |}.

(** A row is filed under [k] by the grouping loop when its key is truthy
    and equal to [k]. *)
Definition keyIs (key : DrizzleCalculationRepository.OperationRow -> option string)
    (k : string) (op : DrizzleCalculationRepository.OperationRow) : bool :=
  truthy (key op) && String.eqb (default "" (key op)) k.

(** An entity built from a row: the row's columns, with some children. *)
Definition builtFrom (parseFloat : string -> float)
    (entity : CalculationOperation.t)
    (row : DrizzleCalculationRepository.OperationRow) : Prop :=
  entity
  = CalculationOperation.setChildren
      (DrizzleCalculationRepository.mapToOperationEntity parseFloat row)
      (CalculationOperation.children entity).

(** A node of a built forest is well built when its children are built, in
    order, from the rows filed under its id. *)
Definition wellBuilt (parseFloat : string -> float)
    (m : gmap string (list DrizzleCalculationRepository.OperationRow))
    (e : CalculationOperation.t) : Prop :=
  Forall2 (builtFrom parseFloat) (CalculationOperation.children e)
          (default [] (m !! CalculationOperation.id e)).

(** A row of the roots table with the given id. *)
Definition rootRow (id value : string) : DrizzleCalculationRepository.RootRow :=
  {| DrizzleCalculationRepository.r_id := id;
     DrizzleCalculationRepository.r_value := value;
     DrizzleCalculationRepository.r_userId := "user-1";
     DrizzleCalculationRepository.r_username := Some "testuser";
     DrizzleCalculationRepository.r_createdAt := mkDate (Some 1704067200000%Z);
     DrizzleCalculationRepository.r_updatedAt := mkDate (Some 1704067200000%Z) |}.

(** A stand-in for [Number.parseFloat] on the few texts of the examples. *)
Definition parseFloatOf (text : string) : float :=
  if String.eqb text "100.0000000000" then 100
  else if String.eqb text "50.0000000000" then 50
  else if String.eqb text "150.0000000000" then 150
  else nan.

(** The height of the rows of the examples in their tree. *)
Definition exampleHeight (id : string) : nat :=
  if String.eqb id "a" then 2
  else if String.eqb id "b" then 1
  else if String.eqb id "x" then 1
  else 0.

(** Rows of two roots, children listed before their parents: under root
    ["r"] the chain a, b, c; under root ["other"] the chain x, y. *)
Definition exampleRows : list DrizzleCalculationRepository.OperationRow :=
  [operationRow "c" None (Some "b"); operationRow "b" None (Some "a");
   operationRow "a" (Some "r") None; operationRow "x" (Some "other") None;
   operationRow "y" None (Some "x")].

(** The tree of the end-to-end scenario: root 100, with ADD 50 (itself
    followed by MULTIPLY 2) and SUBTRACT 30 below it. *)
Definition scenarioOperation (id : string) (parentRootId parentOperationId : option string)
    (ty : OperatorType) (operand result : float)
    (children : list CalculationOperation.t) : CalculationOperation.t :=
  CalculationOperation.setChildren
    (CalculationOperation.fromPersistence
       {| CalculationOperation.p_id := id;
          CalculationOperation.p_parentRootId := parentRootId;
          CalculationOperation.p_parentOperationId := parentOperationId;
          CalculationOperation.p_operator := ty;
          CalculationOperation.p_operand := operand;
          CalculationOperation.p_result := result;
          CalculationOperation.p_userId := "alice";
          CalculationOperation.p_username := Some "alice";
          CalculationOperation.p_createdAt := mkDate (Some 1704067200000%Z);
          CalculationOperation.p_updatedAt := mkDate (Some 1704067200000%Z) |})
    children.

Definition scenarioRoot : CalculationRoot.t :=
  CalculationRoot.setOperations
    (CalculationRoot.fromPersistence
       {| CalculationRoot.p_id := "root-uuid-1";
          CalculationRoot.p_value := 100;
          CalculationRoot.p_userId := "alice";
          CalculationRoot.p_username := Some "alice";
          CalculationRoot.p_createdAt := mkDate (Some 1704067200000%Z);
          CalculationRoot.p_updatedAt := mkDate (Some 1704067200000%Z) |})
    [scenarioOperation "op-uuid-1" (Some "root-uuid-1") None ADD 50 150
       [scenarioOperation "op-uuid-2" None (Some "op-uuid-1") MULTIPLY 2 300 []];
     scenarioOperation "op-uuid-3" (Some "root-uuid-1") None SUBTRACT 30 70 []].

(* ===================================================================== *)
(** * Theorems                                                           *)
(* ===================================================================== *)

(* --------------------------------------------------------------------- *)
(** ** Operator                                                          *)
(* --------------------------------------------------------------------- *)

Lemma create_name (ty : OperatorType) :
  Operator.create (OperatorType_name ty) = Ok (Operator.mk ty).
Proof. destruct ty; reflexivity. Qed.

Lemma create_Ok_name (raw : string) (o : Operator.t) :
  Operator.create raw = Ok o -> OperatorType_name (Operator.value o) = raw.
Proof.
  unfold Operator.create.
  destruct (find _ OPERATORS) as [ty|] eqn:Hf; [|discriminate].
  intros [= <-]. apply find_some in Hf as [_ Heq].
  now apply String.eqb_eq in Heq.
Qed.

(** C8. [Operator.create raw] succeeds exactly when [raw] is one of the four
    canonical names, compared case-sensitively; then the operator carries
    that name.  Otherwise it fails with [InvalidOperator raw]; the lowercase
    ["multiply"] is rejected. *)
Theorem C8_operator_create (raw : string) :
  ((exists o, Operator.create raw = Ok o)
     <-> (raw = "ADD" \/ raw = "SUBTRACT" \/ raw = "MULTIPLY" \/ raw = "DIVIDE"))
  /\ (forall o, Operator.create raw = Ok o ->
                OperatorType_name (Operator.toString o) = raw)
  /\ ((forall o, Operator.create raw <> Ok o) ->
      Operator.create raw = Err (InvalidOperator raw))
  /\ Operator.create "multiply" = Err (InvalidOperator "multiply").
Proof.
  repeat split.
  - intros [o Ho]. apply create_Ok_name in Ho. destruct o as [[]]; simpl in Ho; auto.
  - intros [-> | [-> | [-> | ->]]]; eexists; reflexivity.
  - intros o Ho. now apply create_Ok_name.
  - intros Hno. unfold Operator.create in *.
    destruct (find _ OPERATORS) as [ty|]; [|reflexivity].
    now destruct (Hno (Operator.mk ty)).
Qed.

Lemma C8_operator_create_witness :
  Operator.create "DIVIDE" = Ok (Operator.mk DIVIDE)
  /\ Operator.create "divide" = Err (InvalidOperator "divide")
  /\ Operator.create "" = Err (InvalidOperator "").
Proof.
  split; [reflexivity|]. split.
  - apply (C8_operator_create "divide"). intros o Ho. discriminate Ho.
  - apply (C8_operator_create ""). intros o Ho. discriminate Ho.
Defined.

(** C2. [calculate] is addition, subtraction and multiplication for the
    first three operators; for DIVIDE it first compares the right operand
    with zero ([===], so both signed zeros count) and throws, never
    producing a value (no infinity, no NaN), and otherwise divides. *)
Theorem C2_operator_calculate (a b : float) :
  Operator.calculate (Operator.mk ADD) a b = Ok (a + b)%float
  /\ Operator.calculate (Operator.mk SUBTRACT) a b = Ok (a - b)%float
  /\ Operator.calculate (Operator.mk MULTIPLY) a b = Ok (a * b)%float
  /\ (PrimFloat.eqb b 0%float = false ->
      Operator.calculate (Operator.mk DIVIDE) a b = Ok (a / b)%float)
  /\ (PrimFloat.eqb b 0%float = true ->
      Operator.calculate (Operator.mk DIVIDE) a b = Err DivisionByZeroNotAllowed
      /\ forall v, Operator.calculate (Operator.mk DIVIDE) a b <> Ok v).
Proof.
  unfold Operator.calculate; simpl.
  split; [reflexivity|]. split; [reflexivity|]. split; [reflexivity|].
  split; intros ->; [reflexivity|].
  split; [reflexivity | discriminate].
Qed.

(** Ten divided by four; one divided by either zero. *)
Lemma C2_operator_calculate_witness :
  Operator.calculate (Operator.mk DIVIDE) 10 4 = Ok 2.5%float
  /\ Operator.calculate (Operator.mk DIVIDE) 1 0 = Err DivisionByZeroNotAllowed
  /\ Operator.calculate (Operator.mk DIVIDE) 1 (-0) = Err DivisionByZeroNotAllowed
  /\ (1 / 0)%float = infinity.
Proof.
  split; [|split; [|split]].
  - now apply (C2_operator_calculate 10 4).
  - now apply (C2_operator_calculate 1 0).
  - now apply (C2_operator_calculate 1 (-0)).
  - reflexivity.
Defined.

(* --------------------------------------------------------------------- *)
(** ** Entities                                                          *)
(* --------------------------------------------------------------------- *)

(** Induction on an operation with the hypothesis for all its children. *)
Lemma operation_ind (P : CalculationOperation.t -> Prop) :
  (forall o, Forall P (CalculationOperation.children o) -> P o) ->
  forall o, P o.
Proof.
  intros step. fix IH 1. intros o. apply step.
  destruct o as [? ? ? ? ? ? ? ? ? ? ch]. unfold CalculationOperation.children.
  simpl. induction ch as [|c ch IHch]; constructor; [apply IH | exact IHch].
Qed.


(** An operator that is valid with an operand computes a value. *)
Lemma isValidWith_calculate (o : Operator.t) (parentValue operand : float) :
  Operator.isValidWith o operand = true ->
  exists r, Operator.calculate o parentValue operand = Ok r.
Proof.
  unfold Operator.isValidWith, Operator.calculate.
  destruct (Operator.value o); eauto.
  destruct (PrimFloat.eqb operand 0); [discriminate | eauto].
Qed.

Lemma isValidWith_false (o : Operator.t) (operand : float) :
  Operator.isValidWith o operand = false <->
  Operator.value o = DIVIDE /\ PrimFloat.eqb operand 0%float = true.
Proof.
  unfold Operator.isValidWith.
  destruct (Operator.value o); try (split; [discriminate | intros [? _]; discriminate]).
  destruct (PrimFloat.eqb operand 0); split; try discriminate; auto.
  intros [_ ?]; discriminate.
Qed.

(** C1 (as amended). A parent id counts as given when it is a non-empty
    string.  With no parent given [create] throws [MissingParent]; with both
    given [AmbiguousParent]; with exactly one given and an operator that is
    not valid with the operand [DivisionByZero]; and otherwise it returns an
    operation whose result is [operator.calculate(parentValue, operand)],
    with an empty children list, a fresh id and equal timestamps. *)
Theorem C1_operation_create W (rt : Runtime W)
    (input : CalculationOperation.CreateInput) (w : W) :
  (truthy (CalculationOperation.i_parentRootId input) = false ->
   truthy (CalculationOperation.i_parentOperationId input) = false ->
   CalculationOperation.create rt input w = (Err MissingParent, w))
  /\ (truthy (CalculationOperation.i_parentRootId input) = true ->
      truthy (CalculationOperation.i_parentOperationId input) = true ->
      CalculationOperation.create rt input w = (Err AmbiguousParent, w))
  /\ (truthy (CalculationOperation.i_parentRootId input)
        <> truthy (CalculationOperation.i_parentOperationId input) ->
      Operator.isValidWith (CalculationOperation.i_operator input)
                           (CalculationOperation.i_operand input) = false ->
      CalculationOperation.create rt input w = (Err DivisionByZero, w))
  /\ (truthy (CalculationOperation.i_parentRootId input)
        <> truthy (CalculationOperation.i_parentOperationId input) ->
      Operator.isValidWith (CalculationOperation.i_operator input)
                           (CalculationOperation.i_operand input) = true ->
      exists op r,
        CalculationOperation.create rt input w
          = (Ok op, snd (randomUUID rt (snd (newDate rt w))))
        /\ Operator.calculate (CalculationOperation.i_operator input)
                              (CalculationOperation.i_parentValue input)
                              (CalculationOperation.i_operand input) = Ok r
        /\ CalculationOperation.result op = r
        /\ CalculationOperation.children op = []
        /\ CalculationOperation.operator op = CalculationOperation.i_operator input
        /\ CalculationOperation.operand op = CalculationOperation.i_operand input
        /\ CalculationOperation.parentRootId op
             = CalculationOperation.i_parentRootId input
        /\ CalculationOperation.parentOperationId op
             = CalculationOperation.i_parentOperationId input
        /\ CalculationOperation.id op = fst (randomUUID rt (snd (newDate rt w)))
        /\ CalculationOperation.createdAt op = fst (newDate rt w)
        /\ CalculationOperation.updatedAt op = fst (newDate rt w)).
Proof.
  unfold CalculationOperation.create.
  destruct (truthy (CalculationOperation.i_parentRootId input)) eqn:Hr,
           (truthy (CalculationOperation.i_parentOperationId input)) eqn:Ho;
    simpl; (split; [|split; [|split]]); try congruence.
  all: try (intros _ ->; reflexivity).
  all: intros _ Hv; rewrite Hv; simpl.
  all: destruct (isValidWith_calculate _ (CalculationOperation.i_parentValue input)
                   _ Hv) as [r Hr']; rewrite Hr'.
  all: destruct (newDate rt w) as [now w1]; simpl.
  all: destruct (randomUUID rt w1) as [uuid w2]; simpl.
  all: eexists; exists r; repeat split.
  all: unfold CalculationOperation.new, Operator.fromType, Operator.toString;
       simpl; now destruct (CalculationOperation.i_operator input).
Qed.

(** The example of the specification: 100 ADD 50 is 150, and 150 MULTIPLY 2
    is 300. *)
Lemma C1_operation_create_witness :
  (exists op w, CalculationOperation.create testRuntime
                  (operationInput (Some "root-uuid-1") None ADD 50 100) 1
                = (Ok op, w) /\ CalculationOperation.result op = 150%float)
  /\ (exists op w, CalculationOperation.create testRuntime
                  (operationInput None (Some "op-uuid-1") MULTIPLY 2 150) 2
                = (Ok op, w) /\ CalculationOperation.result op = 300%float).
Proof.
  split.
  - destruct (C1_operation_create nat testRuntime
                (operationInput (Some "root-uuid-1") None ADD 50 100) 1)
      as (_ & _ & _ & H).
    destruct H as (op & r & Hc & Hr & Hres & _); [easy | reflexivity |].
    exists op; eexists; split; [exact Hc|]. rewrite Hres.
    vm_compute in Hr. congruence.
  - destruct (C1_operation_create nat testRuntime
                (operationInput None (Some "op-uuid-1") MULTIPLY 2 150) 2)
      as (_ & _ & _ & H).
    destruct H as (op & r & Hc & Hr & Hres & _); [easy | reflexivity |].
    exists op; eexists; split; [exact Hc|]. rewrite Hres.
    vm_compute in Hr. congruence.
Defined.

(** C1 as stated fails: both parent ids are given (as empty strings), yet
    the error is [MissingParent], not [AmbiguousParent]; and with an empty
    [parentRootId] next to a real [parentOperationId] creation succeeds. *)
Lemma C1_given_empty_counterexample :
  let both := operationInput (Some "") (Some "") ADD 50 100 in
  let mixed := operationInput (Some "") (Some "op-uuid-1") ADD 50 100 in
  is_Some (CalculationOperation.i_parentRootId both)
  /\ is_Some (CalculationOperation.i_parentOperationId both)
  /\ fst (CalculationOperation.create testRuntime both 0) = Err MissingParent
  /\ fst (CalculationOperation.create testRuntime both 0) <> Err AmbiguousParent
  /\ is_Some (CalculationOperation.i_parentRootId mixed)
  /\ is_Some (CalculationOperation.i_parentOperationId mixed)
  /\ isOk (fst (CalculationOperation.create testRuntime mixed 0)) = true.
Proof.
  simpl. repeat split; eauto; discriminate.
Qed.

(** C7. [CalculationRoot.create] throws [InvalidValue] exactly when the
    value is not finite (NaN and both infinities are rejected, zero is
    accepted); a created root carries the value, has equal timestamps and
    counts zero operations. *)
Theorem C7_root_create W (rt : Runtime W)
    (input : CalculationRoot.CreateInput) (w : W) :
  (fst (CalculationRoot.create rt input w) = Err InvalidValue
     <-> CalculationRoot.Number_isFinite (CalculationRoot.i_value input) = false)
  /\ (CalculationRoot.Number_isFinite (CalculationRoot.i_value input) = false ->
      CalculationRoot.create rt input w = (Err InvalidValue, w))
  /\ (CalculationRoot.Number_isFinite (CalculationRoot.i_value input) = true ->
      exists root,
        CalculationRoot.create rt input w
          = (Ok root, snd (randomUUID rt (snd (newDate rt w))))
        /\ CalculationRoot.value root = CalculationRoot.i_value input
        /\ CalculationRoot.createdAt root = CalculationRoot.updatedAt root
        /\ CalculationRoot.operations root = []
        /\ CalculationRoot.getTotalOperationCount root = 0)
  /\ CalculationRoot.create rt (rootInput nan) w = (Err InvalidValue, w)
  /\ CalculationRoot.create rt (rootInput infinity) w = (Err InvalidValue, w)
  /\ CalculationRoot.create rt (rootInput neg_infinity) w = (Err InvalidValue, w)
  /\ isOk (fst (CalculationRoot.create rt (rootInput 0) w)) = true.
Proof.
  unfold CalculationRoot.create.
  repeat split; try reflexivity.
  - destruct (CalculationRoot.Number_isFinite _); [|reflexivity].
    simpl. destruct (newDate rt w) as [now w1], (randomUUID rt w1); discriminate.
  - intros ->; reflexivity.
  - intros ->; reflexivity.
  - intros ->. simpl.
    destruct (newDate rt w) as [now w1]; simpl.
    destruct (randomUUID rt w1) as [uuid w2]; simpl.
    eexists; repeat split.
  - simpl. destruct (newDate rt w) as [now w1], (randomUUID rt w1); reflexivity.
Qed.

Lemma C7_root_create_witness :
  (exists root w,
      CalculationRoot.create testRuntime (rootInput 0) 0 = (Ok root, w)
      /\ CalculationRoot.id root = "root-uuid-1"
      /\ CalculationRoot.createdAt root = CalculationRoot.updatedAt root
      /\ CalculationRoot.getTotalOperationCount root = 0)
  /\ CalculationRoot.create testRuntime (rootInput nan) 0 = (Err InvalidValue, 0).
Proof.
  split.
  - destruct (C7_root_create nat testRuntime (rootInput 0) 0)
      as (_ & _ & Hok & _).
    destruct (Hok eq_refl) as (root & Hc & _ & Hd & _ & Hn).
    exists root; eexists. split; [exact Hc|].
    split; [|split; assumption].
    vm_compute in Hc. now injection Hc as <-.
  - now apply (C7_root_create nat testRuntime (rootInput nan) 0).
Defined.

Lemma fold_left_count {A} (f : A -> nat) (l : list A) (a : nat) :
  fold_left (fun sum x => sum + 1 + f x) l a
  = a + list_sum (map (fun x => 1 + f x) l).
Proof.
  revert a; induction l as [|x l IH]; intros a; [simpl; lia|].
  cbn [fold_left]. rewrite IH. simpl. lia.
Qed.

Lemma countChildren_unfold (op : CalculationOperation.t) :
  CalculationRoot.countChildren op
  = CalculationRoot.countRecursive (CalculationOperation.children op).
Proof. destruct op; reflexivity. Qed.

Lemma countRecursive_sum (ops : list CalculationOperation.t) :
  CalculationRoot.countRecursive ops
  = list_sum (map (fun op => 1 + CalculationRoot.countRecursive
                                   (CalculationOperation.children op)) ops).
Proof.
  unfold CalculationRoot.countRecursive at 1. rewrite fold_left_count. simpl.
  f_equal. apply map_ext. intros op. now rewrite countChildren_unfold.
Qed.

Lemma countRecursive_cons (op : CalculationOperation.t)
    (ops : list CalculationOperation.t) :
  CalculationRoot.countRecursive (op :: ops)
  = 1 + CalculationRoot.countRecursive (CalculationOperation.children op)
    + CalculationRoot.countRecursive ops.
Proof.
  rewrite (countRecursive_sum (op :: ops)), (countRecursive_sum ops).
  simpl. lia.
Qed.

Lemma countRecursive_subtree (op : CalculationOperation.t) :
  1 + CalculationRoot.countRecursive (CalculationOperation.children op)
  = length (subtree op).
Proof.
  induction op as [op IH] using operation_ind.
  destruct op as [? ? ? ? ? ? ? ? ? ? ch]; unfold CalculationOperation.children in *.
  simpl in *. f_equal.
  induction ch as [|c ch IHch]; [reflexivity|].
  inversion IH as [|? ? Hc Hch]; subst.
  rewrite countRecursive_cons. simpl flat_map. rewrite length_app.
  rewrite <- Hc, <- (IHch Hch). unfold CalculationOperation.children. lia.
Qed.

Lemma countRecursive_descendants (ops : list CalculationOperation.t) :
  CalculationRoot.countRecursive ops = length (flat_map subtree ops).
Proof.
  induction ops as [|op ops IH]; [reflexivity|].
  rewrite countRecursive_cons. simpl flat_map. rewrite length_app.
  rewrite <- countRecursive_subtree, <- IH. lia.
Qed.

(** C9. [getTotalOperationCount] is the number of operations in the tree
    below the root, each counted once; it is the sum over the direct
    operations of one plus the count below that operation, and zero for a
    root without operations. *)
Theorem C9_total_operation_count (r : CalculationRoot.t) :
  CalculationRoot.getTotalOperationCount r = length (descendants r)
  /\ CalculationRoot.getTotalOperationCount r
     = list_sum (map (fun op => 1 + CalculationRoot.countRecursive
                                      (CalculationOperation.children op))
                     (CalculationRoot.operations r))
  /\ (CalculationRoot.operations r = [] ->
      CalculationRoot.getTotalOperationCount r = 0).
Proof.
  unfold CalculationRoot.getTotalOperationCount, descendants,
    CalculationRoot.operations.
  split; [apply countRecursive_descendants|].
  split; [apply countRecursive_sum|].
  intros ->; reflexivity.
Qed.

Lemma C9_total_operation_count_witness :
  CalculationRoot.getTotalOperationCount scenarioRoot = 3
  /\ map CalculationOperation.id (descendants scenarioRoot)
     = ["op-uuid-1"; "op-uuid-2"; "op-uuid-3"].
Proof.
  destruct (C9_total_operation_count scenarioRoot) as (Hlen & _ & _).
  split; [rewrite Hlen|]; reflexivity.
Defined.

(* --------------------------------------------------------------------- *)
(** ** Serialization and reconstitution                                  *)
(* --------------------------------------------------------------------- *)

Lemma Date_copy_id (d : Date) : Date_copy d = d.
Proof. now destruct d. Qed.

Lemma fromType_toString (o : Operator.t) :
  Operator.fromType (Operator.toString o) = o.
Proof. now destruct o. Qed.

Lemma reconstituteOperation_toJSON (o : CalculationOperation.t) :
  CalculationService.reconstituteOperation (CalculationOperation.toJSON o) = o.
Proof.
  induction o as [o IH] using operation_ind.
  destruct o as [? ? ? ? ? ? ? ? ? ? ch].
  unfold CalculationOperation.children in IH.
  cbn [CalculationOperation.toJSON CalculationService.reconstituteOperation];
    cbn in IH |- *.
  unfold CalculationOperation.setChildren, CalculationOperation.fromPersistence,
    CalculationOperation.new. cbn.
  rewrite !Date_copy_id, fromType_toString. f_equal.
  induction IH as [|c ch Hc _ IHch]; [reflexivity|].
  cbn [map]. now rewrite Hc, IHch.
Qed.

Lemma reconstituteOperations_toJSON (ops : list CalculationOperation.t) :
  map CalculationService.reconstituteOperation
      (map CalculationOperation.toJSON ops) = ops.
Proof.
  induction ops as [|o ops IH]; [reflexivity|].
  cbn [map]. now rewrite reconstituteOperation_toJSON, IH.
Qed.

Lemma reconstituteTree_toJSON (root : CalculationRoot.t) :
  CalculationService.reconstituteTree (CalculationRoot.toJSON root) = root.
Proof.
  destruct root as [? ? ? ? ? ? ops].
  unfold CalculationService.reconstituteTree, CalculationRoot.toJSON,
    CalculationRoot.setOperations, CalculationRoot.fromPersistence,
    CalculationRoot.new.
  cbn. now rewrite !Date_copy_id, reconstituteOperations_toJSON.
Qed.

Lemma reconstituteTrees_toJSON (trees : list CalculationRoot.t) :
  CalculationService.reconstituteTrees (map CalculationRoot.toJSON trees) = trees.
Proof.
  unfold CalculationService.reconstituteTrees.
  induction trees as [|r trees IH]; [reflexivity|].
  cbn [map]. now rewrite reconstituteTree_toJSON, IH.
Qed.

(** C4. Reconstituting the record a root serializes to gives the root back,
    field by field, with the whole operations tree: every operation of the
    tree is itself restored with its children. *)
Theorem C4_reconstitute_toJSON (root : CalculationRoot.t) :
  CalculationService.reconstituteTree (CalculationRoot.toJSON root) = root
  /\ Forall (fun op => CalculationService.reconstituteOperation
                         (CalculationOperation.toJSON op) = op)
            (descendants root).
Proof.
  split; [apply reconstituteTree_toJSON|].
  apply Forall_forall. intros op _. apply reconstituteOperation_toJSON.
Qed.

Lemma C4_reconstitute_toJSON_witness :
  CalculationService.reconstituteTree (CalculationRoot.toJSON scenarioRoot)
  = scenarioRoot.
Proof. apply (C4_reconstitute_toJSON scenarioRoot). Defined.

(* --------------------------------------------------------------------- *)
(** ** The service: reads                                                *)
(* --------------------------------------------------------------------- *)

Lemma swallow_run {W A} (m : M W A) (w : W) :
  swallow m w = (Ok tt, snd (m w)).
Proof. unfold swallow. now destruct (m w). Qed.

Lemma getFullTree_run W (unitOfWork : IUnitOfWork.t W)
    (cache : ICacheRepository.t W) (w : W) :
  CalculationService.getFullTree unitOfWork cache w
  = match ICacheRepository.get cache CacheKeys.FULL_TREE w with
    | (Ok (Some (VTrees data)), w1) =>
        (Ok (CalculationService.reconstituteTrees data), w1)
    | (Ok (Some _), w1) => (Err NotAnArray, w1)
    | (Ok None, w1) =>
        match ICalculationRepository.findAllRootsWithOperations
                (IUnitOfWork.calculationRepository unitOfWork) w1 with
        | (Ok trees, w2) =>
            (Ok trees,
             snd (ICacheRepository.set cache CacheKeys.FULL_TREE
                    (VTrees (map CalculationRoot.toJSON trees))
                    (Some CacheTTL.FULL_TREE) w2))
        | (Err e, w2) => (Err e, w2)
        end
    | (Err e, w1) => (Err e, w1)
    end.
Proof.
  unfold CalculationService.getFullTree, bind.
  destruct (ICacheRepository.get cache CacheKeys.FULL_TREE w)
    as [[[[data|data|data]|]|e] w1]; try reflexivity.
  destruct (ICalculationRepository.findAllRootsWithOperations _ w1)
    as [[trees|e] w2]; [|reflexivity].
  unfold CalculationService.cacheTreesAsync. now rewrite swallow_run.
Qed.

(** C5. When the cache answers [FULL_TREE] with a serialized array,
    [getFullTree] returns its reconstitution and the world is the one the
    cache lookup left, whatever the unit of work: the repository is not
    called.  The same holds whenever the lookup is not a miss.  On a miss
    the repository is asked once; its trees are returned whatever the
    cache write then does, and its failure is the failure of the call. *)
Theorem C5_getFullTree W (unitOfWork : IUnitOfWork.t W)
    (cache : ICacheRepository.t W) (w : W) :
  (forall data w1,
      ICacheRepository.get cache CacheKeys.FULL_TREE w
        = (Ok (Some (VTrees data)), w1) ->
      forall uow' : IUnitOfWork.t W,
        CalculationService.getFullTree uow' cache w
          = (Ok (CalculationService.reconstituteTrees data), w1))
  /\ (fst (ICacheRepository.get cache CacheKeys.FULL_TREE w) <> Ok None ->
      forall uow' : IUnitOfWork.t W,
        CalculationService.getFullTree uow' cache w
          = CalculationService.getFullTree unitOfWork cache w
        /\ snd (CalculationService.getFullTree uow' cache w)
           = snd (ICacheRepository.get cache CacheKeys.FULL_TREE w))
  /\ (forall w1,
      ICacheRepository.get cache CacheKeys.FULL_TREE w = (Ok None, w1) ->
      (forall trees w2,
          ICalculationRepository.findAllRootsWithOperations
            (IUnitOfWork.calculationRepository unitOfWork) w1 = (Ok trees, w2) ->
          forall written w3,
            ICacheRepository.set cache CacheKeys.FULL_TREE
              (VTrees (map CalculationRoot.toJSON trees))
              (Some CacheTTL.FULL_TREE) w2 = (written, w3) ->
            CalculationService.getFullTree unitOfWork cache w = (Ok trees, w3))
      /\ (forall e w2,
          ICalculationRepository.findAllRootsWithOperations
            (IUnitOfWork.calculationRepository unitOfWork) w1 = (Err e, w2) ->
          CalculationService.getFullTree unitOfWork cache w = (Err e, w2))).
Proof.
  split; [|split].
  - intros data w1 Hget uow'. now rewrite getFullTree_run, Hget.
  - intros Hhit uow'. rewrite !getFullTree_run.
    destruct (ICacheRepository.get cache CacheKeys.FULL_TREE w)
      as [[[[data|data|data]|]|e] w1]; try (split; reflexivity).
    now destruct Hhit.
  - intros w1 Hget. split.
    + intros trees w2 Hfind written w3 Hset.
      now rewrite getFullTree_run, Hget, Hfind, Hset.
    + intros e w2 Hfind. now rewrite getFullTree_run, Hget, Hfind.
Qed.

(** A hit on the cached tree: the reconstituted root, and the cache lookup
    as the only call.  A miss against a cache that rejects writes: the
    repository's trees, after the lookup, the query and the failed write. *)
Lemma C5_getFullTree_witness :
  (let run := CalculationService.getFullTree Mock.unitOfWork Mock.memoryCache
                Mock.worldCached in
   fst run = Ok [Mock.root1]
   /\ Mock.calls (snd run) = [Mock.CacheGet CacheKeys.FULL_TREE])
  /\ (let run := CalculationService.getFullTree Mock.unitOfWork
                   Mock.readOnlyCache Mock.world0 in
      fst run = Ok [Mock.root1]
      /\ Mock.calls (snd run)
         = [Mock.CacheGet CacheKeys.FULL_TREE;
            Mock.FindAllRootsWithOperations;
            Mock.CacheSet CacheKeys.FULL_TREE
              (VTrees [CalculationRoot.toJSON Mock.root1])
              (Some CacheTTL.FULL_TREE)]).
Proof.
  split.
  - destruct (C5_getFullTree Mock.World Mock.unitOfWork Mock.memoryCache
                Mock.worldCached) as (Hhit & _ & _).
    cbv zeta. erewrite Hhit; [|vm_compute; reflexivity].
    split; vm_compute; reflexivity.
  - destruct (C5_getFullTree Mock.World Mock.unitOfWork Mock.readOnlyCache
                Mock.world0) as (_ & _ & Hmiss).
    destruct (Hmiss _ ltac:(vm_compute; reflexivity)) as [Hok _].
    cbv zeta. erewrite Hok; [| vm_compute; reflexivity | vm_compute; reflexivity].
    split; vm_compute; reflexivity.
Defined.

(* --------------------------------------------------------------------- *)
(** ** The service: writes                                               *)
(* --------------------------------------------------------------------- *)

Lemma updateCacheAfterRootCreation_run W (cache : ICacheRepository.t W)
    (root : CalculationRoot.t) (w : W) :
  fst (CalculationService.updateCacheAfterRootCreation cache root w) = Ok tt.
Proof.
  unfold CalculationService.updateCacheAfterRootCreation, bind.
  now rewrite !swallow_run.
Qed.

Lemma updateCacheAfterOperationCreation_run W (cache : ICacheRepository.t W)
    (operation : CalculationOperation.t) (w : W) :
  fst (CalculationService.updateCacheAfterOperationCreation cache operation w)
  = Ok tt.
Proof.
  unfold CalculationService.updateCacheAfterOperationCreation, bind.
  now rewrite !swallow_run.
Qed.

Lemma createRoot_run W (rt : Runtime W) (unitOfWork : IUnitOfWork.t W)
    (cache : ICacheRepository.t W) (input : CalculationService.CreateRootInput)
    (w : W) :
  CalculationService.createRoot rt unitOfWork cache input w
  = match IUnitOfWork.transaction unitOfWork
            (CalculationService.createRoot_transaction rt input)
            (snd (ICacheRepository.deleteMany cache
                    [CacheKeys.ROOT_LIST; CacheKeys.FULL_TREE] w)) with
    | (Ok root, w2) =>
        (Ok root,
         snd (CalculationService.updateCacheAfterRootCreation cache root w2))
    | (Err e, w2) =>
        (Err e, snd (ICacheRepository.deleteMany cache
                       [CacheKeys.ROOT_LIST; CacheKeys.FULL_TREE] w2))
    end.
Proof.
  unfold CalculationService.createRoot,
    CalculationService.invalidateCacheForNewRoot, bind, try_catch, throw, ret.
  rewrite swallow_run.
  destruct (IUnitOfWork.transaction unitOfWork _ _) as [[root|e] w2].
  - pose proof (updateCacheAfterRootCreation_run W cache root w2) as Hu.
    destruct (CalculationService.updateCacheAfterRootCreation cache root w2)
      as [u w3]; simpl in *. now subst u.
  - now rewrite swallow_run.
Qed.

Lemma createRoot_transaction_invalid W (rt : Runtime W)
    (input : CalculationService.CreateRootInput)
    (uow : ICalculationRepository.t W) (w : W) :
  CalculationRoot.Number_isFinite (CalculationService.value input) = false ->
  CalculationService.createRoot_transaction rt input uow w
  = (Err InvalidValue, w).
Proof.
  intros Hv. unfold CalculationService.createRoot_transaction, bind,
    CalculationRoot.create. simpl. now rewrite Hv.
Qed.

Lemma deleteMany_lookup_None (keys : list string)
    (store : gmap string (CacheValue * Z)) (key : string) :
  store !! key = None -> MemoryCache.deleteMany keys store !! key = None.
Proof.
  unfold MemoryCache.deleteMany. revert store.
  induction keys as [|k keys IH]; intros store Hs; [exact Hs|].
  cbn [fold_left]. apply IH.
  destruct (decide (k = key)) as [->|Hne];
    [apply lookup_delete_eq | now rewrite lookup_delete_ne].
Qed.

Lemma deleteMany_lookup (keys : list string)
    (store : gmap string (CacheValue * Z)) (key : string) :
  In key keys -> MemoryCache.deleteMany keys store !! key = None.
Proof.
  unfold MemoryCache.deleteMany. revert store.
  induction keys as [|k keys IH]; intros store Hin; [destruct Hin|].
  cbn [fold_left]. destruct (decide (k = key)) as [->|Hne].
  - apply deleteMany_lookup_None, lookup_delete_eq.
  - destruct Hin as [Heq|Hin]; [contradiction | now apply IH].
Qed.

(** The in-memory cache really removes the keys it is asked to. *)
Lemma memoryCache_deleteMany (keys : list string) (w : Mock.World)
    (key : string) :
  In key keys ->
  fst (ICacheRepository.get Mock.memoryCache key
         (snd (ICacheRepository.deleteMany Mock.memoryCache keys w)))
  = Ok None.
Proof.
  intros Hin. cbn. unfold MemoryCache.get.
  now rewrite (deleteMany_lookup keys _ key Hin).
Qed.

(** C6 (as amended). [createRoot] first asks the cache to delete
    [ROOT_LIST] and [FULL_TREE], swallowing a failure of that call, and only
    then attempts the transaction.  It fails exactly when the transaction
    fails (a non-finite value makes the callback throw [InvalidValue]
    before anything is saved), and then it asks for the same deletion again
    before rethrowing the same error.  When the cache's [deleteMany] does
    remove the keys it is given, neither key is populated after a failed
    [createRoot]. *)
Theorem C6_createRoot W (rt : Runtime W) (unitOfWork : IUnitOfWork.t W)
    (cache : ICacheRepository.t W) (input : CalculationService.CreateRootInput)
    (w : W) :
  (forall e w',
      CalculationService.createRoot rt unitOfWork cache input w = (Err e, w')
      <-> exists w2,
          IUnitOfWork.transaction unitOfWork
            (CalculationService.createRoot_transaction rt input)
            (snd (ICacheRepository.deleteMany cache
                    [CacheKeys.ROOT_LIST; CacheKeys.FULL_TREE] w))
          = (Err e, w2)
          /\ w' = snd (ICacheRepository.deleteMany cache
                         [CacheKeys.ROOT_LIST; CacheKeys.FULL_TREE] w2))
  /\ (forall root w',
      CalculationService.createRoot rt unitOfWork cache input w = (Ok root, w')
      <-> exists w2,
          IUnitOfWork.transaction unitOfWork
            (CalculationService.createRoot_transaction rt input)
            (snd (ICacheRepository.deleteMany cache
                    [CacheKeys.ROOT_LIST; CacheKeys.FULL_TREE] w))
          = (Ok root, w2)
          /\ w' = snd (CalculationService.updateCacheAfterRootCreation
                         cache root w2))
  /\ (CalculationRoot.Number_isFinite (CalculationService.value input) = false ->
      forall uow w0,
        CalculationService.createRoot_transaction rt input uow w0
        = (Err InvalidValue, w0))
  /\ ((forall keys w0 key,
          In key keys ->
          fst (ICacheRepository.get cache key
                 (snd (ICacheRepository.deleteMany cache keys w0))) = Ok None) ->
      forall e w',
        CalculationService.createRoot rt unitOfWork cache input w = (Err e, w') ->
        fst (ICacheRepository.get cache CacheKeys.ROOT_LIST w') = Ok None
        /\ fst (ICacheRepository.get cache CacheKeys.FULL_TREE w') = Ok None).
Proof.
  pose proof (createRoot_run W rt unitOfWork cache input w) as Hrun.
  split; [|split; [|split]].
  - intros e w'. rewrite Hrun.
    destruct (IUnitOfWork.transaction unitOfWork _ _) as [[root|e'] w2]; split.
    + discriminate.
    + intros (w3 & [=] & _).
    + intros [= -> <-]. now exists w2.
    + intros (w3 & [= -> ->] & ->). reflexivity.
  - intros root w'. rewrite Hrun.
    destruct (IUnitOfWork.transaction unitOfWork _ _) as [[root'|e'] w2]; split.
    + intros [= -> <-]. now exists w2.
    + intros (w3 & [= -> ->] & ->). reflexivity.
    + discriminate.
    + intros (w3 & [=] & _).
  - intros Hv uow w0. now apply createRoot_transaction_invalid.
  - intros Hlaw e w'. rewrite Hrun.
    destruct (IUnitOfWork.transaction unitOfWork _ _) as [[root|e'] w2];
      [discriminate|].
    intros [= _ <-]. split; apply Hlaw; simpl; auto.
Qed.

(** With the in-memory cache: a non-finite value and a database failure
    both leave the two keys empty, between two deletions in the call log. *)
Lemma C6_createRoot_witness :
  (let run := CalculationService.createRoot Mock.runtime Mock.unitOfWork
                Mock.memoryCache (serviceRootInput nan) Mock.worldCached in
   fst run = Err InvalidValue
   /\ fst (ICacheRepository.get Mock.memoryCache CacheKeys.ROOT_LIST (snd run))
      = Ok None
   /\ fst (ICacheRepository.get Mock.memoryCache CacheKeys.FULL_TREE (snd run))
      = Ok None
   /\ Mock.calls (snd run)
      = [Mock.CacheDeleteMany [CacheKeys.ROOT_LIST; CacheKeys.FULL_TREE];
         Mock.Transaction;
         Mock.CacheDeleteMany [CacheKeys.ROOT_LIST; CacheKeys.FULL_TREE]])
  /\ (let run := CalculationService.createRoot Mock.runtime Mock.unitOfWork
                   Mock.memoryCache (serviceRootInput 100)
                   (Mock.dbOffline Mock.worldCached) in
      fst run = Err Mock.DBError
      /\ fst (ICacheRepository.get Mock.memoryCache CacheKeys.ROOT_LIST (snd run))
         = Ok None
      /\ fst (ICacheRepository.get Mock.memoryCache CacheKeys.FULL_TREE (snd run))
         = Ok None).
Proof.
  split; cbv zeta.
  - destruct (C6_createRoot Mock.World Mock.runtime Mock.unitOfWork
                Mock.memoryCache (serviceRootInput nan) Mock.worldCached)
      as (_ & _ & _ & Hclean).
    destruct (CalculationService.createRoot Mock.runtime Mock.unitOfWork
                Mock.memoryCache (serviceRootInput nan) Mock.worldCached)
      as [r w'] eqn:Hrun.
    assert (Hr : r = Err InvalidValue)
      by (apply (f_equal fst) in Hrun; vm_compute in Hrun; now subst r).
    subst r. destruct (Hclean memoryCache_deleteMany _ _ eq_refl) as [H1 H2].
    repeat split; [exact H1 | exact H2 |].
    apply (f_equal (fun p => Mock.calls (snd p))) in Hrun.
    vm_compute in Hrun. symmetry. exact Hrun.
  - destruct (C6_createRoot Mock.World Mock.runtime Mock.unitOfWork
                Mock.memoryCache (serviceRootInput 100)
                (Mock.dbOffline Mock.worldCached))
      as (_ & _ & _ & Hclean).
    destruct (CalculationService.createRoot Mock.runtime Mock.unitOfWork
                Mock.memoryCache (serviceRootInput 100)
                (Mock.dbOffline Mock.worldCached))
      as [r w'] eqn:Hrun.
    assert (Hr : r = Err Mock.DBError)
      by (apply (f_equal fst) in Hrun; vm_compute in Hrun; now subst r).
    subst r. destruct (Hclean memoryCache_deleteMany _ _ eq_refl) as [H1 H2].
    repeat split; [exact H1 | exact H2].
Defined.

(** C6 as stated fails: against a cache that rejects writes, a failed
    [createRoot] asks for both deletions and still leaves [FULL_TREE]
    populated with the tree cached before the call, which the next read
    serves; the resilient wrapper changes nothing to that. *)
Lemma C6_stale_key_counterexample :
  (let run := CalculationService.createRoot Mock.runtime Mock.unitOfWork
                Mock.readOnlyCache (serviceRootInput nan) Mock.worldCached in
   fst run = Err InvalidValue
   /\ Mock.calls (snd run)
      = [Mock.CacheDeleteMany [CacheKeys.ROOT_LIST; CacheKeys.FULL_TREE];
         Mock.Transaction;
         Mock.CacheDeleteMany [CacheKeys.ROOT_LIST; CacheKeys.FULL_TREE]]
   /\ fst (ICacheRepository.get Mock.readOnlyCache CacheKeys.FULL_TREE (snd run))
      = Ok (Some (VTrees [CalculationRoot.toJSON Mock.root1]))
   /\ fst (CalculationService.getFullTree Mock.unitOfWork Mock.readOnlyCache
             (snd run)) = Ok [Mock.root1])
  /\ (let run := CalculationService.createRoot Mock.runtime Mock.unitOfWork
                   Mock.resilientCache (serviceRootInput nan) Mock.worldCached in
      fst run = Err InvalidValue
      /\ fst (ICacheRepository.get Mock.resilientCache CacheKeys.FULL_TREE
                (snd run))
         = Ok (Some (VTrees [CalculationRoot.toJSON Mock.root1]))).
Proof.
  vm_compute. repeat split; reflexivity.
Qed.

Lemma createOperation_run W (rt : Runtime W) (unitOfWork : IUnitOfWork.t W)
    (cache : ICacheRepository.t W)
    (input : CalculationService.CreateOperationInput) (w : W) :
  truthy (CalculationService.parentRootId input)
    <> truthy (CalculationService.parentOperationId input) ->
  CalculationService.createOperation rt unitOfWork cache input w
  = match IUnitOfWork.transaction unitOfWork
            (CalculationService.createOperation_transaction rt input)
            (snd (ICacheRepository.deleteMany cache
                    (CalculationService.keysToInvalidate input) w)) with
    | (Ok operation, w2) =>
        (Ok operation,
         snd (CalculationService.updateCacheAfterOperationCreation
                cache operation w2))
    | (Err e, w2) =>
        (Err e, snd (ICacheRepository.deleteMany cache
                       (CalculationService.keysToInvalidate input) w2))
    end.
Proof.
  intros Hone. unfold CalculationService.createOperation.
  destruct (truthy (CalculationService.parentRootId input)),
           (truthy (CalculationService.parentOperationId input));
    try congruence; cbn [negb andb].
  all: unfold CalculationService.invalidateCacheForNewOperation, bind,
         try_catch, throw, ret.
  all: rewrite swallow_run.
  all: destruct (IUnitOfWork.transaction unitOfWork _ _) as [[op|e] w2];
         [|now rewrite swallow_run].
  all: pose proof (updateCacheAfterOperationCreation_run W cache op w2) as Hu.
  all: destruct (CalculationService.updateCacheAfterOperationCreation cache op w2)
         as [u w3]; simpl in *; now subst u.
Qed.

(** C10. The empty string is an absent parent id, in the service and in
    the entity factory alike.  With both ids given as empty strings, both
    throw [MissingParent]; the service does so before it touches the cache
    or the transaction.  With an empty [parentRootId] next to a non-empty
    [parentOperationId], the service invalidates only the keys of the
    operation parent, resolves the parent value through
    [findOperationById] only, and passes its own check; the entity
    factory accepts the input and computes the result from the parent
    value it is given. *)
Theorem C10_empty_parent_id W (rt : Runtime W) (unitOfWork : IUnitOfWork.t W)
    (cache : ICacheRepository.t W)
    (input : CalculationService.CreateOperationInput)
    (entityInput : CalculationOperation.CreateInput) (w : W) :
  (CalculationService.parentRootId input = Some "" ->
   CalculationService.parentOperationId input = Some "" ->
   CalculationService.createOperation rt unitOfWork cache input w
   = (Err MissingParent, w))
  /\ (CalculationOperation.i_parentRootId entityInput = Some "" ->
      CalculationOperation.i_parentOperationId entityInput = Some "" ->
      CalculationOperation.create rt entityInput w = (Err MissingParent, w))
  /\ (CalculationService.parentRootId input = Some "" ->
      forall operationId,
        CalculationService.parentOperationId input = Some operationId ->
        operationId <> "" ->
        CalculationService.keysToInvalidate input
        = [CacheKeys.FULL_TREE; CacheKeys.OPERATION operationId;
           CacheKeys.OPERATION_CHILDREN operationId]
        /\ (forall (uow : ICalculationRepository.t W) (w0 : W),
               CalculationService.getParentValue uow input w0
               = match ICalculationRepository.findOperationById
                         uow operationId w0 with
                 | (Ok (Some operation), w1) =>
                     (Ok (CalculationOperation.result operation), w1)
                 | (Ok None, w1) =>
                     (Err (ParentOperationNotFound operationId), w1)
                 | (Err e, w1) => (Err e, w1)
                 end)
        /\ CalculationService.createOperation rt unitOfWork cache input w
           = match IUnitOfWork.transaction unitOfWork
                     (CalculationService.createOperation_transaction rt input)
                     (snd (ICacheRepository.deleteMany cache
                             (CalculationService.keysToInvalidate input) w)) with
             | (Ok operation, w2) =>
                 (Ok operation,
                  snd (CalculationService.updateCacheAfterOperationCreation
                         cache operation w2))
             | (Err e, w2) =>
                 (Err e, snd (ICacheRepository.deleteMany cache
                                (CalculationService.keysToInvalidate input) w2))
             end)
  /\ (CalculationOperation.i_parentRootId entityInput = Some "" ->
      forall operationId,
        CalculationOperation.i_parentOperationId entityInput = Some operationId ->
        operationId <> "" ->
        Operator.isValidWith (CalculationOperation.i_operator entityInput)
                             (CalculationOperation.i_operand entityInput) = true ->
        exists op,
          fst (CalculationOperation.create rt entityInput w) = Ok op
          /\ CalculationOperation.parentOperationId op = Some operationId
          /\ CalculationOperation.parentRootId op = Some ""
          /\ Operator.calculate (CalculationOperation.i_operator entityInput)
                                (CalculationOperation.i_parentValue entityInput)
                                (CalculationOperation.i_operand entityInput)
             = Ok (CalculationOperation.result op)).
Proof.
  assert (Htruthy : forall s, s <> "" -> truthy (Some s) = true).
  { intros s Hs. simpl. destruct (String.eqb_spec s ""); [contradiction|reflexivity]. }
  split; [|split; [|split]].
  - intros Hr Ho. unfold CalculationService.createOperation.
    now rewrite Hr, Ho.
  - intros Hr Ho. unfold CalculationOperation.create. now rewrite Hr, Ho.
  - intros Hr operationId Ho Hne. split; [|split].
    + unfold CalculationService.keysToInvalidate.
      now rewrite Hr, Ho, (Htruthy _ Hne).
    + intros uow w0. unfold CalculationService.getParentValue, bind, throw, ret.
      rewrite Hr, Ho, (Htruthy _ Hne). cbn.
      destruct (ICalculationRepository.findOperationById uow operationId w0)
        as [[[operation|]|e] w1]; reflexivity.
    + apply createOperation_run. rewrite Hr, Ho, (Htruthy _ Hne). discriminate.
  - intros Hr operationId Ho Hne Hvalid.
    unfold CalculationOperation.create.
    rewrite Hr, Ho, (Htruthy _ Hne), Hvalid. cbn.
    destruct (isValidWith_calculate _
                (CalculationOperation.i_parentValue entityInput) _ Hvalid)
      as [r Hcalc].
    rewrite Hcalc.
    destruct (newDate rt w) as [now w1], (randomUUID rt w1) as [uuid w2].
    eexists; repeat split.
Qed.

(** On the test doubles: two empty ids are rejected without a single call;
    an empty root id next to ["op-1"] creates an operation on the result of
    ["op-1"], and the only lookup is [findOperationById]. *)
Lemma C10_empty_parent_id_witness :
  CalculationService.createOperation Mock.runtime Mock.unitOfWork
    Mock.memoryCache (serviceOperationInput (Some "") (Some "") "ADD" 50)
    Mock.world0
  = (Err MissingParent, Mock.world0)
  /\ (let run := CalculationService.createOperation Mock.runtime Mock.unitOfWork
                   Mock.memoryCache
                   (serviceOperationInput (Some "") (Some "op-1") "ADD" 50)
                   Mock.world0 in
      (exists op, fst run = Ok op
                  /\ CalculationOperation.result op = 200%float
                  /\ CalculationOperation.parentOperationId op = Some "op-1")
      /\ firstn 3 (Mock.calls (snd run))
         = [Mock.CacheDeleteMany
              [CacheKeys.FULL_TREE; CacheKeys.OPERATION "op-1";
               CacheKeys.OPERATION_CHILDREN "op-1"];
            Mock.Transaction;
            Mock.FindOperationById "op-1"]).
Proof.
  split.
  - now apply (C10_empty_parent_id Mock.World Mock.runtime Mock.unitOfWork
                 Mock.memoryCache
                 (serviceOperationInput (Some "") (Some "") "ADD" 50)
                 (operationInput (Some "") (Some "") ADD 50 100) Mock.world0).
  - cbv zeta. split; [eexists; vm_compute; repeat split | vm_compute; reflexivity].
Defined.

(* --------------------------------------------------------------------- *)
(** ** The repository: operations of one root                            *)
(* --------------------------------------------------------------------- *)

Section FilterOperationsForRoot.

Import DrizzleCalculationRepository.

Implicit Types (s : gset string) (b : bool) (op : OperationRow).
Implicit Types (allOps l : list OperationRow).

Lemma Set_has_true s x : Set_has s x = true <-> x ∈ s.
Proof. unfold Set_has. apply bool_decide_eq_true. Qed.

Lemma strict_eq_true (a : option string) (x : string) :
  strict_eq a x = true <-> a = Some x.
Proof.
  destruct a as [y|]; simpl; [|split; discriminate].
  rewrite String.eqb_eq. split; [now intros -> | now intros [= ->]].
Qed.

Lemma truthy_Some (x : string) : truthy (Some x) = true <-> x <> "".
Proof.
  simpl. destruct (String.eqb_spec x ""); simpl; split; auto; discriminate.
Qed.

(** One visit either leaves the state alone, and then the row adds nothing
    to the set, or adds the id of a row whose parent is in the set. *)
Lemma visit_cases s b op :
  (visit (s, b) op = (s, b)
   /\ forall parentId, parentOperationId op = Some parentId ->
                       parentId <> "" -> parentId ∈ s -> id op ∈ s)
  \/ (visit (s, b) op = (s ∪ {[id op]}, true)
      /\ (id op ∉ s)
      /\ exists parentId, parentOperationId op = Some parentId
                          /\ parentId <> "" /\ parentId ∈ s).
Proof.
  unfold visit, Set_add.
  destruct (parentOperationId op) as [parentId|] eqn:Hp;
    [|left; split; [reflexivity | discriminate]].
  change (default "" (Some parentId)) with parentId.
  destruct (truthy (Some parentId)) eqn:Ht; cbn [andb].
  - destruct (Set_has s parentId) eqn:Hs.
    + destruct (Set_has s (id op)) eqn:Hi; cbn [negb].
      * left. split; [reflexivity|]. intros; now apply Set_has_true.
      * right. split; [reflexivity|]. split.
        -- intros Hin. apply Set_has_true in Hin. congruence.
        -- exists parentId. split; [reflexivity|].
           split; [now apply truthy_Some | now apply Set_has_true].
    + left. split; [reflexivity|]. intros q [= <-] _ Hq.
      apply Set_has_true in Hq. congruence.
  - left. split; [reflexivity|]. intros q [= <-] Hq _.
    apply truthy_Some in Hq. congruence.
Qed.

Lemma fold_visit l : forall s b s' b',
  fold_left visit l (s, b) = (s', b') ->
  s ⊆ s'
  /\ (forall P : string -> Prop,
         (forall i, i ∈ s -> P i) -> closed l P -> forall i, i ∈ s' -> P i)
  /\ (b' = false -> b = false /\ s' = s /\ closed l (fun i => i ∈ s))
  /\ (b = false -> b' = true -> size s < size s').
Proof.
  induction l as [|op l IH]; intros s b s' b' Hfold; cbn [fold_left] in Hfold.
  - injection Hfold as <- <-. repeat split; auto; try congruence.
    intros op' q [].
  - destruct (visit_cases s b op) as [[Hv Hop]|(Hv & Hfresh & q & Hq & Hne & Hin)];
      rewrite Hv in Hfold; destruct (IH _ _ _ _ Hfold) as (Hsub & Hsound & Hstable & Hgrow).
    + split; [exact Hsub|]. split; [|split].
      * intros P HP Hcl. apply Hsound; [exact HP|].
        intros op' q' Hop'. apply Hcl. now right.
      * intros Hb'. destruct (Hstable Hb') as (-> & -> & Hcl).
        repeat split. intros op' q' [<-|Hop']; [apply Hop | now apply Hcl].
      * exact Hgrow.
    + assert (Hlt : size s < size (s ∪ {[id op]})).
      { rewrite size_union by set_solver. rewrite size_singleton. lia. }
      split; [etransitivity; [apply union_subseteq_l | exact Hsub]|].
      split; [|split].
      * intros P HP Hcl. apply Hsound.
        -- intros i [Hi|Hi]%elem_of_union; [now apply HP|].
           apply elem_of_singleton in Hi as ->.
           apply (Hcl op q); [now left | assumption | assumption | now apply HP].
        -- intros op' q' Hop'. apply Hcl. now right.
      * intros Hb'. now destruct (Hstable Hb') as [? _].
      * intros _ _. apply subseteq_size in Hsub. lia.
Qed.

Lemma pass_spec allOps s s' b' :
  pass allOps s = (s', b') ->
  s ⊆ s'
  /\ (forall P : string -> Prop,
         (forall i, i ∈ s -> P i) -> closed allOps P -> forall i, i ∈ s' -> P i)
  /\ (b' = false -> s' = s /\ closed allOps (fun i => i ∈ s))
  /\ (b' = true -> size s < size s').
Proof.
  intros Hpass. destruct (fold_visit _ _ _ _ _ Hpass) as (H1 & H2 & H3 & H4).
  split; [exact H1|]. split; [exact H2|]. split.
  - intros Hb. now destruct (H3 Hb) as (_ & ? & ?).
  - now apply H4.
Qed.

(** Whatever the fuel, a set the loop returns extends the set it started
    from, is closed, and lies inside every closed property of the start. *)
Lemma while_sound allOps fuel : forall s s',
  while_foundNew fuel allOps s = Some s' ->
  s ⊆ s'
  /\ closed allOps (fun i => i ∈ s')
  /\ (forall P : string -> Prop,
         (forall i, i ∈ s -> P i) -> closed allOps P -> forall i, i ∈ s' -> P i).
Proof.
  induction fuel as [|fuel IH]; intros s s' Hw; [discriminate|].
  cbn [while_foundNew] in Hw.
  destruct (pass allOps s) as [s1 b1] eqn:Hpass.
  destruct (pass_spec _ _ _ _ Hpass) as (Hsub & Hsound & Hstable & _).
  destruct b1.
  - destruct (IH _ _ Hw) as (Hsub' & Hcl & Hsound').
    split; [etransitivity; eassumption|]. split; [exact Hcl|].
    intros P HP HclP. apply Hsound'; [|exact HclP]. now apply Hsound.
  - injection Hw as <-. destruct (Hstable eq_refl) as [-> Hcl].
    repeat split; auto.
Qed.

Lemma rowIds_spec allOps op : In op allOps -> id op ∈ rowIds allOps.
Proof.
  intros Hin. unfold rowIds. apply elem_of_list_to_set, list_elem_of_In.
  now apply in_map.
Qed.

Lemma size_list_to_set_le (l : list string) :
  size (list_to_set l : gset string) <= length l.
Proof.
  induction l as [|x l IH]; cbn [list_to_set length].
  - now rewrite size_empty.
  - rewrite size_union_alt, size_singleton.
    assert (size (list_to_set l ∖ {[x]} : gset string)
            <= size (list_to_set l : gset string))
      by (apply subseteq_size, subseteq_difference_l; reflexivity).
    lia.
Qed.

Lemma size_rowIds allOps : size (rowIds allOps) <= length allOps.
Proof.
  unfold rowIds. etransitivity; [apply size_list_to_set_le|].
  now rewrite length_map.
Qed.

(** The loop exits within as many passes as there are row ids outside the
    set, plus the last pass that finds nothing new. *)
Lemma while_terminates allOps fuel : forall s,
  s ⊆ rowIds allOps ->
  size (rowIds allOps) - size s < fuel ->
  is_Some (while_foundNew fuel allOps s).
Proof.
  induction fuel as [|fuel IH]; intros s Hsub Hfuel; [lia|].
  cbn [while_foundNew].
  destruct (pass allOps s) as [s1 b1] eqn:Hpass.
  destruct (pass_spec _ _ _ _ Hpass) as (_ & Hsound & _ & Hgrow).
  destruct b1; [|eauto].
  assert (Hsub1 : s1 ⊆ rowIds allOps).
  { intros i Hi.
    apply (Hsound (fun j => j ∈ rowIds allOps)); [exact Hsub| |exact Hi].
    intros op q Hop _ _ _. now apply rowIds_spec. }
  apply IH; [exact Hsub1|].
  specialize (Hgrow eq_refl). apply subseteq_size in Hsub1. lia.
Qed.

Lemma fold_directChildren rootId l : forall s i,
  i ∈ fold_left (fun belongsToRoot op =>
                   if strict_eq (parentRootId op) rootId
                   then Set_add belongsToRoot (id op)
                   else belongsToRoot) l s
  <-> i ∈ s \/ exists op, In op l /\ parentRootId op = Some rootId /\ id op = i.
Proof.
  induction l as [|op l IH]; intros s i; cbn [fold_left].
  - split; [auto | intros [?|(? & [] & _)]; assumption].
  - rewrite IH. destruct (strict_eq (parentRootId op) rootId) eqn:Hr.
    + apply strict_eq_true in Hr. unfold Set_add.
      rewrite elem_of_union, elem_of_singleton. split.
      * intros [[? | ->] | (op' & ? & ? & ?)]; [auto| |]; right;
          [exists op | exists op']; simpl; auto.
      * intros [? | (op' & [<- | ?] & ? & <-)]; [auto|auto|].
        right. exists op'. auto.
    + split.
      * intros [?|(op' & ? & ? & ?)]; [auto|]. right. exists op'. simpl; auto.
      * intros [? | (op' & [<- | ?] & Hr' & ?)]; [auto| |].
        -- apply strict_eq_true in Hr'. congruence.
        -- right. exists op'. auto.
Qed.

Lemma directChildren_spec rootId allOps i :
  i ∈ directChildren rootId allOps
  <-> exists op, In op allOps /\ parentRootId op = Some rootId /\ id op = i.
Proof.
  unfold directChildren. rewrite fold_directChildren. split.
  - intros [Hi|?]; [|assumption]. now apply not_elem_of_empty in Hi.
  - auto.
Qed.

Lemma Belongs_closed rootId allOps : closed allOps (Belongs rootId allOps).
Proof. intros op q Hop Hq Hne Hb. now apply (Belongs_child _ _ op q). Qed.

Lemma Belongs_Permutation rootId allOps allOps' i :
  Permutation allOps allOps' -> Belongs rootId allOps i -> Belongs rootId allOps' i.
Proof.
  intros Hperm Hb. induction Hb as [op Hin Hr|op q Hin Hq Hne _ IH].
  - apply Belongs_root; [now apply (Permutation_in _ Hperm) | assumption].
  - apply (Belongs_child _ _ op q); auto. now apply (Permutation_in _ Hperm).
Qed.

(** The set the loop returns is the set of ids that belong to the root. *)
Lemma while_Belongs rootId allOps fuel s :
  while_foundNew fuel allOps (directChildren rootId allOps) = Some s ->
  forall i, i ∈ s <-> Belongs rootId allOps i.
Proof.
  intros Hw i. destruct (while_sound _ _ _ _ Hw) as (Hsub & Hcl & Hsound).
  split.
  - apply Hsound; [|apply Belongs_closed].
    intros j (op & Hop & Hr & <-)%directChildren_spec. now apply Belongs_root.
  - intros Hb. induction Hb as [op Hin Hr|op q Hin Hq Hne _ IH].
    + apply Hsub, directChildren_spec. now exists op.
    + now apply (Hcl op q).
Qed.

Lemma filterOperationsForRoot_spec rootId allOps fuel rows :
  filterOperationsForRoot fuel rootId allOps = Some rows ->
  exists s,
    (forall i, i ∈ s <-> Belongs rootId allOps i)
    /\ rows = List.filter (fun op => Set_has s (id op)) allOps.
Proof.
  unfold filterOperationsForRoot.
  destruct (while_foundNew fuel allOps _) as [s|] eqn:Hw; [|discriminate].
  intros [= <-]. exists s. split; [|reflexivity].
  now apply (while_Belongs rootId allOps fuel).
Qed.

Lemma filterOperationsForRoot_total rootId allOps fuel :
  length allOps < fuel ->
  is_Some (filterOperationsForRoot fuel rootId allOps).
Proof.
  intros Hfuel. unfold filterOperationsForRoot.
  destruct (while_terminates allOps fuel (directChildren rootId allOps))
    as [s ->]; [| |eauto].
  - intros i (op & Hop & _ & <-)%directChildren_spec. now apply rowIds_spec.
  - pose proof (size_rowIds allOps). lia.
Qed.

Lemma filterOperationsForRoot_In rootId allOps fuel rows op :
  filterOperationsForRoot fuel rootId allOps = Some rows ->
  In op rows <-> In op allOps /\ Belongs rootId allOps (id op).
Proof.
  intros (s & Hs & ->)%filterOperationsForRoot_spec.
  rewrite filter_In, Set_has_true, Hs. reflexivity.
Qed.

End FilterOperationsForRoot.

Lemma filter_Permutation_compat {A} (f : A -> bool) (l l' : list A) :
  Permutation l l' -> Permutation (List.filter f l) (List.filter f l').
Proof.
  induction 1 as [|x l l' _ IH|x y l|l l' l'' _ IH1 _ IH2]; cbn [List.filter].
  - constructor.
  - destruct (f x); [now constructor | exact IH].
  - destruct (f x), (f y); try reflexivity. constructor.
  - now transitivity (List.filter f l').
Qed.

(** C3 (as amended). With more fuel than there are rows the loop exits, so
    [filterOperationsForRoot] returns.  What it returns is the input list
    filtered, in its order, by a set that holds exactly the ids that belong
    to the root: the ids of rows whose [parentRootId] is the root, and of
    rows whose [parentOperationId] is a non-empty id that belongs.  Nothing
    unreachable is kept, nothing reachable is dropped, and reordering the
    input only reorders the result. *)
Theorem C3_filterOperationsForRoot (rootId : string)
    (allOps : list DrizzleCalculationRepository.OperationRow) :
  (forall fuel,
      length allOps < fuel ->
      exists rows,
        DrizzleCalculationRepository.filterOperationsForRoot fuel rootId allOps
        = Some rows)
  /\ (forall fuel rows,
      DrizzleCalculationRepository.filterOperationsForRoot fuel rootId allOps
      = Some rows ->
      (exists s : gset string,
          (forall i, i ∈ s <-> Belongs rootId allOps i)
          /\ rows = List.filter
                      (fun op => DrizzleCalculationRepository.Set_has
                                   s (DrizzleCalculationRepository.id op))
                      allOps)
      /\ (forall op,
             In op rows
             <-> In op allOps
                 /\ Belongs rootId allOps (DrizzleCalculationRepository.id op)))
  /\ (forall allOps' fuel fuel' rows rows',
      Permutation allOps allOps' ->
      DrizzleCalculationRepository.filterOperationsForRoot fuel rootId allOps
      = Some rows ->
      DrizzleCalculationRepository.filterOperationsForRoot fuel' rootId allOps'
      = Some rows' ->
      Permutation rows rows').
Proof.
  split; [|split].
  - intros fuel Hfuel. now apply filterOperationsForRoot_total.
  - intros fuel rows Hrows. split.
    + now apply (filterOperationsForRoot_spec rootId allOps fuel).
    + intros op. now apply (filterOperationsForRoot_In rootId allOps fuel).
  - intros allOps' fuel fuel' rows rows' Hperm
      (s & Hs & ->)%filterOperationsForRoot_spec
      (s' & Hs' & ->)%filterOperationsForRoot_spec.
    assert (s = s') as <-.
    { apply set_eq. intros i. rewrite Hs, Hs'. split.
      + now apply Belongs_Permutation.
      + apply Belongs_Permutation. now symmetry. }
    now apply filter_Permutation_compat.
Qed.

(** Rows listed children first, so that each pass finds one more level:
    the chain below the root is kept, the rows of another root are not. *)
Lemma C3_filterOperationsForRoot_witness :
  let allOps :=
    [operationRow "c" None (Some "b"); operationRow "b" None (Some "a");
     operationRow "a" (Some "r") None; operationRow "x" (Some "other") None;
     operationRow "y" None (Some "x")] in
  DrizzleCalculationRepository.filterOperationsForRoot 6 "r" allOps
  = Some [operationRow "c" None (Some "b"); operationRow "b" None (Some "a");
          operationRow "a" (Some "r") None]
  /\ Belongs "r" allOps "c"
  /\ ~ Belongs "r" allOps "y".
Proof.
  intros allOps.
  destruct (C3_filterOperationsForRoot "r" allOps) as (Htotal & Hspec & _).
  destruct (Htotal 6 ltac:(simpl; lia)) as [rows Hrows].
  assert (Heq : rows = [operationRow "c" None (Some "b");
                        operationRow "b" None (Some "a");
                        operationRow "a" (Some "r") None]).
  { vm_compute in Hrows. now injection Hrows as <-. }
  subst rows. split; [exact Hrows|].
  destruct (Hspec _ _ Hrows) as [_ Hin]. split.
  - apply (Hin (operationRow "c" None (Some "b"))). now left.
  - intros Hy.
    assert (Hrow : In (operationRow "y" None (Some "x"))
                      [operationRow "c" None (Some "b");
                       operationRow "b" None (Some "a");
                       operationRow "a" (Some "r") None]).
    { apply Hin. split; [|exact Hy]. do 4 right. now left. }
    simpl in Hrow. destruct Hrow as [H|[H|[H|[]]]]; discriminate H.
Defined.

(** C3 as stated fails on a row whose parent operation id is the empty
    string: the first row has the empty id and hangs off the root, the
    second names it as its parent, so its parent operation id is the id of a
    row that belongs; the filter keeps the first row only. *)
Lemma C3_empty_parent_id_counterexample :
  let parent := operationRow "" (Some "root-1") None in
  let child := operationRow "op-2" None (Some "") in
  DrizzleCalculationRepository.filterOperationsForRoot 3 "root-1" [parent; child]
  = Some [parent]
  /\ BelongsAsStated "root-1" [parent; child]
       (DrizzleCalculationRepository.id child)
  /\ In child [parent; child]
  /\ ~ In child [parent].
Proof.
  intros parent child. split; [vm_compute; reflexivity|]. split; [|split].
  - apply (BelongsAsStated_child _ _ child ""); [simpl; auto | reflexivity |].
    apply (BelongsAsStated_root _ _ parent); [simpl; auto | reflexivity].
  - simpl; auto.
  - intros [H|[]]. discriminate H.
Qed.

(* ===================================================================== *)
(** * Further properties                                                 *)
(* ===================================================================== *)

(* --------------------------------------------------------------------- *)
(** ** Operator                                                          *)
(* --------------------------------------------------------------------- *)

(** X1. [isValidWith] and [calculate] agree: an operator is valid with an
    operand exactly when [calculate] returns for that operand, whatever the
    left operand, and is invalid exactly when [calculate] throws its
    division-by-zero error. *)
Theorem X1_isValidWith_iff_calculate (o : Operator.t) (left right : float) :
  (Operator.isValidWith o right = true
     <-> exists r, Operator.calculate o left right = Ok r)
  /\ (Operator.isValidWith o right = false
        <-> Operator.calculate o left right = Err DivisionByZeroNotAllowed).
Proof.
  unfold Operator.isValidWith, Operator.calculate.
  destruct (Operator.value o); try destruct (PrimFloat.eqb right 0);
    (split; split); try discriminate; try reflexivity; eauto.
  all: intros [r Hr]; discriminate Hr.
Qed.

(** X2. An operator survives the trip through its name: [create] applied
    to the name [toString] stands for gives the operator back; and [equals]
    holds exactly between equal operators. *)
Theorem X2_operator_toString_create (o other : Operator.t) :
  Operator.create (OperatorType_name (Operator.toString o)) = Ok o
  /\ (Operator.equals o other = true <-> o = other)
  /\ (Operator.symbol o = Operator.symbol other <-> o = other).
Proof.
  destruct o as [ty], other as [ty']. split; [apply create_name|].
  unfold Operator.equals, Operator.symbol; cbn [Operator.value].
  split; (split; [|now intros [= ->]; try apply String.eqb_refl]).
  - intros H%String.eqb_eq. destruct ty, ty'; (discriminate H || reflexivity).
  - intros H. destruct ty, ty'; (discriminate H || reflexivity).
Qed.

(* --------------------------------------------------------------------- *)
(** ** Entities                                                          *)
(* --------------------------------------------------------------------- *)

Lemma Operator_toString_fromType (ty : OperatorType) :
  Operator.toString (Operator.fromType ty) = ty.
Proof. reflexivity. Qed.





(* --------------------------------------------------------------------- *)
(** ** In-memory cache                                                   *)
(* --------------------------------------------------------------------- *)

Lemma deleteMany_lookup_notin (keys : list string)
    (store : gmap string (CacheValue * Z)) (key : string) :
  ~ In key keys -> MemoryCache.deleteMany keys store !! key = store !! key.
Proof.
  unfold MemoryCache.deleteMany. revert store.
  induction keys as [|k keys IH]; intros store Hnotin; [reflexivity|].
  cbn [fold_left]. rewrite IH by (intros ?; apply Hnotin; now right).
  apply lookup_delete_ne. intros ->. apply Hnotin. now left.
Qed.



(** X6. An expired entry is a miss that cleans up after itself: [get]
    returns null, removes the entry, and every later [get] of the key, at
    whatever time, finds nothing; entries under other keys stay. *)
Theorem X6_memoryCache_expiry (now later : Z) (key other : string)
    (value : CacheValue) (expiresAt : Z)
    (store : gmap string (CacheValue * Z)) :
  store !! key = Some (value, expiresAt) ->
  (now > expiresAt)%Z ->
  fst (MemoryCache.get now key store) = None
  /\ snd (MemoryCache.get now key store) !! key = None
  /\ MemoryCache.get later key (snd (MemoryCache.get now key store))
     = (None, snd (MemoryCache.get now key store))
  /\ (other <> key ->
      snd (MemoryCache.get now key store) !! other = store !! other).
Proof.
  intros Hkey Hexp.
  assert (Hget : MemoryCache.get now key store = (None, base.delete key store)).
  { unfold MemoryCache.get. rewrite Hkey.
    now destruct (Z.gtb_spec now expiresAt); [|lia]. }
  rewrite !Hget. cbn [fst snd].
  split; [reflexivity|]. split; [apply lookup_delete_eq|]. split.
  - unfold MemoryCache.get. now rewrite lookup_delete_eq.
  - intros Hne. apply lookup_delete_ne. congruence.
Qed.

Lemma X6_memoryCache_expiry_witness :
  fst (MemoryCache.get 1704067500000 CacheKeys.FULL_TREE
         (Mock.store Mock.worldCached)) = None
  /\ snd (MemoryCache.get 1704067500000 CacheKeys.FULL_TREE
            (Mock.store Mock.worldCached)) !! CacheKeys.FULL_TREE = None.
Proof.
  destruct (X6_memoryCache_expiry 1704067500000 0 CacheKeys.FULL_TREE "other"
              (VTrees [CalculationRoot.toJSON Mock.root1]) 1704067400000
              (Mock.store Mock.worldCached))
    as (H1 & H2 & _); [apply lookup_singleton_eq | reflexivity |].
  now split.
Defined.

(** X7. [deleteMany] removes the listed keys and nothing else: a listed
    key is absent afterwards, every other key holds what it held, and no
    entry is added. *)
Theorem X7_memoryCache_deleteMany (keys : list string) (key : string)
    (store : gmap string (CacheValue * Z)) :
  (In key keys -> MemoryCache.deleteMany keys store !! key = None)
  /\ (~ In key keys -> MemoryCache.deleteMany keys store !! key = store !! key)
  /\ MemoryCache.deleteMany keys store ⊆ store.
Proof.
  split; [apply deleteMany_lookup|]. split; [apply deleteMany_lookup_notin|].
  apply map_subseteq_spec. intros k v Hk.
  destruct (in_dec String.string_dec k keys) as [Hin|Hnotin].
  - now rewrite deleteMany_lookup in Hk.
  - now rewrite deleteMany_lookup_notin in Hk.
Qed.

Lemma In_map_to_list_keys (store : gmap string (CacheValue * Z)) (key : string) :
  In key (map fst (map_to_list store)) <-> is_Some (store !! key).
Proof.
  rewrite in_map_iff. split.
  - intros ([k v] & <- & Hin). apply list_elem_of_In, elem_of_map_to_list in Hin.
    now exists v.
  - intros [v Hv]. exists (key, v). split; [reflexivity|].
    now apply list_elem_of_In, elem_of_map_to_list.
Qed.

(** X8. [invalidateByPrefix] removes exactly the keys that start with the
    prefix: they are gone afterwards and every other entry is as it was;
    with the empty prefix nothing is left. *)
Theorem X8_memoryCache_invalidateByPrefix (prefix key : string)
    (store : gmap string (CacheValue * Z)) :
  (String.prefix prefix key = true ->
   MemoryCache.invalidateByPrefix prefix store !! key = None)
  /\ (String.prefix prefix key = false ->
      MemoryCache.invalidateByPrefix prefix store !! key = store !! key)
  /\ MemoryCache.invalidateByPrefix "" store = ∅.
Proof.
  assert (Hyes : forall p k (s : gmap string (CacheValue * Z)),
             String.prefix p k = true ->
             MemoryCache.invalidateByPrefix p s !! k = None).
  { intros p k s Hp. unfold MemoryCache.invalidateByPrefix.
    destruct (s !! k) as [v|] eqn:Hk.
    - apply (deleteMany_lookup _ s k), filter_In. split; [|exact Hp].
      apply In_map_to_list_keys. now exists v.
    - now apply (deleteMany_lookup_None _ s k). }
  split; [apply Hyes|]. split.
  - intros Hp. unfold MemoryCache.invalidateByPrefix.
    apply (deleteMany_lookup_notin _ store key).
    intros [_ Hp']%filter_In. congruence.
  - apply map_eq. intros k. rewrite lookup_empty. apply Hyes.
    now destruct k.
Qed.

(* --------------------------------------------------------------------- *)
(** ** Resilient cache wrapper                                           *)
(* --------------------------------------------------------------------- *)

Lemma try_catch_Ok {W A} (body : M W A) (handler : Error -> M W A) (w w' : W)
    (a : A) :
  body w = (Ok a, w') -> try_catch body handler w = (Ok a, w').
Proof. unfold try_catch. now intros ->. Qed.

Lemma try_catch_Err {W A} (body : M W A) (handler : Error -> M W A) (w w' : W)
    (e : Error) :
  body w = (Err e, w') -> try_catch body handler w = handler e w'.
Proof. unfold try_catch. now intros ->. Qed.



(** X10. Behind the resilient wrapper a cache outage never fails a read of
    the full tree: when the wrapped [get] rejects, [getFullTree] goes to
    the repository as on a miss and returns its trees; and the only errors
    [getFullTree] can then end with are the repository's own and the one
    of a cached value that is not an array. *)
Theorem X10_getFullTree_cache_outage W (unitOfWork : IUnitOfWork.t W)
    (cache : ICacheRepository.t W) (logger : ResilientCacheWrapper.Logger W)
    (w : W) :
  (forall e w1 trees w2,
      ICacheRepository.get cache CacheKeys.FULL_TREE w = (Err e, w1) ->
      ICalculationRepository.findAllRootsWithOperations
        (IUnitOfWork.calculationRepository unitOfWork)
        (ResilientCacheWrapper.warn logger
           ("GET failed for key: " ++ CacheKeys.FULL_TREE) e w1)
      = (Ok trees, w2) ->
      fst (CalculationService.getFullTree unitOfWork
             (ResilientCacheWrapper.wrap cache logger) w) = Ok trees)
  /\ (forall e,
      fst (CalculationService.getFullTree unitOfWork
             (ResilientCacheWrapper.wrap cache logger) w) = Err e ->
      e = NotAnArray
      \/ exists w1 w2,
          ICalculationRepository.findAllRootsWithOperations
            (IUnitOfWork.calculationRepository unitOfWork) w1 = (Err e, w2)).
Proof.
  rewrite getFullTree_run.
  unfold ResilientCacheWrapper.wrap;
    cbn [ICacheRepository.get ICacheRepository.set].
  unfold ResilientCacheWrapper.get, try_catch.
  split.
  - intros e w1 trees w2 Hget Hfind. now rewrite Hget, Hfind.
  - intros e.
    destruct (ICacheRepository.get cache CacheKeys.FULL_TREE w)
      as [[[[data|data|data]|]|e'] w1]; cbn [fst]; try discriminate;
      try (intros [= <-]; now left).
    + destruct (ICalculationRepository.findAllRootsWithOperations _ w1)
        as [[trees|e''] w2] eqn:Hfind; [discriminate|].
      intros [= <-]. right. eauto.
    + destruct (ICalculationRepository.findAllRootsWithOperations _ _)
        as [[trees|e''] w2] eqn:Hfind; [discriminate|].
      intros [= <-]. right. eauto.
Qed.

(* --------------------------------------------------------------------- *)
(** ** Cache keys                                                        *)
(* --------------------------------------------------------------------- *)

Lemma list_ascii_of_string_app (a b : string) :
  String.list_ascii_of_string (a ++ b)
  = (String.list_ascii_of_string a ++ String.list_ascii_of_string b)%list.
Proof. induction a as [|c a IH]; [reflexivity|]. simpl. now rewrite IH. Qed.

Lemma string_app_inv_tail (a b suffix : string) :
  a ++ suffix = b ++ suffix -> a = b.
Proof.
  intros H. apply (f_equal String.list_ascii_of_string) in H.
  rewrite !list_ascii_of_string_app in H. apply app_inv_tail in H.
  apply (f_equal String.string_of_list_ascii) in H.
  now rewrite !String.string_of_list_ascii_of_string in H.
Qed.

(** X11. The key builders do not confuse entities: each of the four is
    injective, a root key is never an operation key, and neither of the
    two fixed keys is a root or an operation key.  The keys of a root and
    of its operations list do share one name space: the operations key of
    [rootId] is the root key of [rootId] followed by [":ops"]. *)
Theorem X11_cache_keys (a b : string) :
  (CacheKeys.ROOT a = CacheKeys.ROOT b -> a = b)
  /\ (CacheKeys.OPERATION a = CacheKeys.OPERATION b -> a = b)
  /\ (CacheKeys.ROOT_OPERATIONS a = CacheKeys.ROOT_OPERATIONS b -> a = b)
  /\ (CacheKeys.OPERATION_CHILDREN a = CacheKeys.OPERATION_CHILDREN b -> a = b)
  /\ CacheKeys.ROOT a <> CacheKeys.OPERATION b
  /\ CacheKeys.ROOT a <> CacheKeys.OPERATION_CHILDREN b
  /\ CacheKeys.ROOT_OPERATIONS a <> CacheKeys.OPERATION b
  /\ CacheKeys.FULL_TREE <> CacheKeys.ROOT a
  /\ CacheKeys.FULL_TREE <> CacheKeys.ROOT_OPERATIONS a
  /\ CacheKeys.FULL_TREE <> CacheKeys.OPERATION a
  /\ CacheKeys.FULL_TREE <> CacheKeys.OPERATION_CHILDREN a
  /\ CacheKeys.ROOT_LIST <> CacheKeys.ROOT a
  /\ CacheKeys.ROOT_LIST <> CacheKeys.ROOT_OPERATIONS a
  /\ CacheKeys.ROOT_LIST <> CacheKeys.OPERATION a
  /\ CacheKeys.ROOT_LIST <> CacheKeys.OPERATION_CHILDREN a
  /\ CacheKeys.ROOT_OPERATIONS a = CacheKeys.ROOT (a ++ ":ops").
Proof.
  unfold CacheKeys.ROOT, CacheKeys.OPERATION, CacheKeys.ROOT_OPERATIONS,
    CacheKeys.OPERATION_CHILDREN, CacheKeys.FULL_TREE, CacheKeys.ROOT_LIST.
  cbn [String.append].
  repeat split; try discriminate; try (intros [= H]);
    try exact H;
    try (change ("" ++ ?x) with x in H; now apply string_app_inv_tail in H).
Qed.

Lemma X11_cache_keys_witness :
  CacheKeys.ROOT "root-1" <> CacheKeys.ROOT "root-2"
  /\ CacheKeys.ROOT "x:ops" = CacheKeys.ROOT_OPERATIONS "x".
Proof.
  destruct (X11_cache_keys "root-1" "root-2") as (Hinj & _).
  split; [intros H; now apply Hinj in H | reflexivity].
Defined.

(** X12. The keys [createOperation] invalidates: always [FULL_TREE]
    first, never [ROOT_LIST]; for an input the service accepts they are
    exactly three, the two further ones being those of the one parent that
    is given. *)
Theorem X12_keysToInvalidate (input : CalculationService.CreateOperationInput) :
  hd_error (CalculationService.keysToInvalidate input) = Some CacheKeys.FULL_TREE
  /\ ~ In CacheKeys.ROOT_LIST (CalculationService.keysToInvalidate input)
  /\ (forall rootId,
      CalculationService.parentRootId input = Some rootId ->
      rootId <> "" ->
      truthy (CalculationService.parentOperationId input) = false ->
      CalculationService.keysToInvalidate input
      = [CacheKeys.FULL_TREE; CacheKeys.ROOT rootId;
         CacheKeys.ROOT_OPERATIONS rootId])
  /\ (forall operationId,
      truthy (CalculationService.parentRootId input) = false ->
      CalculationService.parentOperationId input = Some operationId ->
      operationId <> "" ->
      CalculationService.keysToInvalidate input
      = [CacheKeys.FULL_TREE; CacheKeys.OPERATION operationId;
         CacheKeys.OPERATION_CHILDREN operationId]).
Proof.
  unfold CalculationService.keysToInvalidate.
  split; [reflexivity|]. split; [|split].
  - destruct (truthy (CalculationService.parentRootId input)),
             (truthy (CalculationService.parentOperationId input));
      cbn; intuition discriminate.
  - intros rootId -> Hne ->. apply truthy_Some in Hne. now rewrite Hne.
  - intros operationId -> -> Hne. apply truthy_Some in Hne. now rewrite Hne.
Qed.

(* --------------------------------------------------------------------- *)
(** ** The service: one root, and the cache-aside round trip             *)
(* --------------------------------------------------------------------- *)

Lemma getRootById_run W (unitOfWork : IUnitOfWork.t W)
    (cache : ICacheRepository.t W) (id : string) (w : W) :
  CalculationService.getRootById unitOfWork cache id w
  = match ICacheRepository.get cache (CacheKeys.ROOT id) w with
    | (Ok (Some (VRoot data)), w1) =>
        (Ok (Some (CalculationService.reconstituteTree data)), w1)
    | (Ok (Some _), w1) => (Err CalculationService.NotARoot, w1)
    | (Ok None, w1) =>
        match ICalculationRepository.findRootByIdWithOperations
                (IUnitOfWork.calculationRepository unitOfWork) id w1 with
        | (Ok (Some found), w2) =>
            (Ok (Some found),
             snd (ICacheRepository.set cache (CacheKeys.ROOT id)
                    (VRoot (CalculationRoot.toJSON found))
                    (Some CacheTTL.ROOT) w2))
        | (Ok None, w2) => (Ok None, w2)
        | (Err e, w2) => (Err e, w2)
        end
    | (Err e, w1) => (Err e, w1)
    end.
Proof.
  unfold CalculationService.getRootById, bind.
  destruct (ICacheRepository.get cache (CacheKeys.ROOT id) w)
    as [[[[data|data|data]|]|e] w1]; try reflexivity.
  destruct (ICalculationRepository.findRootByIdWithOperations _ id w1)
    as [[[found|]|e] w2]; try reflexivity.
  now rewrite swallow_run.
Qed.

(** X13. [getRootById] reads through the cache under the key of the id.
    A cached root is reconstituted and returned without the repository.
    On a miss the repository is asked: a root it finds is returned, and
    written to the cache under the same key with the root's time to live,
    whatever that write does; when it finds none the answer is null and
    nothing is written; its failure is the failure of the call. *)
Theorem X13_getRootById W (unitOfWork : IUnitOfWork.t W)
    (cache : ICacheRepository.t W) (id : string) (w : W) :
  (forall data w1,
      ICacheRepository.get cache (CacheKeys.ROOT id) w
        = (Ok (Some (VRoot data)), w1) ->
      forall uow' : IUnitOfWork.t W,
        CalculationService.getRootById uow' cache id w
        = (Ok (Some (CalculationService.reconstituteTree data)), w1))
  /\ (forall w1,
      ICacheRepository.get cache (CacheKeys.ROOT id) w = (Ok None, w1) ->
      (forall found w2,
          ICalculationRepository.findRootByIdWithOperations
            (IUnitOfWork.calculationRepository unitOfWork) id w1
          = (Ok (Some found), w2) ->
          forall written w3,
            ICacheRepository.set cache (CacheKeys.ROOT id)
              (VRoot (CalculationRoot.toJSON found)) (Some 600%Z) w2
            = (written, w3) ->
            CalculationService.getRootById unitOfWork cache id w
            = (Ok (Some found), w3))
      /\ (forall w2,
          ICalculationRepository.findRootByIdWithOperations
            (IUnitOfWork.calculationRepository unitOfWork) id w1
          = (Ok None, w2) ->
          CalculationService.getRootById unitOfWork cache id w = (Ok None, w2))
      /\ (forall e w2,
          ICalculationRepository.findRootByIdWithOperations
            (IUnitOfWork.calculationRepository unitOfWork) id w1
          = (Err e, w2) ->
          CalculationService.getRootById unitOfWork cache id w = (Err e, w2))).
Proof.
  split.
  - intros data w1 Hget uow'. now rewrite getRootById_run, Hget.
  - intros w1 Hget. rewrite getRootById_run, Hget. split; [|split].
    + intros found w2 Hfind written w3 Hset. rewrite Hfind.
      unfold CacheTTL.ROOT. now rewrite Hset.
    + intros w2 Hfind. now rewrite Hfind.
    + intros e w2 Hfind. now rewrite Hfind.
Qed.

(** On the test doubles: an unknown id is null after one lookup and one
    query, with no write; a known one is returned and cached. *)
Lemma X13_getRootById_witness :
  (let run := CalculationService.getRootById Mock.unitOfWork Mock.memoryCache
                "non-existent" Mock.world0 in
   fst run = Ok None
   /\ Mock.calls (snd run)
      = [Mock.CacheGet (CacheKeys.ROOT "non-existent");
         Mock.FindRootByIdWithOperations "non-existent"]
   /\ Mock.store (snd run) = ∅)
  /\ (let run := CalculationService.getRootById Mock.unitOfWork Mock.memoryCache
                   "root-1" Mock.world0 in
      fst run = Ok (Some Mock.root1)
      /\ fst (MemoryCache.get (Mock.now (snd run)) (CacheKeys.ROOT "root-1")
                (Mock.store (snd run)))
         = Some (VRoot (CalculationRoot.toJSON Mock.root1))).
Proof.
  split; cbv zeta.
  - destruct (X13_getRootById Mock.World Mock.unitOfWork Mock.memoryCache
                "non-existent" Mock.world0) as [_ Hmiss].
    destruct (Hmiss _ ltac:(vm_compute; reflexivity)) as (_ & Hnone & _).
    erewrite Hnone by (vm_compute; reflexivity).
    repeat split; vm_compute; reflexivity.
  - destruct (X13_getRootById Mock.World Mock.unitOfWork Mock.memoryCache
                "root-1" Mock.world0) as [_ Hmiss].
    destruct (Hmiss _ ltac:(vm_compute; reflexivity)) as (Hfound & _ & _).
    erewrite Hfound; [| vm_compute; reflexivity | vm_compute; reflexivity].
    split; vm_compute; reflexivity.
Defined.

(** X14. The cache-aside round trip.  When a miss made [getFullTree] write
    the repository's trees to the cache, any later call that finds that
    array under [FULL_TREE] returns entities equal to the ones the
    repository had returned, without the repository; likewise for one root
    and [getRootById]. *)
Theorem X14_cache_aside_round_trip W (unitOfWork uow' : IUnitOfWork.t W)
    (cache : ICacheRepository.t W) (w w1 w2 w3 w' w4 : W)
    (trees : list CalculationRoot.t) (written : Result unit) :
  ICacheRepository.get cache CacheKeys.FULL_TREE w = (Ok None, w1) ->
  ICalculationRepository.findAllRootsWithOperations
    (IUnitOfWork.calculationRepository unitOfWork) w1 = (Ok trees, w2) ->
  ICacheRepository.set cache CacheKeys.FULL_TREE
    (VTrees (map CalculationRoot.toJSON trees)) (Some 120%Z) w2 = (written, w3) ->
  ICacheRepository.get cache CacheKeys.FULL_TREE w'
    = (Ok (Some (VTrees (map CalculationRoot.toJSON trees))), w4) ->
  CalculationService.getFullTree unitOfWork cache w = (Ok trees, w3)
  /\ CalculationService.getFullTree uow' cache w' = (Ok trees, w4)
  /\ (forall id found w5 w6,
         ICacheRepository.get cache (CacheKeys.ROOT id) w5
           = (Ok (Some (VRoot (CalculationRoot.toJSON found))), w6) ->
         CalculationService.getRootById uow' cache id w5 = (Ok (Some found), w6)).
Proof.
  intros Hmiss Hfind Hset Hhit. split; [|split].
  - rewrite getFullTree_run, Hmiss, Hfind. unfold CacheTTL.FULL_TREE.
    now rewrite Hset.
  - now rewrite getFullTree_run, Hhit, reconstituteTrees_toJSON.
  - intros id found w5 w6 Hroot.
    now rewrite getRootById_run, Hroot, reconstituteTree_toJSON.
Qed.

(** With the in-memory cache: the first call reads the database, the
    second is served from the cache although the database is down. *)
Lemma X14_cache_aside_round_trip_witness :
  let first := CalculationService.getFullTree Mock.unitOfWork Mock.memoryCache
                 Mock.world0 in
  let second := CalculationService.getFullTree Mock.unitOfWork Mock.memoryCache
                  (Mock.dbOffline (snd first)) in
  fst first = Ok [Mock.root1]
  /\ fst second = Ok [Mock.root1]
  /\ fst (CalculationService.getFullTree Mock.unitOfWork Mock.memoryCache
            (Mock.dbOffline Mock.world0)) = Err Mock.DBError.
Proof.
  cbv zeta.
  destruct (X14_cache_aside_round_trip Mock.World Mock.unitOfWork Mock.unitOfWork
              Mock.memoryCache Mock.world0
              (snd (ICacheRepository.get Mock.memoryCache CacheKeys.FULL_TREE
                      Mock.world0))
              (Mock.record Mock.FindAllRootsWithOperations
                 (snd (ICacheRepository.get Mock.memoryCache CacheKeys.FULL_TREE
                         Mock.world0)))
              (snd (CalculationService.getFullTree Mock.unitOfWork
                      Mock.memoryCache Mock.world0))
              (Mock.dbOffline
                 (snd (CalculationService.getFullTree Mock.unitOfWork
                         Mock.memoryCache Mock.world0)))
              (snd (ICacheRepository.get Mock.memoryCache CacheKeys.FULL_TREE
                      (Mock.dbOffline
                         (snd (CalculationService.getFullTree Mock.unitOfWork
                                 Mock.memoryCache Mock.world0)))))
              [Mock.root1] (Ok tt))
    as (Hfirst & Hsecond & _); try (vm_compute; reflexivity).
  split; [now rewrite Hfirst|]. split; [now rewrite Hsecond|].
  vm_compute. reflexivity.
Defined.

(* --------------------------------------------------------------------- *)
(** ** The service: creating an operation                                *)
(* --------------------------------------------------------------------- *)

(** X15. [createOperation] checks the parents before anything else: with
    no usable parent id it throws [MissingParent], with two
    [AmbiguousParent], and in both cases the world is untouched: no cache
    key is invalidated and no transaction is opened. *)
Theorem X15_createOperation_fail_fast W (rt : Runtime W)
    (unitOfWork : IUnitOfWork.t W) (cache : ICacheRepository.t W)
    (input : CalculationService.CreateOperationInput) (w : W) :
  (truthy (CalculationService.parentRootId input) = false ->
   truthy (CalculationService.parentOperationId input) = false ->
   CalculationService.createOperation rt unitOfWork cache input w
   = (Err MissingParent, w))
  /\ (truthy (CalculationService.parentRootId input) = true ->
      truthy (CalculationService.parentOperationId input) = true ->
      CalculationService.createOperation rt unitOfWork cache input w
      = (Err AmbiguousParent, w)).
Proof.
  unfold CalculationService.createOperation.
  split; intros -> ->; reflexivity.
Qed.

Lemma X15_createOperation_fail_fast_witness :
  CalculationService.createOperation Mock.runtime Mock.unitOfWork
    Mock.memoryCache (serviceOperationInput None None "ADD" 50) Mock.worldCached
  = (Err MissingParent, Mock.worldCached)
  /\ CalculationService.createOperation Mock.runtime Mock.unitOfWork
       Mock.memoryCache
       (serviceOperationInput (Some "root-1") (Some "op-1") "ADD" 50)
       Mock.worldCached
     = (Err AmbiguousParent, Mock.worldCached).
Proof.
  split.
  - now apply (X15_createOperation_fail_fast Mock.World Mock.runtime
                 Mock.unitOfWork Mock.memoryCache
                 (serviceOperationInput None None "ADD" 50) Mock.worldCached).
  - now apply (X15_createOperation_fail_fast Mock.World Mock.runtime
                 Mock.unitOfWork Mock.memoryCache
                 (serviceOperationInput (Some "root-1") (Some "op-1") "ADD" 50)
                 Mock.worldCached).
Defined.

(** X16. For an input with exactly one usable parent id, [createOperation]
    asks the cache to delete the keys of that parent, then runs the
    transaction.  It fails exactly when the transaction fails, with the
    same error, after asking for the same deletion again; it succeeds
    exactly when the transaction succeeds, with the operation the
    transaction returned, after the cache update. *)
Theorem X16_createOperation_outcome W (rt : Runtime W)
    (unitOfWork : IUnitOfWork.t W) (cache : ICacheRepository.t W)
    (input : CalculationService.CreateOperationInput) (w : W) :
  truthy (CalculationService.parentRootId input)
    <> truthy (CalculationService.parentOperationId input) ->
  (forall e w',
      CalculationService.createOperation rt unitOfWork cache input w = (Err e, w')
      <-> exists w2,
          IUnitOfWork.transaction unitOfWork
            (CalculationService.createOperation_transaction rt input)
            (snd (ICacheRepository.deleteMany cache
                    (CalculationService.keysToInvalidate input) w))
          = (Err e, w2)
          /\ w' = snd (ICacheRepository.deleteMany cache
                         (CalculationService.keysToInvalidate input) w2))
  /\ (forall operation w',
      CalculationService.createOperation rt unitOfWork cache input w
      = (Ok operation, w')
      <-> exists w2,
          IUnitOfWork.transaction unitOfWork
            (CalculationService.createOperation_transaction rt input)
            (snd (ICacheRepository.deleteMany cache
                    (CalculationService.keysToInvalidate input) w))
          = (Ok operation, w2)
          /\ w' = snd (ICacheRepository.delete cache CacheKeys.FULL_TREE
                         (snd (ICacheRepository.set cache
                                 (CacheKeys.OPERATION
                                    (CalculationOperation.id operation))
                                 (VOperation
                                    (CalculationOperation.toJSON operation))
                                 (Some 600%Z) w2)))).
Proof.
  intros Hone. rewrite (createOperation_run W rt unitOfWork cache input w Hone).
  destruct (IUnitOfWork.transaction unitOfWork _ _) as [[operation|e] w2].
  - split.
    + intros e w'. split; [discriminate | intros (w3 & [=] & _)].
    + intros operation' w'.
      unfold CalculationService.updateCacheAfterOperationCreation, bind.
      rewrite !swallow_run. cbn [snd]. split.
      * intros [= -> <-]. now exists w2.
      * intros (w3 & [= -> ->] & ->). reflexivity.
  - split.
    + intros e' w'. split.
      * intros [= -> <-]. now exists w2.
      * intros (w3 & [= -> ->] & ->). reflexivity.
    + intros operation w'. split; [discriminate | intros (w3 & [=] & _)].
Qed.

(** A parent root that does not exist: the error is the transaction's, the
    keys of the declared parent are deleted before and after, and nothing
    is saved. *)
Lemma X16_createOperation_outcome_witness :
  let run := CalculationService.createOperation Mock.runtime Mock.unitOfWork
               Mock.memoryCache
               (serviceOperationInput (Some "does-not-exist") None "ADD" 1)
               Mock.world0 in
  fst run = Err (ParentRootNotFound "does-not-exist")
  /\ Mock.calls (snd run)
     = [Mock.CacheDeleteMany
          [CacheKeys.FULL_TREE; CacheKeys.ROOT "does-not-exist";
           CacheKeys.ROOT_OPERATIONS "does-not-exist"];
        Mock.Transaction;
        Mock.FindRootById "does-not-exist";
        Mock.CacheDeleteMany
          [CacheKeys.FULL_TREE; CacheKeys.ROOT "does-not-exist";
           CacheKeys.ROOT_OPERATIONS "does-not-exist"]]
  /\ Mock.operations (snd run) = Mock.operations Mock.world0.
Proof.
  cbv zeta.
  destruct (X16_createOperation_outcome Mock.World Mock.runtime Mock.unitOfWork
              Mock.memoryCache
              (serviceOperationInput (Some "does-not-exist") None "ADD" 1)
              Mock.world0 ltac:(discriminate)) as [Herr _].
  destruct (CalculationService.createOperation Mock.runtime Mock.unitOfWork
              Mock.memoryCache
              (serviceOperationInput (Some "does-not-exist") None "ADD" 1)
              Mock.world0) as [[operation|e] w'] eqn:Hrun.
  - apply (f_equal fst) in Hrun. vm_compute in Hrun. discriminate Hrun.
  - destruct (proj1 (Herr e w') eq_refl) as (w2 & Htx & ->).
    assert (He : e = ParentRootNotFound "does-not-exist")
      by (apply (f_equal fst) in Hrun; vm_compute in Hrun; now injection Hrun).
    subst e. split; [reflexivity|].
    apply (f_equal snd) in Hrun. cbn [snd] in Hrun. rewrite <- Hrun.
    split; vm_compute; reflexivity.
Defined.

Lemma createOperation_transaction_run W (rt : Runtime W)
    (input : CalculationService.CreateOperationInput)
    (uow : ICalculationRepository.t W) (w : W) :
  CalculationService.createOperation_transaction rt input uow w
  = match CalculationService.getParentValue uow input w with
    | (Err e, w1) => (Err e, w1)
    | (Ok parentValue, w1) =>
        match Operator.create (CalculationService.operator input) with
        | Err e => (Err e, w1)
        | Ok operator =>
            match CalculationOperation.create rt
                    {| CalculationOperation.i_parentRootId :=
                         CalculationService.parentRootId input;
                       CalculationOperation.i_parentOperationId :=
                         CalculationService.parentOperationId input;
                       CalculationOperation.i_operator := operator;
                       CalculationOperation.i_operand :=
                         CalculationService.operand input;
                       CalculationOperation.i_parentValue := parentValue;
                       CalculationOperation.i_userId :=
                         CalculationService.userId input;
                       CalculationOperation.i_username :=
                         CalculationService.username input |} w1 with
            | (Err e, w2) => (Err e, w2)
            | (Ok newOperation, w2) =>
                match ICalculationRepository.saveOperation uow newOperation w2 with
                | (Ok _, w3) => (Ok newOperation, w3)
                | (Err e, w3) => (Err e, w3)
                end
            end
        end
    end.
Proof.
  unfold CalculationService.createOperation_transaction, bind, ret.
  destruct (CalculationService.getParentValue uow input w) as [[pv|e] w1];
    [|reflexivity].
  destruct (Operator.create (CalculationService.operator input)) as [op|e];
    [|reflexivity].
  destruct (CalculationOperation.create rt _ w1) as [[newOp|e] w2];
    [|reflexivity].
  now destruct (ICalculationRepository.saveOperation uow newOp w2) as [[[]|e] w3].
Qed.

Lemma getParentValue_run W (uow : ICalculationRepository.t W)
    (input : CalculationService.CreateOperationInput) (w : W) :
  CalculationService.getParentValue uow input w
  = if truthy (CalculationService.parentRootId input)
    then
      match ICalculationRepository.findRootById uow
              (default "" (CalculationService.parentRootId input)) w with
      | (Ok (Some root), w1) => (Ok (CalculationRoot.value root), w1)
      | (Ok None, w1) =>
          (Err (ParentRootNotFound
                  (default "" (CalculationService.parentRootId input))), w1)
      | (Err e, w1) => (Err e, w1)
      end
    else if truthy (CalculationService.parentOperationId input)
    then
      match ICalculationRepository.findOperationById uow
              (default "" (CalculationService.parentOperationId input)) w with
      | (Ok (Some operation), w1) =>
          (Ok (CalculationOperation.result operation), w1)
      | (Ok None, w1) =>
          (Err (ParentOperationNotFound
                  (default "" (CalculationService.parentOperationId input))), w1)
      | (Err e, w1) => (Err e, w1)
      end
    else (Err MustSpecifyParent, w).
Proof.
  unfold CalculationService.getParentValue, bind, throw, ret.
  destruct (truthy (CalculationService.parentRootId input)).
  - now destruct (ICalculationRepository.findRootById uow _ w) as [[[root|]|e] w1].
  - destruct (truthy (CalculationService.parentOperationId input)); [|reflexivity].
    now destruct (ICalculationRepository.findOperationById uow _ w)
      as [[[operation|]|e] w1].
Qed.

(** X17. The result is a snapshot of the parent's value.  In the
    transaction, with one usable parent id, an operator name that is
    canonical and an operand it is valid with: the parent is looked up once
    ([findRootById] for a root parent, [findOperationById] otherwise); the
    new operation's result is the operator applied to the value (or
    result) the lookup returned and the operand; exactly that operation is
    handed to [saveOperation] and returned if the save succeeds. *)
Theorem X17_createOperation_snapshot W (rt : Runtime W)
    (input : CalculationService.CreateOperationInput)
    (uow : ICalculationRepository.t W) (w w1 : W) (parentValue : float)
    (operator : Operator.t) :
  truthy (CalculationService.parentRootId input)
    <> truthy (CalculationService.parentOperationId input) ->
  CalculationService.getParentValue uow input w = (Ok parentValue, w1) ->
  Operator.create (CalculationService.operator input) = Ok operator ->
  Operator.isValidWith operator (CalculationService.operand input) = true ->
  exists newOperation,
    CalculationService.createOperation_transaction rt input uow w
    = match ICalculationRepository.saveOperation uow newOperation
              (snd (randomUUID rt (snd (newDate rt w1)))) with
      | (Ok _, w3) => (Ok newOperation, w3)
      | (Err e, w3) => (Err e, w3)
      end
    /\ Operator.calculate operator parentValue (CalculationService.operand input)
       = Ok (CalculationOperation.result newOperation)
    /\ CalculationOperation.operator newOperation = operator
    /\ CalculationOperation.operand newOperation
       = CalculationService.operand input
    /\ CalculationOperation.parentRootId newOperation
       = CalculationService.parentRootId input
    /\ CalculationOperation.parentOperationId newOperation
       = CalculationService.parentOperationId input
    /\ CalculationOperation.children newOperation = []
    /\ (if truthy (CalculationService.parentRootId input)
        then exists root,
            ICalculationRepository.findRootById uow
              (default "" (CalculationService.parentRootId input)) w
            = (Ok (Some root), w1)
            /\ parentValue = CalculationRoot.value root
        else exists parent,
            ICalculationRepository.findOperationById uow
              (default "" (CalculationService.parentOperationId input)) w
            = (Ok (Some parent), w1)
            /\ parentValue = CalculationOperation.result parent).
Proof.
  intros Hone Hpv Hop Hvalid.
  destruct (isValidWith_calculate operator parentValue _ Hvalid) as [r Hcalc].
  rewrite createOperation_transaction_run, Hpv, Hop.
  unfold CalculationOperation.create; cbn.
  assert (Hguards :
            negb (truthy (CalculationService.parentRootId input))
            && negb (truthy (CalculationService.parentOperationId input)) = false
            /\ truthy (CalculationService.parentRootId input)
               && truthy (CalculationService.parentOperationId input) = false).
  { destruct (truthy (CalculationService.parentRootId input)),
             (truthy (CalculationService.parentOperationId input));
      try congruence; now split. }
  destruct Hguards as [-> ->]. rewrite Hvalid, Hcalc. cbn.
  destruct (newDate rt w1) as [now wa]; cbn.
  destruct (randomUUID rt wa) as [uuid wb]; cbn.
  eexists. split; [reflexivity|].
  unfold CalculationOperation.new; cbn.
  repeat split; try (now destruct operator).
  rewrite getParentValue_run in Hpv.
  destruct (truthy (CalculationService.parentRootId input)).
  - destruct (ICalculationRepository.findRootById uow _ w)
      as [[[root|]|e] w1'] eqn:Hfind; try discriminate.
    injection Hpv as <- <-. now exists root.
  - destruct (truthy (CalculationService.parentOperationId input));
      [|discriminate].
    destruct (ICalculationRepository.findOperationById uow _ w)
      as [[[parent|]|e] w1'] eqn:Hfind; try discriminate.
    injection Hpv as <- <-. now exists parent.
Qed.

(** The scenario of the specification on the test doubles: 50 is added to
    root 100, then the result is doubled. *)
Lemma X17_createOperation_snapshot_witness :
  let first := CalculationService.createOperation Mock.runtime Mock.unitOfWork
                 Mock.memoryCache
                 (serviceOperationInput (Some "root-1") None "ADD" 50)
                 Mock.world0 in
  let second := CalculationService.createOperation Mock.runtime Mock.unitOfWork
                  Mock.memoryCache
                  (serviceOperationInput None (Some "root-uuid-1") "MULTIPLY" 2)
                  (snd first) in
  (exists operation,
      fst first = Ok operation
      /\ CalculationOperation.id operation = "root-uuid-1"
      /\ CalculationOperation.result operation = 150%float)
  /\ (exists operation,
      fst second = Ok operation
      /\ CalculationOperation.result operation = 300%float)
  /\ exists newOperation w3,
      CalculationService.createOperation_transaction Mock.runtime
        (serviceOperationInput (Some "root-1") None "ADD" 50)
        Mock.repository Mock.world0 = (Ok newOperation, w3)
      /\ CalculationOperation.result newOperation = 150%float.
Proof.
  cbv zeta. split; [|split].
  - eexists. vm_compute. repeat split.
  - eexists. vm_compute. repeat split.
  - destruct (X17_createOperation_snapshot Mock.World Mock.runtime
                (serviceOperationInput (Some "root-1") None "ADD" 50)
                Mock.repository Mock.world0
                (Mock.record (Mock.FindRootById "root-1") Mock.world0)
                100 (Operator.mk ADD))
      as (newOperation & Hrun & Hcalc & _);
      [discriminate | reflexivity | reflexivity | reflexivity |].
    exists newOperation. eexists. split.
    + rewrite Hrun. reflexivity.
    + vm_compute in Hcalc. injection Hcalc as Hres. symmetry. exact Hres.
Defined.

(** X18. How the transaction of [createOperation] fails, in this order.
    A parent that the repository does not find: [ParentRootNotFound] or
    [ParentOperationNotFound] with the id, whatever the operator and
    operand.  Then an operator name that is not canonical:
    [InvalidOperator].  Then DIVIDE with a zero operand:
    [DivisionByZero].  In each case [saveOperation] is not reached: the
    world is the one the parent lookup left. *)
Theorem X18_createOperation_failures W (rt : Runtime W)
    (input : CalculationService.CreateOperationInput)
    (uow : ICalculationRepository.t W) (w : W) :
  (forall w1,
      truthy (CalculationService.parentRootId input) = true ->
      ICalculationRepository.findRootById uow
        (default "" (CalculationService.parentRootId input)) w = (Ok None, w1) ->
      CalculationService.createOperation_transaction rt input uow w
      = (Err (ParentRootNotFound
                (default "" (CalculationService.parentRootId input))), w1))
  /\ (forall w1,
      truthy (CalculationService.parentRootId input) = false ->
      truthy (CalculationService.parentOperationId input) = true ->
      ICalculationRepository.findOperationById uow
        (default "" (CalculationService.parentOperationId input)) w
      = (Ok None, w1) ->
      CalculationService.createOperation_transaction rt input uow w
      = (Err (ParentOperationNotFound
                (default "" (CalculationService.parentOperationId input))), w1))
  /\ (forall parentValue w1,
      CalculationService.getParentValue uow input w = (Ok parentValue, w1) ->
      (forall operator,
          Operator.create (CalculationService.operator input) <> Ok operator) ->
      CalculationService.createOperation_transaction rt input uow w
      = (Err (InvalidOperator (CalculationService.operator input)), w1))
  /\ (forall parentValue w1,
      CalculationService.getParentValue uow input w = (Ok parentValue, w1) ->
      truthy (CalculationService.parentRootId input)
        <> truthy (CalculationService.parentOperationId input) ->
      CalculationService.operator input = "DIVIDE" ->
      PrimFloat.eqb (CalculationService.operand input) 0 = true ->
      CalculationService.createOperation_transaction rt input uow w
      = (Err DivisionByZero, w1)).
Proof.
  split; [|split; [|split]].
  - intros w1 Hr Hfind.
    now rewrite createOperation_transaction_run, getParentValue_run, Hr, Hfind.
  - intros w1 Hr Ho Hfind.
    now rewrite createOperation_transaction_run, getParentValue_run, Hr, Ho, Hfind.
  - intros parentValue w1 Hpv Hbad.
    rewrite createOperation_transaction_run, Hpv.
    unfold Operator.create in *.
    destruct (find _ OPERATORS) as [ty|]; [|reflexivity].
    now destruct (Hbad (Operator.mk ty)).
  - intros parentValue w1 Hpv Hone Hdiv Hzero.
    rewrite createOperation_transaction_run, Hpv, Hdiv.
    cbn [Operator.create find OPERATORS OperatorType_name String.eqb Ascii.eqb
         Bool.eqb].
    unfold CalculationOperation.create; cbn.
    destruct (truthy (CalculationService.parentRootId input)),
             (truthy (CalculationService.parentOperationId input));
      try congruence; cbn; now rewrite Hzero.
Qed.

(** Dividing root 100 by zero through the service: [DivisionByZero], and
    neither the tables nor the cache hold the attempted operation. *)
Lemma X18_createOperation_failures_witness :
  let run := CalculationService.createOperation Mock.runtime Mock.unitOfWork
               Mock.memoryCache
               (serviceOperationInput (Some "root-1") None "DIVIDE" 0)
               Mock.world0 in
  fst run = Err DivisionByZero
  /\ Mock.operations (snd run) = Mock.operations Mock.world0
  /\ Mock.store (snd run) = ∅
  /\ CalculationService.createOperation_transaction Mock.runtime
       (serviceOperationInput (Some "root-1") None "DIVIDE" 0)
       Mock.repository Mock.world0
     = (Err DivisionByZero, Mock.record (Mock.FindRootById "root-1") Mock.world0).
Proof.
  cbv zeta. split; [|split; [|split]]; [vm_compute; reflexivity ..|].
  destruct (X18_createOperation_failures Mock.World Mock.runtime
              (serviceOperationInput (Some "root-1") None "DIVIDE" 0)
              Mock.repository Mock.world0) as (_ & _ & _ & Hdiv).
  apply (Hdiv 100%float); [reflexivity | discriminate | reflexivity | reflexivity].
Defined.

(* --------------------------------------------------------------------- *)
(** ** The repository: building the trees                                *)
(* --------------------------------------------------------------------- *)

Section BuildTrees.

Import DrizzleCalculationRepository.

Variable parseFloat : string -> float.

Implicit Types (op row : OperationRow) (allOps rows : list OperationRow).
Implicit Types (m : gmap string (list OperationRow)).

Lemma fold_groupRows (key : OperationRow -> option string) rows : forall m k,
  default [] (fold_left
                (fun (m : gmap string (list OperationRow)) op =>
                   if truthy (key op)
                   then <[default "" (key op) :=
                            (default [] (m !! default "" (key op)) ++ [op])%list]> m
                   else m)
                rows m !! k)
  = (default [] (m !! k) ++ List.filter (keyIs key k) rows)%list.
Proof.
  induction rows as [|op rows IH]; intros m k; cbn [fold_left List.filter].
  - now rewrite app_nil_r.
  - rewrite IH. unfold keyIs at 2. destruct (truthy (key op)); cbn [andb].
    + destruct (String.eqb_spec (default "" (key op)) k) as [->|Hne].
      * rewrite lookup_insert_eq. cbn [default from_option Datatypes.id].
        now rewrite <- app_assoc.
      * now rewrite lookup_insert_ne.
    + reflexivity.
Qed.

Lemma groupRows_lookup (key : OperationRow -> option string) rows k :
  default [] (groupRows key rows !! k) = List.filter (keyIs key k) rows.
Proof. unfold groupRows. now rewrite fold_groupRows, lookup_empty. Qed.

Lemma fold_groupRows_nonempty (key : OperationRow -> option string) rows :
  forall m,
    (forall k l, m !! k = Some l -> l <> []) ->
    forall k l,
      fold_left
        (fun (m : gmap string (list OperationRow)) op =>
           if truthy (key op)
           then <[default "" (key op) :=
                    (default [] (m !! default "" (key op)) ++ [op])%list]> m
           else m)
        rows m !! k = Some l ->
      l <> [].
Proof.
  induction rows as [|op rows IH]; intros m Hm k l; cbn [fold_left]; [apply Hm|].
  apply IH. destruct (truthy (key op)); [|exact Hm].
  intros k' l'. destruct (decide (default "" (key op) = k')) as [->|Hne].
  - rewrite lookup_insert_eq. intros [= <-]. now destruct (default [] _).
  - rewrite lookup_insert_ne by exact Hne. apply Hm.
Qed.

(** X19. The grouping loop files every row with a usable key under that
    key, in input order, and files nothing else: the array found under [k]
    is the input filtered by "the key is [k]"; a key has an entry exactly
    when some row carries it; the empty string never has one. *)
Theorem X19_groupRows (key : OperationRow -> option string) rows (k : string) :
  default [] (groupRows key rows !! k) = List.filter (keyIs key k) rows
  /\ (groupRows key rows !! k = None <-> List.filter (keyIs key k) rows = [])
  /\ groupRows key rows !! "" = None
  /\ (forall op, In op (default [] (groupRows key rows !! k))
                 <-> In op rows /\ key op = Some k /\ k <> "").
Proof.
  pose proof (groupRows_lookup key rows k) as Hk.
  assert (Hne : forall k' l, groupRows key rows !! k' = Some l -> l <> []).
  { intros k' l. unfold groupRows. apply fold_groupRows_nonempty.
    intros k'' l''. now rewrite lookup_empty. }
  split; [exact Hk|]. split; [|split].
  - split.
    + intros Hnone. now rewrite <- Hk, Hnone.
    + intros Hnil. destruct (groupRows key rows !! k) as [l|] eqn:Hl; [|reflexivity].
      cbn in Hk. apply Hne in Hl. congruence.
  - destruct (groupRows key rows !! "") as [l|] eqn:Hl; [|reflexivity].
    pose proof (groupRows_lookup key rows "") as Hempty. rewrite Hl in Hempty.
    cbn in Hempty. apply Hne in Hl. destruct Hl. rewrite Hempty.
    clear. induction rows as [|op rows IH]; [reflexivity|]. cbn [List.filter].
    unfold keyIs at 1. destruct (key op) as [x|]; cbn; [|exact IH].
    destruct (String.eqb_spec x ""); cbn; exact IH.
  - intros op. rewrite Hk, filter_In. unfold keyIs.
    destruct (key op) as [x|]; cbn [truthy default from_option Datatypes.id].
    + split; intros [Hin H]; (split; [exact Hin|]).
      * apply andb_true_iff in H as [H1 H2]. apply String.eqb_eq in H2 as ->.
        apply negb_true_iff, String.eqb_neq in H1. now split.
      * destruct H as [[= ->] Hnonempty]. apply andb_true_iff. split.
        -- now apply negb_true_iff, String.eqb_neq.
        -- apply String.eqb_refl.
    + split; [intros [_ [=]] | intros (_ & [=] & _)].
Qed.

Lemma traverse_Some {A B} (f : A -> option B) (l : list A) (ys : list B) :
  traverse f l = Some ys -> Forall2 (fun y x => f x = Some y) ys l.
Proof.
  revert ys. induction l as [|x l IH]; intros ys; cbn [traverse].
  - intros [= <-]. constructor.
  - destruct (f x) as [y|] eqn:Hx; [|discriminate].
    destruct (traverse f l) as [ys'|]; [|discriminate].
    intros [= <-]. constructor; [exact Hx | now apply IH].
Qed.

Lemma traverse_None {A B} (f : A -> option B) (l : list A) (x : A) :
  In x l -> f x = None -> traverse f l = None.
Proof.
  intros Hin Hx. induction l as [|x' l IH]; [destruct Hin|]. cbn [traverse].
  destruct Hin as [->|Hin]; [now rewrite Hx|].
  destruct (f x'); [|reflexivity]. now rewrite (IH Hin).
Qed.

Lemma traverse_is_Some {A B} (f : A -> option B) (l : list A) :
  (forall x, In x l -> is_Some (f x)) -> is_Some (traverse f l).
Proof.
  induction l as [|x l IH]; intros Hf; cbn [traverse]; [eauto|].
  destruct (Hf x (or_introl eq_refl)) as [y ->].
  destruct IH as [ys ->]; [|eauto]. intros x' Hx'. apply Hf. now right.
Qed.

Lemma traverse_ext_in {A B} (f g : A -> option B) (l : list A) :
  (forall x, In x l -> f x = g x) -> traverse f l = traverse g l.
Proof.
  induction l as [|x l IH]; intros Hfg; cbn [traverse]; [reflexivity|].
  rewrite (Hfg x (or_introl eq_refl)), IH; [reflexivity|].
  intros x' Hx'. apply Hfg. now right.
Qed.

Lemma buildChildren_spec m (fuel : nat) : forall parentId built,
  buildChildren parseFloat fuel m parentId = Some built ->
  Forall2 (builtFrom parseFloat) built (default [] (m !! parentId))
  /\ Forall (wellBuilt parseFloat m) (flat_map subtree built).
Proof.
  induction fuel as [|fuel IH]; intros parentId built; [discriminate|].
  cbn [buildChildren]. intros Hb%traverse_Some.
  induction Hb as [|e child built rows He _ IHb]; [split; constructor|].
  destruct (buildChildren parseFloat fuel m (id child)) as [grand|] eqn:Hg;
    [|discriminate].
  injection He as <-. destruct (IH _ _ Hg) as [Hgrand Hdeep].
  destruct IHb as [Hrest Hdeeprest]. split.
  - constructor; [reflexivity | exact Hrest].
  - cbn [flat_map subtree]. constructor; [exact Hgrand|].
    apply Forall_app. split; [exact Hdeep | exact Hdeeprest].
Qed.

Lemma builtFrom_id (e : CalculationOperation.t) row :
  builtFrom parseFloat e row -> CalculationOperation.id e = id row.
Proof. intros ->. reflexivity. Qed.

Lemma Forall2_builtFrom_ids (built : list CalculationOperation.t) rows :
  Forall2 (builtFrom parseFloat) built rows ->
  map CalculationOperation.id built = map id rows.
Proof.
  induction 1 as [|e row built rows He _ IH]; [reflexivity|].
  cbn [map]. now rewrite (builtFrom_id _ _ He), IH.
Qed.

Lemma buildOperationTree_spec (fuel : nat) directOps allOps
    (built : list CalculationOperation.t) :
  buildOperationTree parseFloat fuel directOps allOps = Some built ->
  Forall2 (builtFrom parseFloat) built directOps
  /\ Forall (wellBuilt parseFloat (groupRows parentOperationId allOps))
            (flat_map subtree built).
Proof.
  unfold buildOperationTree. intros Hb%traverse_Some.
  induction Hb as [|e op built rows He _ IHb]; [split; constructor|].
  destruct (buildChildren parseFloat fuel _ (id op)) as [grand|] eqn:Hg;
    [|discriminate].
  injection He as <-. destruct (buildChildren_spec _ _ _ _ Hg) as [Hgrand Hdeep].
  destruct IHb as [Hrest Hdeeprest]. split.
  - constructor; [reflexivity | exact Hrest].
  - cbn [flat_map subtree]. constructor; [exact Hgrand|].
    apply Forall_app. split; [exact Hdeep | exact Hdeeprest].
Qed.

(** X20. What [buildOperationTree] returns, when it returns: one entity per
    direct row, in the same order and with the row's columns; and at every
    depth the children of an entity are built, in input order, from exactly
    the rows whose parent operation id is the entity's id. *)
Theorem X20_buildOperationTree_structure (fuel : nat) directOps allOps
    (built : list CalculationOperation.t) :
  buildOperationTree parseFloat fuel directOps allOps = Some built ->
  Forall2 (builtFrom parseFloat) built directOps
  /\ map CalculationOperation.id built = map id directOps
  /\ Forall
       (fun e =>
          Forall2 (builtFrom parseFloat) (CalculationOperation.children e)
            (List.filter (keyIs parentOperationId (CalculationOperation.id e))
                         allOps)
          /\ map CalculationOperation.id (CalculationOperation.children e)
             = map id (List.filter
                         (keyIs parentOperationId (CalculationOperation.id e))
                         allOps))
       (flat_map subtree built).
Proof.
  intros [Hdirect Hdeep]%buildOperationTree_spec.
  split; [exact Hdirect|]. split; [now apply Forall2_builtFrom_ids|].
  eapply Forall_impl; [exact Hdeep|]. intros e He. unfold wellBuilt in He.
  rewrite groupRows_lookup in He. split; [exact He|].
  now apply Forall2_builtFrom_ids.
Qed.

(** X21. A row that names itself as its parent operation makes the
    recursion endless (in JavaScript the call stack overflows): whatever
    the depth allowed, [buildChildren] returns no list for its id, nor does
    [buildOperationTree] when the row is among the direct ones. *)
Theorem X21_self_parent_never_returns (fuel : nat) directOps allOps op :
  In op allOps ->
  parentOperationId op = Some (id op) ->
  id op <> "" ->
  buildChildren parseFloat fuel (groupRows parentOperationId allOps) (id op)
  = None
  /\ (In op directOps ->
      buildOperationTree parseFloat fuel directOps allOps = None).
Proof.
  intros Hin Hself Hne.
  assert (Hloop : forall fuel',
             buildChildren parseFloat fuel'
               (groupRows parentOperationId allOps) (id op) = None).
  { induction fuel' as [|fuel' IH]; [reflexivity|]. cbn [buildChildren].
    apply (traverse_None _ _ op); [|now rewrite IH].
    rewrite groupRows_lookup. apply filter_In. split; [exact Hin|].
    unfold keyIs. rewrite Hself. cbn [default from_option Datatypes.id].
    apply andb_true_iff. split; [now apply truthy_Some | apply String.eqb_refl]. }
  split; [apply Hloop|]. intros Hdirect. unfold buildOperationTree.
  apply (traverse_None _ _ op); [exact Hdirect | now rewrite Hloop].
Qed.

Lemma buildChildren_terminates (height : string -> nat) allOps :
  (forall op parentId,
      In op allOps -> parentOperationId op = Some parentId -> parentId <> "" ->
      height (id op) < height parentId) ->
  forall fuel parentId,
    height parentId < fuel ->
    is_Some (buildChildren parseFloat fuel
               (groupRows parentOperationId allOps) parentId).
Proof.
  intros Hheight. induction fuel as [|fuel IH]; intros parentId Hfuel; [lia|].
  cbn [buildChildren]. apply traverse_is_Some. intros child Hchild.
  rewrite groupRows_lookup in Hchild.
  apply (proj1 (filter_In _ _ _)) in Hchild as [Hin Hkey].
  unfold keyIs in Hkey. apply andb_true_iff in Hkey as [Htruthy Heq].
  destruct (parentOperationId child) as [p|] eqn:Hp; [|discriminate].
  cbn [default from_option Datatypes.id] in Heq. apply String.eqb_eq in Heq as ->.
  apply truthy_Some in Htruthy.
  pose proof (Hheight child parentId Hin Hp Htruthy) as Hlt.
  destruct (IH (id child)) as [built ->]; [lia | eauto].
Qed.

(** X22. On rows whose parent links go down a height, the recursion ends:
    if every row is lower than the parent operation it names, then
    [buildOperationTree] returns once the fuel exceeds the heights of the
    direct rows. *)
Theorem X22_buildOperationTree_returns (height : string -> nat) (fuel : nat)
    directOps allOps :
  (forall op parentId,
      In op allOps -> parentOperationId op = Some parentId -> parentId <> "" ->
      height (id op) < height parentId) ->
  (forall op, In op directOps -> height (id op) < fuel) ->
  exists built, buildOperationTree parseFloat fuel directOps allOps = Some built.
Proof.
  intros Hheight Hdirect. unfold buildOperationTree.
  apply traverse_is_Some. intros op Hop.
  destruct (buildChildren_terminates height allOps Hheight fuel (id op))
    as [built ->]; [now apply Hdirect | eauto].
Qed.

End BuildTrees.

Section ReadPaths.

Import DrizzleCalculationRepository.

Variable parseFloat : string -> float.

Implicit Types (op row : OperationRow) (allOps rows : list OperationRow).

Lemma filter_filter_absorb {A} (p q : A -> bool) (l : list A) :
  (forall x, In x l -> p x = true -> q x = true) ->
  List.filter p (List.filter q l) = List.filter p l.
Proof.
  induction l as [|x l IH]; intros Hpq; [reflexivity|]. cbn [List.filter].
  assert (IH' : List.filter p (List.filter q l) = List.filter p l)
    by (apply IH; intros y Hy; apply Hpq; now right).
  destruct (q x) eqn:Hq; cbn [List.filter]; [now rewrite IH'|].
  destruct (p x) eqn:Hp; [|exact IH'].
  rewrite (Hpq x (or_introl eq_refl) Hp) in Hq. discriminate.
Qed.

Lemma keyIs_strict_eq (key : OperationRow -> option string) (k : string) op :
  k <> "" -> keyIs key k op = strict_eq (key op) k.
Proof.
  intros Hk. unfold keyIs, strict_eq. destruct (key op) as [x|]; [|reflexivity].
  cbn [truthy default from_option Datatypes.id].
  destruct (String.eqb_spec x k) as [->|Hne]; [|apply andb_false_r].
  apply String.eqb_neq in Hk. now rewrite Hk.
Qed.

Lemma keyIs_true (key : OperationRow -> option string) (k : string) op :
  keyIs key k op = true <-> key op = Some k /\ k <> "".
Proof.
  unfold keyIs. destruct (key op) as [x|];
    cbn [truthy default from_option Datatypes.id];
    [|split; [discriminate | intros [[=] _]]].
  rewrite andb_true_iff, negb_true_iff, String.eqb_neq, String.eqb_eq.
  split; [intros [? ->]; now split | intros [[= ->] ?]; now split].
Qed.

Lemma buildChildren_agree (rootId : string) allOps (s : gset string) :
  (forall i, i ∈ s <-> Belongs rootId allOps i) ->
  forall fuel parentId,
    Belongs rootId allOps parentId ->
    buildChildren parseFloat fuel
      (groupRows parentOperationId
         (List.filter (fun op => Set_has s (id op)) allOps)) parentId
    = buildChildren parseFloat fuel (groupRows parentOperationId allOps) parentId.
Proof.
  intros Hs. induction fuel as [|fuel IH]; intros parentId Hp; [reflexivity|].
  cbn [buildChildren]. rewrite !groupRows_lookup.
  rewrite filter_filter_absorb.
  - apply traverse_ext_in. intros child [Hin [Hkey Hne]%keyIs_true]%filter_In.
    rewrite IH; [reflexivity|]. now apply (Belongs_child _ _ child parentId).
  - intros x Hin [Hkey Hne]%keyIs_true. apply Set_has_true, Hs.
    now apply (Belongs_child _ _ x parentId).
Qed.

Lemma buildOperationTree_agree (rootId : string) allOps (s : gset string)
    (fuel : nat) directOps :
  (forall i, i ∈ s <-> Belongs rootId allOps i) ->
  (forall op, In op directOps -> Belongs rootId allOps (id op)) ->
  buildOperationTree parseFloat fuel directOps
    (List.filter (fun op => Set_has s (id op)) allOps)
  = buildOperationTree parseFloat fuel directOps allOps.
Proof.
  intros Hs Hdirect. unfold buildOperationTree. apply traverse_ext_in.
  intros op Hop. now rewrite (buildChildren_agree rootId allOps s Hs fuel (id op))
    by now apply Hdirect.
Qed.

Lemma findRootByIdWithOperations_tree_spec (fuelFilter fuelBuild : nat)
    (root : CalculationRoot.t) (rootId : string) allOps :
  rootId <> "" ->
  length allOps < fuelFilter ->
  findRootByIdWithOperations_tree parseFloat fuelFilter fuelBuild root rootId allOps
  = match buildOperationTree parseFloat fuelBuild
            (default [] (groupRows parentRootId allOps !! rootId)) allOps with
    | None => None
    | Some operations => Some (CalculationRoot.setOperations root operations)
    end.
Proof.
  intros Hroot Hfuel. unfold findRootByIdWithOperations_tree.
  destruct (filterOperationsForRoot_total rootId allOps fuelFilter Hfuel)
    as [relevantOps Hrel].
  rewrite Hrel.
  apply filterOperationsForRoot_spec in Hrel as (s & Hs & ->).
  assert (Hdirect : List.filter (fun op => strict_eq (parentRootId op) rootId)
                      (List.filter (fun op => Set_has s (id op)) allOps)
                    = default [] (groupRows parentRootId allOps !! rootId)).
  { rewrite groupRows_lookup, filter_filter_absorb.
    - apply filter_ext. intros op. symmetry. now apply keyIs_strict_eq.
    - intros op Hin Hr%strict_eq_true. apply Set_has_true, Hs.
      now apply Belongs_root. }
  rewrite Hdirect, (buildOperationTree_agree rootId allOps s); [reflexivity|exact Hs|].
  intros op Hop. rewrite groupRows_lookup in Hop.
  apply filter_In in Hop as [Hin [Hkey _]%keyIs_true]. now apply Belongs_root.
Qed.

(** X23. The two read paths build the same trees.  For root rows with
    non-empty ids, what [buildTrees] makes of all roots and all operation
    rows is, root by root, what [findRootByIdWithOperations] makes of that
    root and the same rows: narrowing the rows to the root's closure first
    changes nothing in the tree. *)
Theorem X23_read_paths_agree (fuelFilter fuelBuild : nat)
    (rootRows : list RootRow) allOps :
  (forall found : RootRow, In found rootRows -> r_id found <> "") ->
  length allOps < fuelFilter ->
  buildTrees parseFloat fuelBuild rootRows allOps
  = traverse
      (fun found : RootRow =>
         findRootByIdWithOperations_tree parseFloat fuelFilter fuelBuild
           (mapToRootEntity parseFloat found) (r_id found) allOps)
      rootRows.
Proof.
  intros Hids Hfuel. unfold buildTrees. apply traverse_ext_in.
  intros found Hfound.
  now rewrite findRootByIdWithOperations_tree_spec by auto.
Qed.

End ReadPaths.

(* --------------------------------------------------------------------- *)
(** ** The repository: more on the operations of one root                *)
(* --------------------------------------------------------------------- *)

Section BelongsFacts.

Import DrizzleCalculationRepository.

Implicit Types (op row : OperationRow) (allOps rows : list OperationRow).

Lemma filter_all {A} (p : A -> bool) (l : list A) :
  (forall x, In x l -> p x = true) -> List.filter p l = l.
Proof.
  induction l as [|x l IH]; intros Hp; [reflexivity|]. cbn [List.filter].
  rewrite (Hp x (or_introl eq_refl)), IH; [reflexivity|].
  intros y Hy. apply Hp. now right.
Qed.

Lemma Belongs_kept (rootId : string) allOps rows :
  (forall op, In op rows <-> In op allOps /\ Belongs rootId allOps (id op)) ->
  forall i, Belongs rootId allOps i -> Belongs rootId rows i.
Proof.
  intros Hrows i Hb. induction Hb as [op Hin Hr|op q Hin Hq Hne Hb IH].
  - apply Belongs_root; [|exact Hr]. apply Hrows. split; [exact Hin|].
    now apply Belongs_root.
  - apply (Belongs_child _ _ op q); auto. apply Hrows. split; [exact Hin|].
    now apply (Belongs_child _ _ op q).
Qed.

(** X24. Filtering is idempotent: the rows [filterOperationsForRoot]
    returns for a root are all returned again, in the same order, when the
    filter is run on them. *)
Theorem X24_filterOperationsForRoot_idempotent (rootId : string) allOps rows
    (fuel fuel' : nat) :
  filterOperationsForRoot fuel rootId allOps = Some rows ->
  length rows < fuel' ->
  filterOperationsForRoot fuel' rootId rows = Some rows.
Proof.
  intros Hrows Hfuel.
  destruct (filterOperationsForRoot_total rootId rows fuel' Hfuel)
    as [rows' Hrows'].
  rewrite Hrows'. f_equal.
  apply filterOperationsForRoot_spec in Hrows' as (s' & Hs' & ->).
  apply filter_all. intros op Hop. apply Set_has_true, Hs'.
  apply (Belongs_kept rootId allOps rows).
  - intros op'. now apply (filterOperationsForRoot_In rootId allOps fuel).
  - now apply (filterOperationsForRoot_In rootId allOps fuel rows op Hrows).
Qed.

Lemma NoDup_ids_eq allOps op op' :
  List.NoDup (map id allOps) -> In op allOps -> In op' allOps -> id op = id op' ->
  op = op'.
Proof.
  induction allOps as [|x l IH]; intros Hnd Hop Hop' Hid; [destruct Hop|].
  cbn [map] in Hnd. apply List.NoDup_cons_iff in Hnd as [Hx Hnd].
  destruct Hop as [->|Hop], Hop' as [->|Hop']; auto.
  - destruct Hx. rewrite Hid. now apply in_map.
  - destruct Hx. rewrite <- Hid. now apply in_map.
Qed.

Lemma Belongs_row (rootId : string) allOps i :
  Belongs rootId allOps i -> exists op, In op allOps /\ id op = i.
Proof. intros [op Hin _|op q Hin _ _ _]; now exists op. Qed.

(** X25. With unique ids the result is self-contained: every row kept for
    a root is a direct child of the root, or names as its parent operation
    a row that is kept as well.  The tree builder therefore finds every
    parent it looks for. *)
Theorem X25_filterOperationsForRoot_self_contained (rootId : string) allOps rows
    (fuel : nat) op :
  List.NoDup (map id allOps) ->
  filterOperationsForRoot fuel rootId allOps = Some rows ->
  In op rows ->
  parentRootId op = Some rootId
  \/ exists parent,
      In parent rows /\ parentOperationId op = Some (id parent)
      /\ id parent <> "".
Proof.
  intros Hnd Hrows Hop.
  pose proof (filterOperationsForRoot_In rootId allOps fuel rows) as Hin.
  apply (Hin op Hrows) in Hop as [Hop Hb].
  inversion Hb as [op' Hop' Hr Hid|op' q Hop' Hq Hne Hbq Hid].
  - left. now rewrite <- (NoDup_ids_eq allOps op' op Hnd Hop' Hop Hid).
  - right. rewrite (NoDup_ids_eq allOps op' op Hnd Hop' Hop Hid) in Hq.
    destruct (Belongs_row rootId allOps q Hbq) as (p & Hp & Hpid).
    exists p. rewrite Hpid. split; [|now split].
    apply (Hin p Hrows). split; [exact Hp|]. now rewrite Hpid.
Qed.

Lemma Belongs_one_root (rootId rootId' : string) allOps i :
  List.NoDup (map id allOps) ->
  (forall op, In op allOps ->
              parentRootId op = None \/ truthy (parentOperationId op) = false) ->
  Belongs rootId allOps i -> Belongs rootId' allOps i -> rootId = rootId'.
Proof.
  intros Hnd Hone Hb. revert rootId'.
  induction Hb as [op Hin Hr|op q Hin Hq Hne Hb IH]; intros rootId' Hb';
    inversion Hb' as [op' Hop' Hr' Hid|op' q' Hop' Hq' Hne' Hbq' Hid];
    pose proof (NoDup_ids_eq allOps op' op Hnd Hop' Hin Hid) as ->.
  - congruence.
  - destruct (Hone op Hin) as [Hnone|Hfalsy]; [congruence|].
    rewrite Hq' in Hfalsy. apply truthy_Some in Hne'. congruence.
  - destruct (Hone op Hin) as [Hnone|Hfalsy]; [congruence|].
    rewrite Hq in Hfalsy. apply truthy_Some in Hne. congruence.
  - apply IH. congruence.
Qed.

(** X26. Roots do not share operations.  With unique ids and rows that
    have at most one usable parent reference, the rows returned for two
    different roots have no row in common. *)
Theorem X26_filterOperationsForRoot_disjoint (rootId rootId' : string) allOps
    rows rows' (fuel fuel' : nat) op :
  List.NoDup (map id allOps) ->
  (forall op, In op allOps ->
              parentRootId op = None \/ truthy (parentOperationId op) = false) ->
  rootId <> rootId' ->
  filterOperationsForRoot fuel rootId allOps = Some rows ->
  filterOperationsForRoot fuel' rootId' allOps = Some rows' ->
  In op rows -> ~ In op rows'.
Proof.
  intros Hnd Hone Hne Hrows Hrows' Hop Hop'.
  apply (filterOperationsForRoot_In rootId allOps fuel rows op Hrows) in Hop
    as [_ Hb].
  apply (filterOperationsForRoot_In rootId' allOps fuel' rows' op Hrows') in Hop'
    as [_ Hb'].
  apply Hne. now apply (Belongs_one_root rootId rootId' allOps (id op)).
Qed.

End BelongsFacts.

(* --------------------------------------------------------------------- *)
(** ** The repository on example rows                                    *)
(* --------------------------------------------------------------------- *)

Lemma exampleRows_NoDup :
  List.NoDup (map DrizzleCalculationRepository.id exampleRows).
Proof.
  cbn. repeat (constructor; [cbn; intuition discriminate|]). constructor.
Defined.

Lemma exampleRows_one_parent op :
  In op exampleRows ->
  DrizzleCalculationRepository.parentRootId op = None
  \/ truthy (DrizzleCalculationRepository.parentOperationId op) = false.
Proof.
  cbn. intros [<-|[<-|[<-|[<-|[<-|[]]]]]]; cbn; auto.
Defined.

Lemma exampleRows_height op parentId :
  In op exampleRows ->
  DrizzleCalculationRepository.parentOperationId op = Some parentId ->
  parentId <> "" ->
  exampleHeight (DrizzleCalculationRepository.id op) < exampleHeight parentId.
Proof.
  cbn. intros [<-|[<-|[<-|[<-|[<-|[]]]]]]; cbn; intros [= <-] _; cbn; lia.
Defined.

Lemma X20_buildOperationTree_structure_witness :
  exists built,
    DrizzleCalculationRepository.buildOperationTree parseFloatOf 3
      [operationRow "a" (Some "r") None] exampleRows = Some built
    /\ map CalculationOperation.id built = ["a"]
    /\ map CalculationOperation.id (flat_map subtree built) = ["a"; "b"; "c"]
    /\ map CalculationOperation.operand built = [50%float].
Proof.
  destruct (DrizzleCalculationRepository.buildOperationTree parseFloatOf 3
              [operationRow "a" (Some "r") None] exampleRows)
    as [built|] eqn:Hbuilt; [|vm_compute in Hbuilt; discriminate Hbuilt].
  exists built. split; [reflexivity|].
  destruct (X20_buildOperationTree_structure parseFloatOf 3 _ _ _ Hbuilt)
    as (_ & Hids & _).
  split; [exact Hids|].
  vm_compute in Hbuilt. injection Hbuilt as <-. split; reflexivity.
Defined.

Lemma X21_self_parent_never_returns_witness :
  DrizzleCalculationRepository.buildOperationTree parseFloatOf 1000
    [operationRow "s" (Some "r") (Some "s")]
    [operationRow "s" (Some "r") (Some "s")] = None.
Proof.
  apply (X21_self_parent_never_returns parseFloatOf 1000
           [operationRow "s" (Some "r") (Some "s")]
           [operationRow "s" (Some "r") (Some "s")]
           (operationRow "s" (Some "r") (Some "s")));
    [now left | reflexivity | discriminate | now left].
Defined.

Lemma X22_buildOperationTree_returns_witness :
  exists built,
    DrizzleCalculationRepository.buildOperationTree parseFloatOf 3
      [operationRow "a" (Some "r") None; operationRow "x" (Some "other") None]
      exampleRows = Some built.
Proof.
  apply (X22_buildOperationTree_returns parseFloatOf exampleHeight 3);
    [exact exampleRows_height|].
  cbn. intros op [<-|[<-|[]]]; cbn; lia.
Defined.

Lemma X23_read_paths_agree_witness :
  DrizzleCalculationRepository.buildTrees parseFloatOf 3
    [rootRow "r" "100.0000000000"; rootRow "other" "50.0000000000"] exampleRows
  = DrizzleCalculationRepository.traverse
      (fun found =>
         DrizzleCalculationRepository.findRootByIdWithOperations_tree
           parseFloatOf 6 3
           (DrizzleCalculationRepository.mapToRootEntity parseFloatOf found)
           (DrizzleCalculationRepository.r_id found) exampleRows)
      [rootRow "r" "100.0000000000"; rootRow "other" "50.0000000000"]
  /\ option_map (map CalculationRoot.getTotalOperationCount)
       (DrizzleCalculationRepository.buildTrees parseFloatOf 3
          [rootRow "r" "100.0000000000"; rootRow "other" "50.0000000000"]
          exampleRows)
     = Some [3; 2].
Proof.
  split; [|vm_compute; reflexivity].
  apply (X23_read_paths_agree parseFloatOf 6 3); [|cbn; lia].
  cbn. intros found [<-|[<-|[]]]; discriminate.
Defined.

Lemma X24_filterOperationsForRoot_idempotent_witness :
  DrizzleCalculationRepository.filterOperationsForRoot 4 "r"
    [operationRow "c" None (Some "b"); operationRow "b" None (Some "a");
     operationRow "a" (Some "r") None]
  = Some [operationRow "c" None (Some "b"); operationRow "b" None (Some "a");
          operationRow "a" (Some "r") None].
Proof.
  apply (X24_filterOperationsForRoot_idempotent "r" exampleRows _ 6 4);
    [vm_compute; reflexivity | cbn; lia].
Defined.

Lemma X25_filterOperationsForRoot_self_contained_witness :
  exists parent,
    In parent [operationRow "c" None (Some "b"); operationRow "b" None (Some "a");
               operationRow "a" (Some "r") None]
    /\ Some "b" = Some (DrizzleCalculationRepository.id parent).
Proof.
  destruct (X25_filterOperationsForRoot_self_contained "r" exampleRows
              [operationRow "c" None (Some "b"); operationRow "b" None (Some "a");
               operationRow "a" (Some "r") None]
              6 (operationRow "c" None (Some "b")) exampleRows_NoDup)
    as [Hroot|(parent & Hin & Hparent & _)];
    [vm_compute; reflexivity | now left | discriminate Hroot |].
  exists parent. split; [exact Hin | exact Hparent].
Defined.

Lemma X26_filterOperationsForRoot_disjoint_witness :
  ~ In (operationRow "a" (Some "r") None)
       [operationRow "x" (Some "other") None; operationRow "y" None (Some "x")].
Proof.
  apply (X26_filterOperationsForRoot_disjoint "r" "other" exampleRows
           [operationRow "c" None (Some "b"); operationRow "b" None (Some "a");
            operationRow "a" (Some "r") None]
           [operationRow "x" (Some "other") None; operationRow "y" None (Some "x")]
           6 6 (operationRow "a" (Some "r") None)
           exampleRows_NoDup exampleRows_one_parent);
    [discriminate | vm_compute; reflexivity | vm_compute; reflexivity |].
  do 2 right. now left.
Defined.

Lemma Belongs_no_direct (rootId : string)
    (allOps : list DrizzleCalculationRepository.OperationRow) (i : string) :
  (forall op, In op allOps ->
              DrizzleCalculationRepository.parentRootId op <> Some rootId) ->
  ~ Belongs rootId allOps i.
Proof.
  intros Hnone Hb. induction Hb as [op Hin Hr|op q Hin Hq Hne Hb IH];
    [now apply (Hnone op Hin) | exact IH].
Qed.

(** X27. A root that no row names directly has no operations, whatever the
    other rows are (none, or the trees of other roots):
    [filterOperationsForRoot] returns the empty list, and [buildTrees]
    returns the root with an empty operations list, for any fuel. *)
Theorem X27_root_without_operations (parseFloat : string -> float)
    (fuel fuelBuild : nat) (found : DrizzleCalculationRepository.RootRow)
    (allOps : list DrizzleCalculationRepository.OperationRow) :
  (forall op, In op allOps ->
              DrizzleCalculationRepository.parentRootId op
              <> Some (DrizzleCalculationRepository.r_id found)) ->
  length allOps < fuel ->
  DrizzleCalculationRepository.filterOperationsForRoot fuel
    (DrizzleCalculationRepository.r_id found) allOps = Some []
  /\ DrizzleCalculationRepository.buildTrees parseFloat fuelBuild [found] allOps
     = Some [DrizzleCalculationRepository.mapToRootEntity parseFloat found]
  /\ CalculationRoot.getTotalOperationCount
       (DrizzleCalculationRepository.mapToRootEntity parseFloat found) = 0.
Proof.
  intros Hnone Hfuel. split; [|split; [|reflexivity]].
  - destruct (filterOperationsForRoot_total
                (DrizzleCalculationRepository.r_id found) allOps fuel Hfuel)
      as [rows Hrows].
    rewrite Hrows. f_equal. destruct rows as [|op rows]; [reflexivity|].
    apply (filterOperationsForRoot_In _ allOps fuel _ op) in Hrows.
    destruct (proj1 Hrows (or_introl eq_refl)) as [_ Hb].
    now apply Belongs_no_direct in Hb.
  - unfold DrizzleCalculationRepository.buildTrees.
    cbn [DrizzleCalculationRepository.traverse].
    assert (Hdirect :
              default [] (DrizzleCalculationRepository.groupRows
                            DrizzleCalculationRepository.parentRootId allOps
                          !! CalculationRoot.id
                               (DrizzleCalculationRepository.mapToRootEntity
                                  parseFloat found)) = []).
    { rewrite groupRows_lookup.
      destruct (List.filter _ allOps) as [|op l] eqn:Hf; [reflexivity|].
      assert (Hop : In op (List.filter
                             (keyIs DrizzleCalculationRepository.parentRootId
                                (CalculationRoot.id
                                   (DrizzleCalculationRepository.mapToRootEntity
                                      parseFloat found))) allOps))
        by (rewrite Hf; now left).
      apply filter_In in Hop as [Hin [Hkey _]%keyIs_true].
      now destruct (Hnone op Hin). }
    rewrite Hdirect. reflexivity.
Qed.

Lemma X27_root_without_operations_witness :
  DrizzleCalculationRepository.filterOperationsForRoot 6 "lonely" exampleRows
  = Some []
  /\ DrizzleCalculationRepository.buildTrees parseFloatOf 0
       [rootRow "lonely" "100.0000000000"] exampleRows
     = Some [DrizzleCalculationRepository.mapToRootEntity parseFloatOf
               (rootRow "lonely" "100.0000000000")].
Proof.
  destruct (X27_root_without_operations parseFloatOf 6 0
              (rootRow "lonely" "100.0000000000") exampleRows)
    as (Hfilter & Hbuild & _); [|cbn; lia|now split].
  cbn. intros op [<-|[<-|[<-|[<-|[<-|[]]]]]]; discriminate.
Defined.

(** X28. Inside the transaction of [createRoot] a root is saved only if
    its value is finite, and what is returned is what was saved: when the
    callback returns a root, the value is finite, the root carries the
    input's value, user and name, no operations and equal timestamps, and
    [saveRoot] accepted exactly that root; when the value is finite the
    callback's outcome is the outcome of that [saveRoot]. *)
Theorem X28_createRoot_transaction W (rt : Runtime W)
    (input : CalculationService.CreateRootInput)
    (uow : ICalculationRepository.t W) (w : W) :
  (forall root w',
      CalculationService.createRoot_transaction rt input uow w = (Ok root, w') ->
      CalculationRoot.Number_isFinite (CalculationService.value input) = true
      /\ CalculationRoot.value root = CalculationService.value input
      /\ CalculationRoot.userId root = CalculationService.r_userId input
      /\ CalculationRoot.username root = CalculationService.r_username input
      /\ CalculationRoot.operations root = []
      /\ CalculationRoot.createdAt root = CalculationRoot.updatedAt root
      /\ CalculationRoot.id root = fst (randomUUID rt (snd (newDate rt w)))
      /\ ICalculationRepository.saveRoot uow root
           (snd (randomUUID rt (snd (newDate rt w)))) = (Ok tt, w'))
  /\ (CalculationRoot.Number_isFinite (CalculationService.value input) = true ->
      exists root,
        CalculationRoot.value root = CalculationService.value input
        /\ CalculationService.createRoot_transaction rt input uow w
           = match ICalculationRepository.saveRoot uow root
                     (snd (randomUUID rt (snd (newDate rt w)))) with
             | (Ok _, w') => (Ok root, w')
             | (Err e, w') => (Err e, w')
             end).
Proof.
  unfold CalculationService.createRoot_transaction, bind, ret,
    CalculationRoot.create. cbn.
  destruct (CalculationRoot.Number_isFinite (CalculationService.value input));
    cbn.
  - destruct (newDate rt w) as [now w1]; cbn.
    destruct (randomUUID rt w1) as [uuid w2]; cbn. split.
    + intros root w'.
      destruct (ICalculationRepository.saveRoot uow _ w2) as [[[]|e] w3] eqn:Hsave;
        [|discriminate].
      intros [= <- <-]. repeat split. exact Hsave.
    + intros _.
      exists (CalculationRoot.new
                {| CalculationRoot.p_id := uuid;
                   CalculationRoot.p_value := CalculationService.value input;
                   CalculationRoot.p_userId := CalculationService.r_userId input;
                   CalculationRoot.p_username :=
                     CalculationService.r_username input;
                   CalculationRoot.p_createdAt := now;
                   CalculationRoot.p_updatedAt := now |}).
      split; [reflexivity|].
      now destruct (ICalculationRepository.saveRoot uow _ w2) as [[[]|e] w3].
  - split; [discriminate|discriminate].
Qed.

Lemma X28_createRoot_transaction_witness :
  exists root w',
    CalculationService.createRoot_transaction Mock.runtime
      (serviceRootInput 100) Mock.repository Mock.world0 = (Ok root, w')
    /\ CalculationRoot.value root = 100%float
    /\ Mock.trees w' = [Mock.root1; root].
Proof.
  destruct (X28_createRoot_transaction Mock.World Mock.runtime
              (serviceRootInput 100) Mock.repository Mock.world0)
    as [_ Hfinite].
  destruct (Hfinite eq_refl) as (root & Hvalue & Hrun).
  exists root. eexists. split; [rewrite Hrun; reflexivity|].
  split; [exact Hvalue|].
  vm_compute in Hrun.
  destruct (CalculationService.createRoot_transaction Mock.runtime
              (serviceRootInput 100) Mock.repository Mock.world0)
    as [r w'] eqn:Hcb.
  vm_compute in Hcb. injection Hcb as <- <-. injection Hrun as <-.
  reflexivity.
Defined.
